(** * gophermart-bonus: order reconciliation, balance ledger, withdrawals

    A shallow embedding of the Go sources

      - internal/app/repositories: order.go ([OrderRepository]),
        withdrawal.go ([WithdrawalRepository]), accrual.go
        ([AccrualRepository]);
      - internal/app/service: order.go ([OrderService]), withdrawal.go
        ([WithdrawalService]);
      - internal/app/handlers: withdrawal.go ([CreateWithdrawalHandler]).

    The SQL store is a record of four tables with one optional open
    transaction; every call that reaches the driver may fail, the failures
    being read off a script that is part of the state.  Monetary amounts are
    [float64] in Go and columns of the store whose type is declared by the
    migrations (not part of the sources); the arithmetic on them is done by
    the store ([balance + $1], [balance - $1]).  They are taken here as exact
    rationals ([Q]), so rounding is not modelled. *)

From Stdlib Require Import ZArith NArith QArith Qround Qabs Qpower Lqa String Ascii List Lia.
From Stdlib Require Import SpecFloat.
From stdpp Require Import base option gmap strings list.
From stdpp Require Import sorting infinite fin_sets.

Local Open Scope string_scope.
Local Open Scope N_scope.

(** ** Errors *)

(** The sentinel errors of the packages, the two [database/sql] errors the
    code can meet, a PostgreSQL error with its SQLSTATE code, and an opaque
    driver or network failure. *)
Inductive error : Type :=
| ErrTooManyRequests
| ErrOrderNotRegistered
| ErrExternalAccrualServiceNotAvailable
| ErrUnexpectedBehaviour
| ErrInvalidStatus
| ErrWrongMethodUsed
| ErrNotEnoughPoints
| ErrWithdrawalOrderAlreadyExists
| ErrNoRows
| ErrTxDone
| PgError (code : string)
| ErrDriver (msg : string)
| ErrSyntax (input : string)
| ErrRange (input : string).

#[global] Instance error_eq_dec : EqDecision error.
Proof. solve_decision. Defined.

(** [pgerrcode.IsIntegrityConstraintViolation]: SQLSTATE class 23. *)
Definition IsIntegrityConstraintViolation (code : string) : bool :=
  bool_decide (code ∈ ["23000"; "23001"; "23502"; "23503"; "23505"; "23514"; "23P01"]).

(** [errors.As(err, &pgErr) && pgerrcode.IsIntegrityConstraintViolation(pgErr.Code)] *)
Definition isIntegrityViolation (err : error) : bool :=
  match err with
  | PgError code => IsIntegrityConstraintViolation code
  | _ => false
  end.

Definition unique_violation : error := PgError "23505".

(** How a Go call ends: it returns, the process exits
    ([logger.Log.Fatal] of zap logs and calls [os.Exit]), or it panics. *)
Inductive outcome (A : Type) : Type :=
| Ret (a : A)
| Exit
| Panic.
Arguments Ret {A} a.
Arguments Exit {A}.
Arguments Panic {A}.

(** ** The store *)

(** [repositories.Order] *)
Record Order : Type := mkOrder {
  ID : N;
  UserID : N;
  Number : string;
  Status : string;
  CreatedAt : Z
}.

Definition OrderStatusNew : string := "NEW".
Definition OrderStatusProcessing : string := "PROCESSING".
Definition OrderStatusProcessed : string := "PROCESSED".
Definition OrderStatusInvalid : string := "INVALID".

Definition AllOrderStatuses : list string :=
  [OrderStatusNew; OrderStatusProcessing; OrderStatusProcessed; OrderStatusInvalid].

(** A row of ["user-balance"], keyed by [user_id]. *)
Record Balance : Type := mkBalance {
  balance : Q;
  withdrawals_sum : Q
}.

(** A row of ["accrual"]: the columns written by the INSERT of
    [UpdateOrderAndPasteAccrual]. *)
Record Accrual : Type := mkAccrual {
  accrual_amount : Q;
  accrual_user_id : N;
  accrual_order_id : N
}.

(** A row of [withdrawal]: the id and the columns written by the INSERT of
    [WithdrawalRepository.Create]. *)
Record Withdrawal : Type := mkWithdrawal {
  withdrawal_id : N;
  withdrawal_amount : Q;
  withdrawal_user_id : N;
  withdrawal_order_number : string
}.

Record DB : Type := mkDB {
  orders : gmap N Order;
  accruals : list Accrual;
  balances : gmap N Balance;
  withdrawals : list Withdrawal
}.

(** What the driver can answer instead of doing what it is asked: an error
    of the PostgreSQL server, or a failure of the connection. *)
Inductive fault : Type :=
| PgFault (code : string)
| DriverFault (msg : string).

Definition fault_error (f : fault) : error :=
  match f with
  | PgFault code => PgError code
  | DriverFault msg => ErrDriver msg
  end.

(** The connection pool as the code sees it: the committed tables, the
    working copy of the transaction begun last while it is neither committed
    nor rolled back, and the script of driver answers still to come
    ([None]: the call succeeds; an exhausted script: every call succeeds). *)
Record World : Type := mkWorld {
  committed : DB;
  tx : option DB;
  script : list (option fault)
}.

(** State passing over [World]. *)
Definition M (A : Type) : Type := World -> A * World.

Definition ret {A : Type} (a : A) : M A := fun w => (a, w).
Definition bind {A B : Type} (m : M A) (k : A -> M B) : M B :=
  fun w => let '(a, w') := m w in k a w'.

Notation "x <- m ;; k" := (bind m (fun x => k))
  (at level 100, m at next level, right associativity).

(** One call that reaches the driver: the next entry of the script. *)
Definition driver : M (option error) := fun w =>
  match script w with
  | [] => (None, w)
  | o :: rest => (fault_error <$> o, mkWorld (committed w) (tx w) rest)
  end.

(** [pool.BeginTx]: the transaction starts from the committed tables. *)
Definition BeginTx : M (option error) :=
  o <- driver;;
  match o with
  | Some e => ret (Some e)
  | None => fun w => (None, mkWorld (committed w) (Some (committed w)) (script w))
  end.

(** [pool.PrepareContext] *)
Definition PoolPrepare : M (option error) := driver.

(** [stmt.ExecContext] of a statement prepared on the pool: autocommit. *)
Definition PoolExec (stmt : DB -> DB) : M (option error) :=
  o <- driver;;
  match o with
  | Some e => ret (Some e)
  | None => fun w => (None, mkWorld (stmt (committed w)) (tx w) (script w))
  end.

(** [sql.Tx] methods answer [sql.ErrTxDone] once the transaction is
    committed or rolled back, without reaching the driver. *)
Definition inTx {A : Type} (done : error -> A) (k : DB -> M A) : M A := fun w =>
  match tx w with
  | None => (done ErrTxDone, w)
  | Some t => k t w
  end.

Definition setTx (t : option DB) : M unit := fun w =>
  (tt, mkWorld (committed w) t (script w)).

(** [transaction.PrepareContext] *)
Definition TxPrepare : M (option error) :=
  inTx Some (fun _ => driver).

(** [stmt.ExecContext] of a statement prepared on the transaction. *)
Definition TxExec (stmt : DB -> DB) : M (option error) :=
  inTx Some (fun t =>
    o <- driver;;
    match o with
    | Some e => ret (Some e)
    | None => _ <- setTx (Some (stmt t));; ret None
    end).

(** [transaction.Rollback]: the working copy is dropped whether or not the
    driver reports an error. *)
Definition Rollback : M (option error) :=
  inTx Some (fun _ => o <- driver;; _ <- setTx None;; ret o).

(** [transaction.Commit]: the working copy becomes the committed tables; a
    commit the driver reports as failed leaves them as they were. *)
Definition Commit : M (option error) :=
  inTx Some (fun t =>
    o <- driver;;
    match o with
    | Some e => _ <- setTx None;; ret (Some e)
    | None => fun w => (None, mkWorld t None (script w))
    end).

(** [sql.Row]: the deferred error of the query and the row, if any. *)
Record Row (A : Type) : Type := mkRow {
  row_err : option error;
  row_value : option A
}.
Arguments mkRow {A} _ _.
Arguments row_err {A} _.
Arguments row_value {A} _.

(** [row.Scan]: the deferred error first, then [sql.ErrNoRows], then a
    conversion that may fail. *)
Definition Scan {A : Type} (row : Row A) : M (A + error) :=
  match row_err row with
  | Some e => ret (inr e)
  | None =>
      match row_value row with
      | None => ret (inr ErrNoRows)
      | Some v =>
          o <- driver;;
          match o with
          | Some e => ret (inr e)
          | None => ret (inl v)
          end
      end
  end.

(** ** SQL statements *)

(** [UPDATE "order" SET status = $1 WHERE id = $2] *)
Definition updateStatusQuery (status : string) (id : N) (db : DB) : DB :=
  mkDB (alter (fun o => mkOrder (ID o) (UserID o) (Number o) status (CreatedAt o)) id (orders db))
       (accruals db) (balances db) (withdrawals db).

(** [INSERT INTO "accrual" (amount, user_id, order_id) VALUES ($1, $2, $3)] *)
Definition insertAccrual (amount : Q) (user_id order_id : N) (db : DB) : DB :=
  mkDB (orders db) (accruals db ++ [mkAccrual amount user_id order_id])
       (balances db) (withdrawals db).

(** [UPDATE "user-balance" SET balance = balance + $1 WHERE user_id = $2] *)
Definition creditBalance (amount : Q) (user_id : N) (db : DB) : DB :=
  mkDB (orders db) (accruals db)
       (alter (fun b => mkBalance (balance b + amount)%Q (withdrawals_sum b)) user_id (balances db))
       (withdrawals db).

(** [UPDATE "user-balance" SET balance = balance - $1,
     withdrawals_sum = withdrawals_sum + $1 WHERE user_id = $2] *)
Definition debitBalance (amount : Q) (user_id : N) (db : DB) : DB :=
  mkDB (orders db) (accruals db)
       (alter (fun b => mkBalance (balance b - amount)%Q (withdrawals_sum b + amount)%Q)
              user_id (balances db))
       (withdrawals db).

(** [SELECT balance FROM "user-balance" WHERE user_id = $1 FOR UPDATE] *)
Definition selectBalance (user_id : N) (db : DB) : option Q :=
  balance <$> balances db !! user_id.

Definition numberUsed (number : string) (db : DB) : bool :=
  existsb (fun r => bool_decide (withdrawal_order_number r = number)) (withdrawals db).

(** Modelled from the spec: the migrations that declare the [withdrawal]
    table are not part of the sources.  The order number of a withdrawal is
    "unique across all withdrawals", and the id is a number assigned by the
    store; here the next free position. *)
Definition nextWithdrawalID (db : DB) : N := N.of_nat (S (length (withdrawals db))).

Definition insertWithdrawal (amount : Q) (user_id : N) (number : string) (db : DB) : DB :=
  mkDB (orders db) (accruals db) (balances db)
       (withdrawals db ++ [mkWithdrawal (nextWithdrawalID db) amount user_id number]).

(** [stmt.QueryRowContext] on the transaction: the statement may change the
    working copy and return at most one row, or be refused by the store. *)
Definition TxQueryRow {A : Type} (stmt : DB -> DB * option A + error) : M (Row A) :=
  inTx (fun e => mkRow (Some e) None) (fun t =>
    o <- driver;;
    match o with
    | Some e => ret (mkRow (Some e) None)
    | None =>
        match stmt t with
        | inr e => ret (mkRow (Some e) None)
        | inl (t', r) => _ <- setTx (Some t');; ret (mkRow None r)
        end
    end).

(** [INSERT INTO withdrawal (amount, user_id, withdrawal_order_number)
     VALUES ($1, $2, $3) RETURNING id] *)
Definition insertWithdrawalReturningID
    (amount : Q) (user_id : N) (number : string) (db : DB) : DB * option N + error :=
  if numberUsed number db then inr unique_violation
  else inl (insertWithdrawal amount user_id number db, Some (nextWithdrawalID db)).

(** [slices.Contains] *)
Definition Contains (l : list string) (s : string) : bool :=
  existsb (String.eqb s) l.

(** Go's [>] on amounts. *)
Definition Qgtb (a b : Q) : bool := negb (Qle_bool a b).

(** ** Queries outside a transaction *)

(** [stmt.QueryRowContext] of a statement prepared on the pool: the
    statement runs on the committed tables. *)
Definition PoolQueryRow {A : Type} (stmt : DB -> DB * option A + error) : M (Row A) :=
  o <- driver;;
  match o with
  | Some e => ret (mkRow (Some e) None)
  | None => fun w =>
      match stmt (committed w) with
      | inr e => (mkRow (Some e) None, w)
      | inl (db', r) => (mkRow None r, mkWorld db' (tx w) (script w))
      end
  end.

(** [sql.Rows]: the rows still to be read and the error [rows.Err] reports,
    which is the one met by [rows.Next]. *)
Record Rows (A : Type) : Type := mkRows {
  rows_pending : list A;
  rows_err : option error
}.
Arguments mkRows {A} _ _.
Arguments rows_pending {A} _.
Arguments rows_err {A} _.

(** [stmt.QueryContext] of a statement prepared on the pool. *)
Definition PoolQuery {A : Type} (stmt : DB -> list A) : M (Rows A + error) :=
  o <- driver;;
  match o with
  | Some e => ret (inr e)
  | None => fun w => (inl (mkRows (stmt (committed w)) None), w)
  end.

(** The loop of the three listing functions,
    [for rows.Next() { scanErr := rows.Scan(...); if scanErr != nil { return
    nil, scanErr }; xs = append(xs, *x) }]: [Next] is false after the last
    row and also when the driver fails, and the functions do not ask
    [rows.Err] after the loop. *)
Fixpoint forNextScan {A : Type} (pending acc : list A) : M (list A + error) :=
  match pending with
  | [] => ret (inl acc)
  | x :: rest =>
      next <- driver;;
      match next with
      | Some _ => ret (inl acc)
      | None =>
          scanErr <- driver;;
          match scanErr with
          | Some e => ret (inr e)
          | None => forNextScan rest (acc ++ [x])
          end
      end
  end.

(** The rows of ["order"]. *)
Definition orderRows (db : DB) : list Order := snd <$> map_to_list (orders db).

(** [SELECT id, user_id, number, status, created_at FROM "order"
     WHERE number = $1] *)
Definition selectOrderByNumber (number : string) (db : DB) : option Order :=
  head (filter (fun o => Number o = number) (orderRows db)).

(** The orders of [ORDER BY created_at], and of [ORDER BY created_at DESC]. *)
Definition created_before (o1 o2 : Order) : Prop := (CreatedAt o1 <= CreatedAt o2)%Z.
Definition created_after (o1 o2 : Order) : Prop := (CreatedAt o2 <= CreatedAt o1)%Z.

#[global] Instance created_before_dec : RelDecision created_before :=
  fun o1 o2 => Z_le_dec (CreatedAt o1) (CreatedAt o2).
#[global] Instance created_after_dec : RelDecision created_after :=
  fun o1 o2 => Z_le_dec (CreatedAt o2) (CreatedAt o1).

(** [SELECT ... FROM "order" o WHERE o.status = $1 ORDER BY o.created_at] *)
Definition selectOrdersByStatus (status : string) (db : DB) : list Order :=
  merge_sort created_before (filter (fun o => Status o = status) (orderRows db)).

(** [repositories.OrderWithAccrual]: the embedded [Order] and the
    [sql.NullFloat64] of the joined accrual. *)
Record OrderWithAccrual : Type := mkOrderWithAccrual {
  OrderOf : Order;
  NullAccrual : option Q
}.

(** [SELECT o.id, ..., a.amount FROM "order" o LEFT JOIN "accrual" a
     ON o.id = a.order_id WHERE o.user_id = $1 ORDER BY o.created_at DESC]:
    one row per accrual of the order, one row without amount for an order
    that has none. *)
Definition selectOrdersWithAccrual (user_id : N) (db : DB) : list OrderWithAccrual :=
  flat_map
    (fun o =>
       match filter (fun a => accrual_order_id a = ID o) (accruals db) with
       | [] => [mkOrderWithAccrual o None]
       | joined => map (fun a => mkOrderWithAccrual o (Some (accrual_amount a))) joined
       end)
    (merge_sort created_after (filter (fun o => UserID o = user_id) (orderRows db))).

(** [SELECT id, amount, user_id, created_at, withdrawal_order_number
     FROM withdrawal WHERE user_id = $1] (the column [created_at] is not
    part of the rows kept here). *)
Definition selectWithdrawals (user_id : N) (db : DB) : list Withdrawal :=
  filter (fun r => withdrawal_user_id r = user_id) (withdrawals db).

(** Modelled from the spec: the migrations that declare the ["order"] table
    are not part of the sources.  The id is a number assigned by the store,
    here one no order has; an order is created NEW; the order number is
    globally unique.  The time the store writes to [created_at] is a
    parameter. *)
Definition nextOrderID (db : DB) : N := fresh (dom (orders db)).

(** [INSERT INTO "order" (number, user_id) VALUES ($1, $2)
     RETURNING id, user_id, number, status, created_at] *)
Definition insertOrderReturning
    (created_at : DB -> Z) (number : string) (user_id : N) (db : DB)
  : DB * option Order + error :=
  match selectOrderByNumber number db with
  | Some _ => inr unique_violation
  | None =>
      let o := mkOrder (nextOrderID db) user_id number OrderStatusNew (created_at db) in
      inl (mkDB (<[nextOrderID db := o]> (orders db)) (accruals db) (balances db)
             (withdrawals db),
           Some o)
  end.

(** The sentinel errors of order registration, beside the errors above. *)
Inductive order_error : Type :=
| ErrOrderAlreadyExists
| ErrInsertingOrder
| ErrOrderNotFound
| ErrOrderAlreadyRegisteredByCurrentUser
| OtherError (err : error).

#[global] Instance order_error_eq_dec : EqDecision order_error.
Proof. solve_decision. Defined.

(** [Order{}] *)
Definition zeroOrder : Order := mkOrder 0 0 "" "" 0.

(** ** repositories/order.go *)

Module OrderRepository.

(** The ids passed to the statements are ids of rows of [bigint] columns,
    below 2^63; a larger [uint64] argument is refused before the statement
    is run, which is not modelled. *)
Definition UpdateOrderStatus (orderID : N) (status : string) : M (option error) :=
  if negb (Contains AllOrderStatuses status) then ret (Some ErrInvalidStatus)
  else if String.eqb status OrderStatusProcessed then ret (Some ErrWrongMethodUsed)
  else
    err <- PoolPrepare;;
    match err with
    | Some e => ret (Some e)
    | None =>
        err <- PoolExec (updateStatusQuery status orderID);;
        match err with
        | Some e => ret (Some e)
        | None => ret None
        end
    end.

(** The block repeated after every failing step of the transaction:
    [txErr = transaction.Rollback(); if txErr != nil { return txErr };
     return err]. *)
Definition rollbackAndReturn (err : error) : M (option error) :=
  txErr <- Rollback;;
  match txErr with
  | Some e => ret (Some e)
  | None => ret (Some err)
  end.

Definition UpdateOrderAndPasteAccrual
    (order : Order) (status : string) (amount : Q) : M (option error) :=
  if negb (String.eqb status OrderStatusProcessed) then ret (Some ErrWrongMethodUsed)
  else
    txErr <- BeginTx;;
    match txErr with
    | Some e => ret (Some e)
    | None =>
    err <- TxPrepare;;
    match err with
    | Some e => rollbackAndReturn e
    | None =>
    err <- TxExec (updateStatusQuery status (ID order));;
    match err with
    | Some e => rollbackAndReturn e
    | None =>
    err <- TxPrepare;;
    match err with
    | Some e => rollbackAndReturn e
    | None =>
    err <- TxExec (insertAccrual amount (UserID order) (ID order));;
    match err with
    | Some e => rollbackAndReturn e
    | None =>
    err <- TxPrepare;;
    match err with
    | Some e => rollbackAndReturn e
    | None =>
    err <- TxExec (creditBalance amount (UserID order));;
    match err with
    | Some e => rollbackAndReturn e
    | None =>
    txErr <- Commit;;
    match txErr with
    | Some e => ret (Some e)
    | None => ret None
    end end end end end end end end.

Section WithCreatedAt.

(** The time the store writes to [created_at] on insert. *)
Variable created_at : DB -> Z.

Definition Create (number : string) (userID : N) : M (Order * option order_error) :=
  err <- PoolPrepare;;
  match err with
  | Some e => ret (zeroOrder, Some (OtherError e))
  | None =>
  row <- PoolQueryRow (insertOrderReturning created_at number userID);;
  match row_err row with
  | Some e =>
      if isIntegrityViolation e then ret (zeroOrder, Some ErrOrderAlreadyExists)
      else ret (zeroOrder, Some (OtherError e))
  | None =>
  scanned <- Scan row;;
  match scanned with
  | inr e => ret (zeroOrder, Some (OtherError e))
  | inl r => ret (mkOrder (ID r) userID number (Status r) (CreatedAt r), None)
  end end end.

End WithCreatedAt.

Definition Read (number : string) : M (Order * option error) :=
  err <- PoolPrepare;;
  match err with
  | Some e => ret (zeroOrder, Some e)
  | None =>
  row <- PoolQueryRow (fun db => inl (db, selectOrderByNumber number db));;
  match row_err row with
  | Some _ =>
      (* [return Order{}, err]: [err] is the nil of [PrepareContext] *)
      ret (zeroOrder, None)
  | None =>
  scanned <- Scan row;;
  match scanned with
  | inr e => ret (zeroOrder, Some e)
  | inl r => ret (mkOrder (ID r) (UserID r) number (Status r) (CreatedAt r), None)
  end end end.

Definition ReadAllByUserID (userID : N) : M (list OrderWithAccrual * option error) :=
  err <- PoolPrepare;;
  match err with
  | Some e => ret ([], Some e)
  | None =>
  queried <- PoolQuery (selectOrdersWithAccrual userID);;
  match queried with
  | inr e => ret ([], Some e)
  | inl rows =>
  match rows_err rows with
  | Some _ => ret ([], None)
  | None =>
  scanned <- forNextScan (rows_pending rows) [];;
  match scanned with
  | inr scanErr => ret ([], Some scanErr)
  | inl orders => ret (orders, None)
  end end end end.

Definition ReadByStatus (status : string) : M (list Order * option error) :=
  err <- PoolPrepare;;
  match err with
  | Some e => ret ([], Some e)
  | None =>
  queried <- PoolQuery (selectOrdersByStatus status);;
  match queried with
  | inr e => ret ([], Some e)
  | inl rows =>
  match rows_err rows with
  | Some e =>
      if bool_decide (e = ErrNoRows) then ret ([], None)
      else
        (* [return nil, err]: [err] is the nil of [QueryContext] *)
        ret ([], None)
  | None =>
  scanned <- forNextScan (rows_pending rows) [];;
  match scanned with
  | inr scanErr => ret ([], Some scanErr)
  | inl orders => ret (orders, None)
  end end end end.

End OrderRepository.

(** ** repositories/withdrawal.go *)

Module WithdrawalRepository.

(** [txErr = transaction.Rollback(); if txErr != nil { return 0, txErr };
     return 0, err] *)
Definition rollbackAndReturn (err : error) : M (outcome (N * option error)) :=
  txErr <- Rollback;;
  match txErr with
  | Some e => ret (Ret (0, Some e))
  | None => ret (Ret (0, Some err))
  end.

(** The same with [logger.Log.Fatal] on a failed rollback. *)
Definition rollbackOrFatal (err : error) : M (outcome (N * option error)) :=
  txErr <- Rollback;;
  match txErr with
  | Some _ => ret Exit
  | None => ret (Ret (0, Some err))
  end.

Definition Create (number : string) (amount : Q) (userID : N)
  : M (outcome (N * option error)) :=
  txErr <- BeginTx;;
  match txErr with
  | Some e => ret (Ret (0, Some e))
  | None =>
  err <- TxPrepare;;
  match err with
  | Some e => rollbackAndReturn e
  | None =>
  row <- TxQueryRow (fun t => inl (t, selectBalance userID t));;
  match row_err row with
  | Some e => rollbackOrFatal e
  | None =>
  scanned <- Scan row;;
  match scanned with
  | inr e => rollbackOrFatal e
  | inl balance =>
  if Qgtb amount balance then rollbackOrFatal ErrNotEnoughPoints
  else
  err <- TxPrepare;;
  match err with
  | Some e => rollbackOrFatal e
  | None =>
  err <- TxExec (debitBalance amount userID);;
  match err with
  | Some e => rollbackOrFatal e
  | None =>
  err <- TxPrepare;;
  match err with
  | Some e => ret (Ret (0, Some e))
  | None =>
  row <- TxQueryRow (insertWithdrawalReturningID amount userID number);;
  (* if row.Err() != nil: rollback, Fatal when that fails, a warning
     otherwise; the branch does not return *)
  fatal <- match row_err row with
           | Some _ =>
               txErr <- Rollback;;
               match txErr with
               | Some _ => ret true
               | None => ret false
               end
           | None => ret false
           end;;
  if fatal then ret Exit
  else
  scanned <- Scan row;;
  match scanned with
  | inr e =>
      if isIntegrityViolation e
      then ret (Ret (0, Some ErrWithdrawalOrderAlreadyExists))
      else rollbackAndReturn e
  | inl id =>
      txErr <- Commit;;
      match txErr with
      | Some _ => ret Exit
      | None => ret (Ret (id, None))
      end
  end end end end end end end end.

Definition ReadAllByUserID (userID : N) : M (outcome (list Withdrawal * option error)) :=
  err <- PoolPrepare;;
  match err with
  | Some e => ret (Ret ([], Some e))
  | None =>
  queried <- PoolQuery (selectWithdrawals userID);;
  match queried with
  | inr e => ret (Ret ([], Some e))
  | inl rows =>
  match rows_err rows with
  | Some _ => ret Exit
  | None =>
  scanned <- forNextScan (rows_pending rows) [];;
  match scanned with
  | inr scanErr => ret (Ret ([], Some scanErr))
  | inl withdrawals => ret (Ret (withdrawals, None))
  end end end end.

End WithdrawalRepository.

(** ** service/withdrawal.go *)

Module WithdrawalService.

Definition Create (number : string) (amount : Q) (userID : N)
  : M (outcome (N * option error)) :=
  r <- WithdrawalRepository.Create number amount userID;;
  match r with
  | Ret (createdWithdrawalID, None) => ret (Ret (createdWithdrawalID, None))
  | Ret (_, Some err) => ret (Ret (0, Some err))
  | Exit => ret Exit
  | Panic => ret Panic
  end.

Definition ReadAllByUserID (userID : N) : M (outcome (list Withdrawal * option error)) :=
  r <- WithdrawalRepository.ReadAllByUserID userID;;
  match r with
  | Ret (existingWithdrawals, None) => ret (Ret (existingWithdrawals, None))
  | Ret (_, Some err) => ret (Ret ([], Some err))
  | Exit => ret Exit
  | Panic => ret Panic
  end.

End WithdrawalService.

(** ** repositories/accrual.go *)

Record ExternalOrder : Type := mkExternalOrder {
  Order_ : string;          (* json "order" *)
  ExtStatus : string;       (* json "status" *)
  ExtAccrual : Q            (* json "accrual" *)
}.

Definition emptyExternalOrder : ExternalOrder := mkExternalOrder "" "" 0%Q.

Definition ExternalOrderStatusRegistered : string := "REGISTERED".
Definition ExternalOrderStatusProcessing : string := "PROCESSING".
Definition ExternalOrderStatusProcessed : string := "PROCESSED".
Definition ExternalOrderStatusInvalid : string := "INVALID".

Definition StatusOK : Z := 200.
Definition StatusNoContent : Z := 204.
Definition StatusBadRequest : Z := 400.
Definition StatusPaymentRequired : Z := 402.
Definition StatusUnprocessableEntity : Z := 422.
Definition StatusTooManyRequests : Z := 429.
Definition StatusInternalServerError : Z := 500.

(** [time.Time] as nanoseconds since Go's zero instant, [time.Duration] as
    nanoseconds. *)
Definition Second : Z := 1000000000.

(** The struct without its HTTP client; [config] reduced to the one field
    that is read. *)
Record AccrualRepository : Type := mkAccrualRepository {
  AccrualSystemAddress : string;
  retryAfter : Z
}.

Definition NewAccrualRepository (address : string) : AccrualRepository :=
  mkAccrualRepository address 0.

Definition IsZero (t : Z) : bool := (t =? 0)%Z.

Definition CanDoRequest (a : AccrualRepository) (now : Z) : bool :=
  if IsZero (retryAfter a) then true
  else if (retryAfter a <? now)%Z then true
  else false.

(** [float64]: IEEE 754 binary64 with round to nearest, ties to even, on the
    rationals.  The values met here are far from the overflow and the
    subnormal ranges, which are not modelled. *)

(** The exponent of the binade of a positive rational: the largest [e] with
    [2 ^ e <= q]. *)
Definition binade (q : Q) : Z :=
  let e := (Z.log2 (Qnum q) - Z.log2 (Z.pos (Qden q)))%Z in
  if Qle_bool (2 ^ e) q then e else (e - 1)%Z.

(** The integer nearest to a rational, the even one of two that are equally
    near. *)
Definition nearest_even (q : Q) : Z :=
  let f := Qfloor q in
  match (q - inject_Z f ?= 1 # 2)%Q with
  | Lt => f
  | Gt => (f + 1)%Z
  | Eq => if Z.even f then f else (f + 1)%Z
  end.

(** The [float64] nearest to a rational: 53 significant bits. *)
Definition float64 (q : Q) : Q :=
  if Qeq_bool q 0 then 0%Q
  else
    let ulp := (2 ^ (binade (Qabs q) - 52))%Q in
    (inject_Z (nearest_even (q / ulp)) * ulp)%Q.

(** The conversion of a [float64] to an integer type: the fraction is
    dropped. *)
Definition truncate (q : Q) : Z := Z.quot (Qnum q) (Z.pos (Qden q)).

(** The same two operations as the Standard Library specifies them for
    binary64, to compare with. *)
Definition SF_of_Z (z : Z) : spec_float := binary_normalize 53 1024 z 0 false.

Definition SF_to_Q (f : spec_float) : Q :=
  match f with
  | S754_finite s m e => ((if s then -1 else 1) * inject_Z (Z.pos m) * 2 ^ e)%Q
  | _ => 0%Q
  end.

(** [t.Sub(u)]: the difference, kept within the range of a [Duration]. *)
Definition Sub (t u : Z) : Z := Z.max (- 2 ^ 63) (Z.min (2 ^ 63 - 1) (t - u)).

(** [d.Seconds()]:
    [sec := d / Second; nsec := d % Second;
     return float64(sec) + float64(nsec)/1e9]. *)
Definition Seconds (d : Z) : Q :=
  let sec := Z.quot d Second in
  let nsec := Z.rem d Second in
  float64 (float64 (inject_Z sec) + float64 (float64 (inject_Z nsec) / 1000000000)).

(** [time.Duration(time.Until(a.retryAfter).Seconds())]: the seconds left,
    as a [float64], converted to a number of nanoseconds. *)
Definition GetSleepDuration (a : AccrualRepository) (now : Z) : Z :=
  if IsZero (retryAfter a) then 0%Z
  else truncate (Seconds (Sub (retryAfter a) now)).

(** What [client.R().SetResult(&order).Get(url)] gives back. *)
Inductive reply : Type :=
| TransportError (err : error)
| NilResponse
| Response (StatusCode : Z) (Header : gmap string (list string)) (result : ExternalOrder).

(** [strconv.Atoi] on a 64-bit platform. *)
Definition digit (c : ascii) : option Z :=
  let n := (Z.of_N (N_of_ascii c) - 48)%Z in
  if ((0 <=? n) && (n <=? 9))%Z then Some n else None.

Fixpoint digits (s : string) (acc : Z) : option Z :=
  match s with
  | EmptyString => Some acc
  | String c s' =>
      match digit c with
      | Some d => digits s' (acc * 10 + d)%Z
      | None => None
      end
  end.

Definition Atoi (s0 : string) : Z + error :=
  let '(neg, s) :=
    match s0 with
    | String "-"%char s' => (true, s')
    | String "+"%char s' => (false, s')
    | _ => (false, s0)
    end in
  match s with
  | EmptyString => inr (ErrSyntax s0)
  | _ =>
      match digits s 0 with
      | None => inr (ErrSyntax s0)
      | Some n =>
          let v := if neg then (- n)%Z else n in
          if ((- 2 ^ 63 <=? v) && (v <? 2 ^ 63))%Z then inl v else inr (ErrRange s0)
      end
  end.

(** One run of [GetOrder], with the clock made explicit: the call starts at
    [now], [time.Sleep] moves the clock forward, the request leaves at
    [sent] and the answer is there [rtt] later.  The method has a value
    receiver, so [a] is the callee's copy of the struct: [receiver] is that
    copy when the method returns, and the caller's struct is not touched. *)
Record GetOrderRun : Type := mkRun {
  returned : outcome (ExternalOrder * option error);
  sent : Z;
  receiver : AccrualRepository
}.

Definition GetOrder (a : AccrualRepository) (number : string)
    (now : Z) (answer : reply) (rtt : Z) : GetOrderRun :=
  let sent :=
    if negb (CanDoRequest a now) then (now + Z.max 0 (GetSleepDuration a now))%Z
    else now in
  match answer with
  | TransportError err => mkRun (Ret (emptyExternalOrder, Some err)) sent a
  | NilResponse => mkRun (Ret (emptyExternalOrder, None)) sent a
  | Response StatusCode Header order =>
      if (StatusCode =? StatusTooManyRequests)%Z then
        match Header !! "Retry-After" with
        | Some (value :: _) =>
            match Atoi value with
            | inr innerErr => mkRun (Ret (emptyExternalOrder, Some innerErr)) sent a
            | inl retryAfterHeaderValue =>
                mkRun (Ret (emptyExternalOrder, Some ErrTooManyRequests)) sent
                  (mkAccrualRepository (AccrualSystemAddress a)
                     (sent + rtt + retryAfterHeaderValue)%Z)
            end
        | _ => mkRun Panic sent a
        end
      else if (StatusCode =? StatusNoContent)%Z then
        mkRun (Ret (emptyExternalOrder, Some ErrOrderNotRegistered)) sent a
      else if (StatusCode =? StatusInternalServerError)%Z then
        mkRun (Ret (emptyExternalOrder, Some ErrExternalAccrualServiceNotAvailable)) sent a
      else if (StatusCode =? StatusOK)%Z then
        mkRun (Ret (order, None)) sent a
      else
        mkRun (Ret (emptyExternalOrder, Some ErrUnexpectedBehaviour)) sent a
  end.

(** The service keeps the repository in an interface value and calls
    [o.accrualRepository.GetOrder] on it: every call runs on a fresh copy
    of the same struct.  [calls] lists, per call, the order number, the
    instant of the call, the answer and its delay. *)
Definition polls (a : AccrualRepository) (calls : list (string * Z * reply * Z))
  : list GetOrderRun :=
  map (fun '(number, now, answer, rtt) => GetOrder a number now answer rtt) calls.

(** ** service/order.go *)

Module OrderService.

Section WithAccrualRepository.

(** [accrualRepository.GetOrder], behind its interface. *)
Variable accrualRepository_GetOrder : string -> ExternalOrder * option error.

Definition UpdateOrderStatus (order : Order) : M (option error) :=
  let '(orderState, err) := accrualRepository_GetOrder (Number order) in
  match err with
  | Some err =>
      if bool_decide (err = ErrOrderNotRegistered) then
        innerErr <- OrderRepository.UpdateOrderStatus (ID order) OrderStatusInvalid;;
        match innerErr with
        | Some e => ret (Some e)
        | None => ret None
        end
      else
        err <- OrderRepository.UpdateOrderStatus (ID order) OrderStatusNew;;
        match err with
        | Some e => ret (Some e)
        | None => ret None
        end
  | None =>
      if String.eqb (ExtStatus orderState) ExternalOrderStatusRegistered then
        (* an empty case: Go does not fall through to the next one *)
        ret None
      else if String.eqb (ExtStatus orderState) ExternalOrderStatusProcessing then
        err <- OrderRepository.UpdateOrderStatus (ID order) OrderStatusNew;;
        match err with
        | Some e => ret (Some e)
        | None => ret None
        end
      else if String.eqb (ExtStatus orderState) ExternalOrderStatusProcessed then
        err <- OrderRepository.UpdateOrderAndPasteAccrual
                 order OrderStatusProcessed (ExtAccrual orderState);;
        match err with
        | Some e =>
            innerErr <- OrderRepository.UpdateOrderStatus (ID order) OrderStatusNew;;
            match innerErr with
            | Some e' => ret (Some e')
            | None => ret (Some e)
            end
        | None => ret None
        end
      else if String.eqb (ExtStatus orderState) ExternalOrderStatusInvalid then
        err <- OrderRepository.UpdateOrderStatus (ID order) OrderStatusInvalid;;
        match err with
        | Some e =>
            innerErr <- OrderRepository.UpdateOrderStatus (ID order) OrderStatusNew;;
            match innerErr with
            | Some e' => ret (Some e')
            | None => ret (Some e)
            end
        | None => ret None
        end
      else
        err <- OrderRepository.UpdateOrderStatus (ID order) OrderStatusNew;;
        match err with
        | Some e => ret (Some e)
        | None => ret None
        end
  end.

End WithAccrualRepository.

Definition Create (created_at : DB -> Z) (number : string) (userID : N)
  : M (N * option order_error) :=
  r <- OrderRepository.Create created_at number userID;;
  match r with
  | (_, Some err) =>
      if bool_decide (err = ErrOrderAlreadyExists) then
        r' <- OrderRepository.Read number;;
        match r' with
        | (_, Some innerErr) => ret (0, Some (OtherError innerErr))
        | (existingOrder, None) =>
            if negb (UserID existingOrder =? userID) then ret (0, Some err)
            else ret (0, Some ErrOrderAlreadyRegisteredByCurrentUser)
        end
      else ret (0, Some err)
  | (order, None) => ret (ID order, None)
  end.

Definition ReadAllByUserID (userID : N) : M (list OrderWithAccrual * option error) :=
  r <- OrderRepository.ReadAllByUserID userID;;
  match r with
  | (_, Some err) => ret ([], Some err)
  | (orders, None) => ret (orders, None)
  end.

Definition GetOrdersForProcessing : M (list Order * option error) :=
  r <- OrderRepository.ReadByStatus "NEW";;
  match r with
  | (_, Some err) => ret ([], Some err)
  | (orders, None) => ret (orders, None)
  end.

(** The loop over the orders in [WorkerLoop]: each order is marked
    PROCESSING and then written to [ordersChannel]; [sent] collects the
    orders written, in order.  A failing update ends [WorkerLoop] with its
    error. *)
Fixpoint dispatch (orders sent : list Order) : M (option error * list Order) :=
  match orders with
  | [] => ret (None, sent)
  | order :: rest =>
      err <- OrderRepository.UpdateOrderStatus (ID order) OrderStatusProcessing;;
      match err with
      | Some e => ret (Some e, sent)
      | None => dispatch rest (sent ++ [order])
      end
  end.

(** One turn of the [default] branch of the [select] in [WorkerLoop], up to
    the sleep: the error [WorkerLoop] returns with, if any, and the orders
    handed to the workers. *)
Definition pollCycle : M (option error * list Order) :=
  r <- GetOrdersForProcessing;;
  match r with
  | (_, Some err) => ret (Some err, [])
  | (orders, None) => dispatch orders []
  end.

End OrderService.

(** ** handlers/withdrawal.go *)

(** The Luhn check of [github.com/theplant/luhn], the library the handlers
    call.  The library is not part of the repository: the handler below
    takes its [Valid] as a parameter, and this rendering of it is used to run
    the handler on examples.  Go's [/] and [%] truncate; the loop of
    [checksum] runs once per decimal digit of an [int], at most 19 times. *)
Module luhn.

Fixpoint checksum_loop (fuel : nat) (i number acc : Z) : Z :=
  match fuel with
  | O => acc
  | S fuel' =>
      if (number >? 0)%Z then
        let cur := Z.rem number 10 in
        let cur :=
          if (Z.rem i 2 =? 0)%Z then
            let cur := (cur * 2)%Z in
            if (cur >? 9)%Z then (Z.rem cur 10 + Z.quot cur 10)%Z else cur
          else cur in
        checksum_loop fuel' (i + 1)%Z (Z.quot number 10) (acc + cur)%Z
      else acc
  end.

Definition checksum (number : Z) : Z :=
  Z.rem (checksum_loop 20 0 number 0) 10.

Definition Valid (number : Z) : bool :=
  (Z.rem (Z.rem number 10 + checksum (Z.quot number 10)) 10 =? 0)%Z.

End luhn.

Module models.

(** The declaration of [models.CreateWithdrawalRequest] is not part of
    the sources; the handler reads its fields [Order], passed to
    [strconv.Atoi], and [Amount], passed on as a [float64]. *)
Record CreateWithdrawalRequest : Type := mkCreateWithdrawalRequest {
  Order : string;
  Amount : Q
}.

End models.

(** [strings.Contains] *)
Fixpoint strings_Contains (s substr : string) : bool :=
  if String.prefix substr s then true
  else
    match s with
    | EmptyString => false
    | String _ s' => strings_Contains s' substr
    end.

(** What a handler does to its [http.ResponseWriter], call by call. *)
Inductive write : Type :=
| WriteHeader (code : Z)
| WriteBody (text : string).

(** [http.Error]: the status line, then the message and a newline. *)
Definition http_Error (message : string) (code : Z) : list write :=
  [WriteHeader code; WriteBody (message ++ String (ascii_of_nat 10) "")].

Module CreateWithdrawalHandler.

(** The request as the handler reads it: the Content-Type header, the
    body as [json.Decoder.Decode] fills [requestData] ([None]: it
    fails), and the value under [middlewares.UserIDKey] in the context. *)
Record Request : Type := mkRequest {
  ContentType : string;
  Body : option models.CreateWithdrawalRequest;
  ContextUserID : option N
}.

Section WithLuhn.

(** [luhn.Valid] *)
Variable luhn_Valid : Z -> bool.

(** The calls on the writer, and how the handler ends. *)
Definition ServeHTTP (request : Request) : M (list write * outcome unit) :=
  if negb (strings_Contains (ContentType request) "application/json") then
    ret (http_Error "Only application/json content type is allowed" StatusBadRequest, Ret tt)
  else
    match Body request with
    | None => ret ([WriteHeader StatusBadRequest], Ret tt)
    | Some requestData =>
    match Atoi (models.Order requestData) with
    | inr _ => ret ([WriteHeader StatusBadRequest], Ret tt)
    | inl intOrderNumber =>
    if negb (luhn_Valid intOrderNumber) then
      ret (http_Error "The provided payload does not contain a valid order number"
             StatusUnprocessableEntity, Ret tt)
    else
      let writer :=
        if Qeq_bool (models.Amount requestData) 0 then
          (* no return after this answer *)
          http_Error "The provided payload does not contain a valid withdrawal amount"
            StatusUnprocessableEntity
        else [] in
      match ContextUserID request with
      | None => ret (writer, Panic)
      | Some userID =>
          r <- WithdrawalService.Create
                 (models.Order requestData) (models.Amount requestData) userID;;
          match r with
          | Exit => ret (writer, Exit)
          | Panic => ret (writer, Panic)
          | Ret (_, Some err) =>
              if bool_decide (err = ErrWithdrawalOrderAlreadyExists) then
                ret ((writer ++ [WriteHeader StatusBadRequest])%list, Ret tt)
              else if bool_decide (err = ErrNotEnoughPoints) then
                ret ((writer ++ [WriteHeader StatusPaymentRequired])%list, Ret tt)
              else
                ret ((writer ++ http_Error "Couldn't register the withdrawal"
                                  StatusInternalServerError)%list, Ret tt)
          | Ret (_, None) => ret ((writer ++ [WriteHeader StatusOK])%list, Ret tt)
          end
      end
    end
    end.

End WithLuhn.

End CreateWithdrawalHandler.

(** ** handlers/order.go *)

Definition StatusAccepted : Z := 202.
Definition StatusConflict : Z := 409.

(** The [int] that [strconv.Atoi] returns beside an error: 0 for a syntax
    error, the nearest bound for a value out of range. *)
Definition AtoiValue (s : string) : Z :=
  match Atoi s with
  | inl v => v
  | inr (ErrRange _) =>
      match s with
      | String "-"%char _ => (- 2 ^ 63)%Z
      | _ => (2 ^ 63 - 1)%Z
      end
  | inr _ => 0%Z
  end.

Module RegisterOrderHandler.

(** The request as the handler reads it: the Content-Type header, the body
    as [io.ReadAll] returns it ([None]: it fails), and the value under
    [middlewares.UserIDKey] in the context. *)
Record Request : Type := mkRequest {
  ContentType : string;
  Payload : option string;
  ContextUserID : option N
}.

Section WithLuhn.

(** [luhn.Valid], and the time the store writes to [created_at]. *)
Variable luhn_Valid : Z -> bool.
Variable created_at : DB -> Z.

Definition ServeHTTP (request : Request) : M (list write * outcome unit) :=
  if negb (strings_Contains (ContentType request) "text/plain") then
    ret (http_Error "Only text/plain content type is allowed" StatusBadRequest, Ret tt)
  else
    match Payload request with
    | None => ret (http_Error "Couldn't read the request body" StatusBadRequest, Ret tt)
    | Some payload =>
    if (String.length payload =? 0)%nat then
      ret (http_Error "Please provide an order number" StatusBadRequest, Ret tt)
    else
      let orderNumber := payload in
      let intOrderNumber := AtoiValue orderNumber in
      let writer :=
        match Atoi orderNumber with
        | inr _ =>
            (* no return after this answer *)
            http_Error "The provided payload is not a valid order number"
              StatusUnprocessableEntity
        | inl _ => []
        end in
      if negb (luhn_Valid intOrderNumber) then
        ret ((writer ++ http_Error "The provided payload is not a valid order number"
                          StatusUnprocessableEntity)%list, Ret tt)
      else
        match ContextUserID request with
        | None => ret (writer, Panic)
        | Some userID =>
            r <- OrderService.Create created_at orderNumber userID;;
            match r with
            | (_, Some err) =>
                if bool_decide (err = ErrOrderAlreadyRegisteredByCurrentUser) then
                  ret ((writer ++ [WriteHeader StatusOK])%list, Ret tt)
                else if bool_decide (err = ErrOrderAlreadyExists) then
                  ret ((writer ++ [WriteHeader StatusConflict])%list, Ret tt)
                else
                  ret ((writer ++ http_Error "Couldn't register the order"
                                    StatusInternalServerError)%list, Ret tt)
            | (_, None) => ret ((writer ++ [WriteHeader StatusAccepted])%list, Ret tt)
            end
        end
    end.

End WithLuhn.

End RegisterOrderHandler.

(** ** models/order.go *)

Module OrdersResponse.

Record t : Type := mk {
  Number : string;
  Status : string;
  Accrual : Q;
  CreatedAt : Z
}.

End OrdersResponse.

Module ReadAllOrdersHandler.

Record Answer : Type := mkAnswer {
  writes : list write;
  contentType : option string;
  encoded : option (list OrdersResponse.t)
}.

(** The body of the loop: [Accrual] keeps its zero value when the column
    was NULL. *)
Definition responseData (order : OrderWithAccrual) : OrdersResponse.t :=
  OrdersResponse.mk (Number (OrderOf order)) (Status (OrderOf order))
    (match NullAccrual order with
     | Some amount => amount
     | None => 0%Q
     end)
    (CreatedAt (OrderOf order)).

Definition ServeHTTP (contextUserID : option N) : M (Answer * outcome unit) :=
  match contextUserID with
  | None => ret (mkAnswer [] None None, Panic)
  | Some userID =>
      r <- OrderService.ReadAllByUserID userID;;
      match r with
      | (_, Some _) =>
          ret (mkAnswer (http_Error "Couldn't load orders" StatusInternalServerError)
                 None None, Ret tt)
      | (orders, None) =>
          if (length orders =? 0)%nat then
            ret (mkAnswer [WriteHeader StatusNoContent] None None, Ret tt)
          else
            ret (mkAnswer [WriteHeader StatusOK] (Some "application/json")
                   (Some (map responseData orders)), Ret tt)
      end
  end.

End ReadAllOrdersHandler.

(** ** handlers/withdrawal.go, the listing *)

Module ReadAllWithdrawalsHandler.

(** What the handler leaves on its writer: the calls as before, the
    Content-Type it adds, and the list it hands to [json.Encoder.Encode]. *)
Record Answer : Type := mkAnswer {
  writes : list write;
  contentType : option string;
  encoded : option (list Withdrawal)
}.

Definition ServeHTTP (contextUserID : option N) : M (Answer * outcome unit) :=
  match contextUserID with
  | None => ret (mkAnswer [] None None, Panic)
  | Some userID =>
      r <- WithdrawalService.ReadAllByUserID userID;;
      match r with
      | Exit => ret (mkAnswer [] None None, Exit)
      | Panic => ret (mkAnswer [] None None, Panic)
      | Ret (_, Some _) =>
          ret (mkAnswer (http_Error "Couldn't load withdrawals" StatusInternalServerError)
                 None None, Ret tt)
      | Ret (withdrawals, None) =>
          if (length withdrawals =? 0)%nat then
            ret (mkAnswer [WriteHeader StatusNoContent] None None, Ret tt)
          else
            ret (mkAnswer [WriteHeader StatusOK] (Some "application/json")
                   (Some withdrawals), Ret tt)
      end
  end.

End ReadAllWithdrawalsHandler.

(** ** Vocabulary of the properties *)

(** What [UpdateOrderAndPasteAccrual] commits when it returns [nil]. *)
Definition creditCommitted (order : Order) (amount : Q) (db : DB) : DB :=
  creditBalance amount (UserID order)
    (insertAccrual amount (UserID order) (ID order)
       (updateStatusQuery OrderStatusProcessed (ID order) db)).

(** What [WithdrawalRepository.Create] commits when it returns an id. *)
Definition debitCommitted (number : string) (amount : Q) (userID : N) (db : DB) : DB :=
  insertWithdrawal amount userID number (debitBalance amount userID db).

(** A small store used to run the code: order 1 of user 7, in flight; user
    7 holds 100 points. *)
Definition order1 : Order := mkOrder 1 7 "79927398713" OrderStatusProcessing 0.
Definition store1 : DB := mkDB {[ 1 := order1 ]} [] {[ 7 := mkBalance 100 0 ]} [].
Definition world1 (answers : list (option fault)) : World := mkWorld store1 None answers.

(** The driver does what it is asked for the next [n] calls. *)
Fixpoint answering (n : nat) (s : list (option fault)) : Prop :=
  match n, s with
  | O, _ => True
  | S _, [] => True
  | S n', None :: s' => answering n' s'
  | S _, Some _ :: _ => False
  end.

(** The two operations that change a balance, run one after the other on
    the same store. *)
Inductive operation : Type :=
| Credit (order : Order) (amount : Q)
| Withdraw (number : string) (amount : Q) (userID : N).

(** One operation, and whether it was applied (it returned no error). *)
Definition perform (op : operation) : M bool :=
  match op with
  | Credit order amount =>
      err <- OrderRepository.UpdateOrderAndPasteAccrual order OrderStatusProcessed amount;;
      match err with
      | None => ret true
      | Some _ => ret false
      end
  | Withdraw number amount userID =>
      r <- WithdrawalRepository.Create number amount userID;;
      match r with
      | Ret (_, None) => ret true
      | _ => ret false
      end
  end.

Fixpoint perform_all (ops : list operation) : M (list (operation * bool)) :=
  match ops with
  | [] => ret []
  | op :: rest =>
      applied <- perform op;;
      journal <- perform_all rest;;
      ret ((op, applied) :: journal)
  end.

Definition credit_of (u : N) (entry : operation * bool) : Q :=
  match entry with
  | (Credit order amount, true) => if (UserID order =? u)%N then amount else 0%Q
  | _ => 0%Q
  end.

Definition withdrawal_of (u : N) (entry : operation * bool) : Q :=
  match entry with
  | (Withdraw _ amount userID, true) => if (userID =? u)%N then amount else 0%Q
  | _ => 0%Q
  end.

(** The sum of the credits, and of the withdrawals, applied for user [u]. *)
Definition credits (u : N) (journal : list (operation * bool)) : Q :=
  fold_right (fun entry acc => (credit_of u entry + acc)%Q) 0%Q journal.

Definition withdrawn (u : N) (journal : list (operation * bool)) : Q :=
  fold_right (fun entry acc => (withdrawal_of u entry + acc)%Q) 0%Q journal.

Definition credit_nonneg (op : operation) : Prop :=
  match op with
  | Credit _ amount => (0 <= amount)%Q
  | Withdraw _ _ _ => True
  end.

(** A user whose balance row starts at zero. *)
Definition store0 : DB := mkDB {[ 1 := order1 ]} [] {[ 7 := mkBalance 0 0 ]} [].

Definition ledger_example : list operation :=
  [Credit order1 500; Withdraw "2377225624" 60 7; Withdraw "18" 1000 7].

Definition resolved (status : string) : Prop :=
  status = OrderStatusProcessed \/ status = OrderStatusInvalid \/ status = OrderStatusNew.

Definition withStatus (status : string) (o : Order) : Order :=
  mkOrder (ID o) (UserID o) (Number o) status (CreatedAt o).

(** The answers for which the routine follows a failed write with a write of
    NEW (a 200 with status PROCESSED or INVALID), and the number of calls
    to the store that first write makes. *)
Definition first_write_calls (answer : ExternalOrder * option error) : option nat :=
  match answer with
  | (ext, None) =>
      if String.eqb (ExtStatus ext) ExternalOrderStatusProcessed then Some 8%nat
      else if String.eqb (ExtStatus ext) ExternalOrderStatusInvalid then Some 2%nat
      else None
  | (_, Some _) => None
  end.

(** The authority answers PROCESSED with 500 points for order 1. *)
Definition authority_processed (number : string) : ExternalOrder * option error :=
  (mkExternalOrder number ExternalOrderStatusProcessed 500, None).

Definition retry_after_5 : gmap string (list string) := {[ "Retry-After" := ["5"] ]}.

Definition amount_rejected : list write :=
  http_Error "The provided payload does not contain a valid withdrawal amount"
    StatusUnprocessableEntity.

Definition zero_request : CreateWithdrawalHandler.Request :=
  CreateWithdrawalHandler.mkRequest "application/json"
    (Some (models.mkCreateWithdrawalRequest "79927398713" 0)) (Some 7).

(** ** Vocabulary of the further properties *)

(** The answers of the authority after which the routine asks for NEW:
    every failure but "not registered", and every status it does not act
    on. *)
Definition retriable (answer : reply) : bool :=
  match answer with
  | TransportError err => negb (bool_decide (err = ErrOrderNotRegistered))
  | NilResponse => true
  | Response code _ result =>
      if (code =? StatusOK)%Z then
        negb (String.eqb (ExtStatus result) ExternalOrderStatusRegistered
              || String.eqb (ExtStatus result) ExternalOrderStatusProcessed
              || String.eqb (ExtStatus result) ExternalOrderStatusInvalid)
      else negb (code =? StatusNoContent)%Z
  end.

(** A repository value that holds a deadline two seconds after instant
    1000 s. *)
Definition cooling_down : AccrualRepository :=
  mkAccrualRepository "http://accrual/" (1002 * Second)%Z.

(** The number of status codes among the calls on a writer. *)
Definition status_codes (writes : list write) : list Z :=
  flat_map (fun wr => match wr with WriteHeader code => [code] | WriteBody _ => [] end) writes.

(** The answers after which the routine asks for INVALID. *)
Definition invalidating (answer : reply) : bool :=
  match answer with
  | TransportError err => bool_decide (err = ErrOrderNotRegistered)
  | NilResponse => false
  | Response code _ result =>
      (code =? StatusNoContent)%Z
      || ((code =? StatusOK)%Z && String.eqb (ExtStatus result) ExternalOrderStatusInvalid)
  end.

(** A withdrawal of 150 points asked over HTTP. *)
Definition request_150 : CreateWithdrawalHandler.Request :=
  CreateWithdrawalHandler.mkRequest "application/json"
    (Some (models.mkCreateWithdrawalRequest "79927398713" 150)) (Some 7).

(** Two orders of user 7 and one of user 8, none of them in flight; the
    store writes the time 99 to the orders it creates. *)
Definition order2 : Order := mkOrder 2 7 "18" OrderStatusNew 10.
Definition order3 : Order := mkOrder 3 8 "26" OrderStatusNew 20.
Definition store2 : DB :=
  mkDB {[ 1 := order1; 2 := order2; 3 := order3 ]} [] {[ 7 := mkBalance 100 0 ]} [].
Definition world2 (answers : list (option fault)) : World := mkWorld store2 None answers.
Definition created_at_99 (db : DB) : Z := 99.

(** Every order is kept under its own id. *)
Definition wellFormed (db : DB) : Prop :=
  forall k o, orders db !! k = Some o -> ID o = k.

(** The authority answers REGISTERED for every number. *)
Definition authority_registered (number : string) : ExternalOrder * option error :=
  (mkExternalOrder number ExternalOrderStatusRegistered 0, None).

(** The store after the orders of the given ids were marked PROCESSING. *)
Definition marked (ids : list N) (db : DB) : DB :=
  foldl (fun db id => updateStatusQuery OrderStatusProcessing id db) db ids.



(** The store of [world1] after a withdrawal of 60 points by user 7. *)
Definition world1_withdrawn : World :=
  mkWorld (debitCommitted "2377225624" 60 7 store1) None [].

(** The order number 18 sent by user 8; order 2, of user 7, carries it. *)
Definition request_18 : RegisterOrderHandler.Request :=
  RegisterOrderHandler.mkRequest "text/plain" (Some "18") (Some 8).

(** What the registration answers, by the order that carries the number. *)
Definition registration_status (userID : N) (existing : option Order) : Z :=
  match existing with
  | None => StatusAccepted
  | Some o => if (UserID o =? userID)%N then StatusOK else StatusConflict
  end.

(** * Properties *)

(** ** Running the store *)

(** Unfold one repository call down to the script of driver answers. *)
Ltac unfold_store :=
  cbv [bind ret driver BeginTx TxPrepare TxExec TxQueryRow Scan Rollback Commit
       inTx setTx PoolPrepare PoolExec
       OrderRepository.rollbackAndReturn
       WithdrawalRepository.rollbackAndReturn WithdrawalRepository.rollbackOrFatal];
  simpl.

(** Read the next answer of the driver: none left, a success, a fault. *)
Ltac next_answer :=
  match goal with
  | |- context [match ?s with [] => _ | _ :: _ => _ end] =>
      is_var s; destruct s as [|[?|] ?]; simpl
  end.

Lemma UpdateOrderAndPasteAccrual_run (order : Order) (status : string) (amount : Q) (w : World) :
  match OrderRepository.UpdateOrderAndPasteAccrual order status amount w with
  | (None, w') =>
      status = OrderStatusProcessed /\ tx w' = None /\
      committed w' = creditCommitted order amount (committed w)
  | (Some _, w') =>
      committed w' = committed w /\ (tx w = None -> tx w' = None)
  end.
Proof.
  unfold OrderRepository.UpdateOrderAndPasteAccrual.
  destruct (String.eqb_spec status OrderStatusProcessed) as [->|Hne]; simpl.
  2: { unfold ret. auto. }
  destruct w as [db t s]. unfold_store.
  repeat (next_answer; auto).
Qed.

Lemma Contains_AllOrderStatuses (status : string) :
  Contains AllOrderStatuses status = true ->
  status = OrderStatusNew \/ status = OrderStatusProcessing \/
  status = OrderStatusProcessed \/ status = OrderStatusInvalid.
Proof.
  unfold Contains, AllOrderStatuses. simpl.
  destruct (String.eqb_spec status OrderStatusNew); auto.
  destruct (String.eqb_spec status OrderStatusProcessing); auto.
  destruct (String.eqb_spec status OrderStatusProcessed); auto.
  destruct (String.eqb_spec status OrderStatusInvalid); auto.
  discriminate.
Qed.

(** The plain status update: either the one row is rewritten with a status
    other than PROCESSED, or the committed tables are as before. *)
Lemma UpdateOrderStatus_run (orderID : N) (status : string) (w : World) :
  match OrderRepository.UpdateOrderStatus orderID status w with
  | (None, w') =>
      (status = OrderStatusNew \/ status = OrderStatusProcessing \/
       status = OrderStatusInvalid) /\
      committed w' = updateStatusQuery status orderID (committed w) /\ tx w' = tx w
  | (Some _, w') => committed w' = committed w /\ tx w' = tx w
  end.
Proof.
  unfold OrderRepository.UpdateOrderStatus.
  destruct (Contains AllOrderStatuses status) eqn:Hin; simpl; [|unfold ret; auto].
  destruct (String.eqb_spec status OrderStatusProcessed) as [->|Hne]; [unfold ret; auto|].
  apply Contains_AllOrderStatuses in Hin.
  assert (status = OrderStatusNew \/ status = OrderStatusProcessing \/
          status = OrderStatusInvalid) by tauto.
  destruct w as [db t s]. unfold_store.
  repeat (next_answer; auto).
Qed.

Lemma Qgtb_false (a b : Q) : Qgtb a b = false <-> (a <= b)%Q.
Proof.
  unfold Qgtb. rewrite negb_false_iff. apply Qle_bool_iff.
Qed.

Lemma Qgtb_true (a b : Q) : Qgtb a b = true <-> (b < a)%Q.
Proof.
  unfold Qgtb. rewrite negb_true_iff. split.
  - intros H. apply Qnot_le_lt. intros Hle. apply Qle_bool_iff in Hle. congruence.
  - intros H. destruct (Qle_bool a b) eqn:E; [|reflexivity].
    apply Qle_bool_iff in E. exfalso. exact (Qlt_not_le _ _ H E).
Qed.

(** Case analysis on what the store holds, after the driver answered. *)
Ltac next_row :=
  match goal with
  | |- context [selectBalance ?u ?db] =>
      let Hrow := fresh "Hrow" in destruct (selectBalance u db) eqn:Hrow; simpl
  | |- context [Qgtb ?a ?b] =>
      let Hcmp := fresh "Hcmp" in destruct (Qgtb a b) eqn:Hcmp; simpl
  | |- context [insertWithdrawalReturningID ?a ?u ?n ?db] =>
      let Hused := fresh "Hused" in
      unfold insertWithdrawalReturningID; simpl;
      destruct (numberUsed n db) eqn:Hused; simpl
  | |- context [isIntegrityViolation ?e] =>
      destruct (isIntegrityViolation e); simpl
  end.

Lemma selectBalance_Some (userID : N) (db : DB) (q : Q) :
  selectBalance userID db = Some q ->
  exists b, balances db !! userID = Some b /\ balance b = q.
Proof.
  unfold selectBalance. destruct (balances db !! userID) as [b|]; simpl; [|discriminate].
  intros [= <-]. eauto.
Qed.

Lemma Create_run (number : string) (amount : Q) (userID : N) (w : World) :
  match WithdrawalRepository.Create number amount userID w with
  | (Ret (id, None), w') =>
      (exists b, balances (committed w) !! userID = Some b /\ (amount <= balance b)%Q) /\
      numberUsed number (committed w) = false /\
      id = nextWithdrawalID (committed w) /\
      tx w' = None /\
      committed w' = debitCommitted number amount userID (committed w)
  | (Ret (id, Some _), w') => id = 0 /\ committed w' = committed w
  | (Exit, w') => committed w' = committed w /\ tx w' = None
  | (Panic, _) => False
  end.
Proof.
  unfold WithdrawalRepository.Create.
  destruct w as [db t s]. unfold_store.
  repeat (first [next_answer | next_row]; auto).
  all: try (apply selectBalance_Some in Hrow as (b & Hb & <-);
            apply Qgtb_false in Hcmp; unfold numberUsed in *; simpl in *;
            repeat split; eauto).
Qed.

Lemma answering_le (n m : nat) (s : list (option fault)) :
  (m <= n)%nat -> answering n s -> answering m s.
Proof.
  revert m s. induction n as [|n IH]; intros m s Hle Hans.
  - assert (m = O) as -> by lia. exact I.
  - destruct m as [|m]; [exact I|].
    destruct s as [|[f|] s]; simpl in *; try contradiction; try exact I.
    apply IH; [lia|assumption].
Qed.

(** The plain status update, when the driver answers its two calls. *)
Lemma UpdateOrderStatus_answering (orderID : N) (status : string) (w : World) :
  status = OrderStatusNew \/ status = OrderStatusProcessing \/ status = OrderStatusInvalid ->
  answering 2 (script w) ->
  OrderRepository.UpdateOrderStatus orderID status w
    = (None, mkWorld (updateStatusQuery status orderID (committed w)) (tx w)
               (drop 2 (script w))).
Proof.
  intros Hst Hans. unfold OrderRepository.UpdateOrderStatus.
  assert (Contains AllOrderStatuses status = true) as ->.
  { destruct Hst as [->|[->| ->]]; reflexivity. }
  assert (String.eqb status OrderStatusProcessed = false) as ->.
  { destruct Hst as [->|[->| ->]]; reflexivity. }
  simpl. destruct w as [db t s]. simpl in Hans. unfold_store.
  repeat (next_answer; simpl in Hans; try contradiction); reflexivity.
Qed.

(** The combined update, when the driver answers its eight calls. *)
Lemma UpdateOrderAndPasteAccrual_answering (order : Order) (amount : Q) (w : World) :
  answering 8 (script w) ->
  OrderRepository.UpdateOrderAndPasteAccrual order OrderStatusProcessed amount w
    = (None, mkWorld (creditCommitted order amount (committed w)) None (drop 8 (script w))).
Proof.
  intros Hans. unfold OrderRepository.UpdateOrderAndPasteAccrual. simpl.
  destruct w as [db t s]. simpl in Hans. unfold_store.
  repeat (next_answer; simpl in Hans; try contradiction); reflexivity.
Qed.

Lemma answering_drop (n m : nat) (s : list (option fault)) :
  answering (n + m) s -> answering m (drop n s).
Proof.
  revert s. induction n as [|n IH]; intros s Hans; [exact Hans|].
  destruct s as [|[f|] s]; simpl in *.
  - destruct m; exact I.
  - contradiction.
  - apply IH. exact Hans.
Qed.

(** The calls a repository function made to the store are a prefix of the
    script; when the plain update fails, the last of them is the failure it
    returns. *)
Lemma UpdateOrderStatus_trace (orderID : N) (status : string) (w : World) :
  status = OrderStatusNew \/ status = OrderStatusProcessing \/ status = OrderStatusInvalid ->
  match OrderRepository.UpdateOrderStatus orderID status w with
  | (None, w') => exists pre, script w = (pre ++ script w')%list
  | (Some e, w') =>
      exists pre f, script w = (pre ++ Some f :: script w')%list /\ e = fault_error f
  end.
Proof.
  intros Hst. unfold OrderRepository.UpdateOrderStatus.
  assert (Contains AllOrderStatuses status = true) as ->.
  { destruct Hst as [->|[->| ->]]; reflexivity. }
  assert (String.eqb status OrderStatusProcessed = false) as ->.
  { destruct Hst as [->|[->| ->]]; reflexivity. }
  simpl. destruct w as [db t s]. unfold_store.
  destruct s as [|[f|] s]; simpl.
  - exists []. reflexivity.
  - exists [], f. split; reflexivity.
  - destruct s as [|[f|] s]; simpl.
    + exists [None]. reflexivity.
    + exists [None], f. split; reflexivity.
    + exists [None; None]. reflexivity.
Qed.

Lemma UpdateOrderAndPasteAccrual_trace
    (order : Order) (status : string) (amount : Q) (w : World) :
  exists pre,
    script w
    = (pre ++ script (snd (OrderRepository.UpdateOrderAndPasteAccrual order status amount w)))%list.
Proof.
  unfold OrderRepository.UpdateOrderAndPasteAccrual.
  destruct (String.eqb status OrderStatusProcessed); simpl; [|exists []; reflexivity].
  destruct w as [db t s]. unfold_store.
  repeat match goal with
         | |- context [match ?s with [] => _ | _ :: _ => _ end] =>
             is_var s; destruct s as [|[?|] ?]; simpl
         | |- exists pre, ?l = (pre ++ ?l)%list => exists []; reflexivity
         | |- exists pre, (?x :: ?l)%list = (pre ++ ?l')%list =>
             let H := fresh in
             assert (exists pre, l = (pre ++ l')%list) as [? H];
             [|eexists (x :: _); rewrite H at 1; reflexivity]
         end.
Qed.

(** One failure among the calls of the plain update. *)
Lemma UpdateOrderStatus_one_fault
    (orderID : N) (status : string) (db : DB) (t : option DB)
    (k : nat) (f : fault) (rest : list (option fault)) :
  status = OrderStatusNew \/ status = OrderStatusProcessing \/ status = OrderStatusInvalid ->
  (k < 2)%nat ->
  OrderRepository.UpdateOrderStatus orderID status
    (mkWorld db t (replicate k None ++ Some f :: rest))
  = (Some (fault_error f), mkWorld db t rest).
Proof.
  intros Hst Hk. unfold OrderRepository.UpdateOrderStatus.
  assert (Contains AllOrderStatuses status = true) as ->.
  { destruct Hst as [->|[->| ->]]; reflexivity. }
  assert (String.eqb status OrderStatusProcessed = false) as ->.
  { destruct Hst as [->|[->| ->]]; reflexivity. }
  destruct k as [|[|k]]; [reflexivity|reflexivity|lia].
Qed.

(** One failure among the calls of the combined update: the failure is
    returned, nothing is committed, and the rollback takes at most one more
    call. *)
Lemma UpdateOrderAndPasteAccrual_one_fault
    (order : Order) (amount : Q) (db : DB) (t : option DB)
    (k : nat) (f : fault) (rest : list (option fault)) :
  (k < 8)%nat ->
  answering 3 rest ->
  exists t' rest',
    OrderRepository.UpdateOrderAndPasteAccrual order OrderStatusProcessed amount
      (mkWorld db t (replicate k None ++ Some f :: rest))
    = (Some (fault_error f), mkWorld db t' rest') /\
    answering 2 rest'.
Proof.
  intros Hk Hans.
  assert (answering 2 rest) as Hans2 by (apply (answering_le 3); [lia|assumption]).
  unfold OrderRepository.UpdateOrderAndPasteAccrual. simpl.
  do 8 (destruct k as [|k];
        [ simpl; unfold_store;
          first [ eexists _, _; split; [reflexivity|exact Hans2]
                | destruct rest as [|[f'|] rest]; simpl in *;
                  [ eexists _, _; split; [reflexivity|exact I]
                  | contradiction
                  | eexists _, _; split; [reflexivity|exact Hans] ] ]
        | ]).
  lia.
Qed.

(** ** The order store *)

(** The combined update returns [nil] exactly when none of its eight calls
    to the store (begin, prepare and execute for each of the three
    statements, commit) fails. *)
Lemma UpdateOrderAndPasteAccrual_nil_iff (order : Order) (amount : Q) (w : World) :
  fst (OrderRepository.UpdateOrderAndPasteAccrual order OrderStatusProcessed amount w) = None
  <-> answering 8 (script w).
Proof.
  unfold OrderRepository.UpdateOrderAndPasteAccrual. simpl.
  destruct w as [db t s]. unfold_store.
  repeat (next_answer; try (split; [discriminate|contradiction]));
    split; intros; exact I || reflexivity.
Qed.

(** C4. [UpdateOrderAndPasteAccrual] is atomic.  For an order held by the
    store whose owner has a balance row: the call returns [nil] exactly
    when the status asked for is PROCESSED and none of its eight calls to
    the store fails, so a failing step always gives an error; when it
    returns [nil], the three effects are committed together (the order is
    PROCESSED, the credit is recorded against the order, the owner's balance
    is increased by the amount) and no transaction is left open; when it
    returns an error, whichever step failed, the committed tables are
    exactly as they were, the status of the order included. *)
Theorem UpdateOrderAndPasteAccrual_atomic
    (order o : Order) (b : Balance) (status : string) (amount : Q) (w : World) :
  orders (committed w) !! ID order = Some o ->
  balances (committed w) !! UserID order = Some b ->
  (fst (OrderRepository.UpdateOrderAndPasteAccrual order status amount w) = None <->
   status = OrderStatusProcessed /\ answering 8 (script w)) /\
  match OrderRepository.UpdateOrderAndPasteAccrual order status amount w with
  | (None, w') =>
      status = OrderStatusProcessed /\
      orders (committed w') !! ID order =
        Some (mkOrder (ID o) (UserID o) (Number o) OrderStatusProcessed (CreatedAt o)) /\
      accruals (committed w') =
        (accruals (committed w) ++ [mkAccrual amount (UserID order) (ID order)])%list /\
      balances (committed w') !! UserID order =
        Some (mkBalance (balance b + amount)%Q (withdrawals_sum b)) /\
      withdrawals (committed w') = withdrawals (committed w) /\
      tx w' = None
  | (Some _, w') => committed w' = committed w
  end.
Proof.
  intros Ho Hb. split.
  - destruct (String.eqb_spec status OrderStatusProcessed) as [->|Hne].
    + rewrite UpdateOrderAndPasteAccrual_nil_iff. tauto.
    + unfold OrderRepository.UpdateOrderAndPasteAccrual.
      destruct (String.eqb_spec status OrderStatusProcessed) as [|_]; [contradiction|].
      simpl. split; [discriminate|]. intros [Heq _]. contradiction.
  - pose proof (UpdateOrderAndPasteAccrual_run order status amount w) as Hrun.
    destruct (OrderRepository.UpdateOrderAndPasteAccrual order status amount w) as [[e|] w'].
    + tauto.
    + destruct Hrun as (-> & Htx & ->). unfold creditCommitted. simpl.
      rewrite !lookup_alter_eq, Ho, Hb. simpl. repeat split; assumption || reflexivity.
Qed.

Lemma UpdateOrderAndPasteAccrual_atomic_witness :
  (fst (OrderRepository.UpdateOrderAndPasteAccrual order1 OrderStatusProcessed 500
          (world1 [])) = None <->
   OrderStatusProcessed = OrderStatusProcessed /\ answering 8 (script (world1 []))) /\
  match OrderRepository.UpdateOrderAndPasteAccrual order1 OrderStatusProcessed 500
          (world1 []) with
  | (None, w') =>
      OrderStatusProcessed = OrderStatusProcessed /\
      orders (committed w') !! 1 =
        Some (mkOrder 1 7 "79927398713" OrderStatusProcessed 0) /\
      accruals (committed w') = ([] ++ [mkAccrual 500 7 1])%list /\
      balances (committed w') !! 7 = Some (mkBalance (100 + 500)%Q 0) /\
      withdrawals (committed w') = [] /\
      tx w' = None
  | (Some _, w') => committed w' = store1
  end.
Proof.
  apply (UpdateOrderAndPasteAccrual_atomic order1 order1 (mkBalance 100 0)
           OrderStatusProcessed 500 (world1 [])); reflexivity.
Defined.

(** A failing prepare of the third statement: the call returns that
    failure and nothing is committed. *)
Example UpdateOrderAndPasteAccrual_third_prepare_fails :
  OrderRepository.UpdateOrderAndPasteAccrual order1 OrderStatusProcessed 500
    (world1 [None; None; None; None; None; Some (DriverFault "bad connection")])
  = (Some (ErrDriver "bad connection"), world1 []).
Proof. reflexivity. Qed.

(** The other rows of the order and balance tables are not touched. *)
Lemma UpdateOrderAndPasteAccrual_frame
    (order : Order) (status : string) (amount : Q) (w : World) (i u : N) :
  let w' := snd (OrderRepository.UpdateOrderAndPasteAccrual order status amount w) in
  (i <> ID order -> orders (committed w') !! i = orders (committed w) !! i) /\
  (u <> UserID order -> balances (committed w') !! u = balances (committed w) !! u).
Proof.
  pose proof (UpdateOrderAndPasteAccrual_run order status amount w) as Hrun.
  destruct (OrderRepository.UpdateOrderAndPasteAccrual order status amount w) as [[e|] w'];
    simpl.
  - destruct Hrun as [-> _]. auto.
  - destruct Hrun as (_ & _ & ->). unfold creditCommitted. simpl.
    split; intros Hne; rewrite lookup_alter_ne; auto.
Qed.

Lemma Contains_false (l : list string) (s : string) :
  Contains l s = false <-> ~ In s l.
Proof.
  unfold Contains. split.
  - intros Hf Hin. assert (existsb (String.eqb s) l = true) as Ht; [|congruence].
    apply existsb_exists. exists s. split; [assumption|apply String.eqb_refl].
  - intros Hnin. destruct (existsb (String.eqb s) l) eqn:E; [|reflexivity].
    apply existsb_exists in E as (x & Hx & Heq). apply String.eqb_eq in Heq.
    subst x. contradiction.
Qed.

(** C8. PROCESSED cannot be reached through the plain status update:
    [OrderRepository.UpdateOrderStatus] answers [ErrWrongMethodUsed] when
    PROCESSED is requested and [ErrInvalidStatus] when the status is not one
    of the four, touching nothing; [UpdateOrderAndPasteAccrual] answers
    [ErrWrongMethodUsed] for every target other than PROCESSED, touching
    nothing.  Hence a row that is PROCESSED after the plain update was the
    same row before it, and a row that is PROCESSED after the combined update
    either was the same row before it or is the row of the order whose credit
    was recorded by the same commit. *)
Theorem PROCESSED_only_with_credit
    (orderID : N) (order : Order) (status : string) (amount : Q) (w : World) :
  (status = OrderStatusProcessed ->
   OrderRepository.UpdateOrderStatus orderID status w = (Some ErrWrongMethodUsed, w)) /\
  (~ In status AllOrderStatuses ->
   OrderRepository.UpdateOrderStatus orderID status w = (Some ErrInvalidStatus, w)) /\
  (status <> OrderStatusProcessed ->
   OrderRepository.UpdateOrderAndPasteAccrual order status amount w =
     (Some ErrWrongMethodUsed, w)) /\
  (forall (i : N) (o' : Order),
     orders (committed (snd (OrderRepository.UpdateOrderStatus orderID status w))) !! i
       = Some o' ->
     Status o' = OrderStatusProcessed ->
     orders (committed w) !! i = Some o') /\
  (forall (i : N) (o' : Order),
     let w' := snd (OrderRepository.UpdateOrderAndPasteAccrual order status amount w) in
     orders (committed w') !! i = Some o' ->
     Status o' = OrderStatusProcessed ->
     orders (committed w) !! i = Some o' \/
     (i = ID order /\
      accruals (committed w') =
        (accruals (committed w) ++ [mkAccrual amount (UserID order) (ID order)])%list)).
Proof.
  repeat split.
  - intros ->. reflexivity.
  - intros Hnin. apply Contains_false in Hnin.
    unfold OrderRepository.UpdateOrderStatus. rewrite Hnin. reflexivity.
  - intros Hne. unfold OrderRepository.UpdateOrderAndPasteAccrual.
    destruct (String.eqb_spec status OrderStatusProcessed); [contradiction|reflexivity].
  - intros i o'.
    pose proof (UpdateOrderStatus_run orderID status w) as Hrun.
    destruct (OrderRepository.UpdateOrderStatus orderID status w) as [[e|] w']; simpl.
    + destruct Hrun as [-> _]. auto.
    + destruct Hrun as (Hst & -> & _). simpl.
      destruct (decide (i = orderID)) as [->|Hne].
      * rewrite lookup_alter_eq.
        destruct (orders (committed w) !! orderID); simpl; [|discriminate].
        intros [= <-]. simpl. intros ->.
        destruct Hst as [Hst|[Hst|Hst]]; discriminate Hst.
      * rewrite lookup_alter_ne by congruence. auto.
  - intros i o'.
    pose proof (UpdateOrderAndPasteAccrual_run order status amount w) as Hrun.
    destruct (OrderRepository.UpdateOrderAndPasteAccrual order status amount w)
      as [[e|] w']; simpl.
    + destruct Hrun as [-> _]. auto.
    + destruct Hrun as (_ & _ & ->). unfold creditCommitted. simpl.
      destruct (decide (i = ID order)) as [->|Hne].
      * intros _ _. right. auto.
      * rewrite lookup_alter_ne by congruence. auto.
Qed.

Lemma PROCESSED_only_with_credit_witness :
  OrderRepository.UpdateOrderStatus 1 OrderStatusProcessed (world1 [])
    = (Some ErrWrongMethodUsed, world1 []) /\
  OrderRepository.UpdateOrderStatus 1 "DONE" (world1 [])
    = (Some ErrInvalidStatus, world1 []) /\
  OrderRepository.UpdateOrderAndPasteAccrual order1 OrderStatusInvalid 500 (world1 [])
    = (Some ErrWrongMethodUsed, world1 []) /\
  (orders store1 !! 1 = Some (mkOrder 1 7 "79927398713" OrderStatusProcessed 0) \/
   (1 = ID order1 /\
    accruals (committed (snd (OrderRepository.UpdateOrderAndPasteAccrual
                                order1 OrderStatusProcessed 500 (world1 []))))
      = ([] ++ [mkAccrual 500 7 1])%list)).
Proof.
  destruct (PROCESSED_only_with_credit 1 order1 OrderStatusProcessed 500 (world1 []))
    as (Hprocessed & _ & _ & _ & Hcredit).
  destruct (PROCESSED_only_with_credit 1 order1 "DONE" 500 (world1 []))
    as (_ & Hunknown & _).
  destruct (PROCESSED_only_with_credit 1 order1 OrderStatusInvalid 500 (world1 []))
    as (_ & _ & Hother & _).
  split; [|split; [|split]].
  - apply Hprocessed. reflexivity.
  - apply Hunknown. unfold AllOrderStatuses. simpl.
    intros [H|[H|[H|[H|[]]]]]; discriminate H.
  - apply Hother. discriminate.
  - apply (Hcredit 1 (mkOrder 1 7 "79927398713" OrderStatusProcessed 0)); reflexivity.
Defined.

(** ** Withdrawals *)

(** The call answered with another error than the one asked about. *)
Ltac not_this_error :=
  let H := fresh "H" in
  intros H; solve
    [ discriminate H
    | injection H as _ H;
      match type of H with
      | fault_error ?f = _ => destruct f; discriminate H
      end ].

Lemma Create_ErrNotEnoughPoints
    (number : string) (amount : Q) (userID : N) (w : World) (id : N) :
  fst (WithdrawalRepository.Create number amount userID w)
    = Ret (id, Some ErrNotEnoughPoints) ->
  exists b, balances (committed w) !! userID = Some b /\ (balance b < amount)%Q.
Proof.
  unfold WithdrawalRepository.Create.
  destruct w as [db t s]. unfold_store.
  repeat (first [next_answer | next_row]; try not_this_error).
  all: intros _; apply selectBalance_Some in Hrow as (b & Hb & <-);
    apply Qgtb_true in Hcmp; eauto.
Qed.

Lemma Create_insufficient_when_answering
    (number : string) (amount : Q) (userID : N) (w : World) (b : Balance) :
  balances (committed w) !! userID = Some b ->
  answering 5 (script w) ->
  (balance b < amount)%Q ->
  fst (WithdrawalRepository.Create number amount userID w)
    = Ret (0, Some ErrNotEnoughPoints).
Proof.
  intros Hb Hans Hlt. apply Qgtb_true in Hlt.
  unfold WithdrawalRepository.Create.
  destruct w as [db t s]. simpl in Hb, Hans. unfold_store.
  repeat (first [ next_answer; simpl in Hans; try contradiction
                | unfold selectBalance; rewrite Hb; simpl
                | rewrite Hlt; simpl ];
          try reflexivity).
Qed.

(** C6. [WithdrawalRepository.Create] answers [ErrNotEnoughPoints] only when
    the amount exceeds the balance of the user, and then the committed
    tables are as before: balance and withdrawn sum unchanged, no withdrawal
    row.  When the driver does what it is asked (the five calls up to the
    rollback) and the user has a balance row, it answers
    [ErrNotEnoughPoints] exactly when the amount exceeds the balance. *)
Theorem Create_insufficient_balance
    (number : string) (amount : Q) (userID : N) (w : World) :
  (forall id : N,
     fst (WithdrawalRepository.Create number amount userID w)
       = Ret (id, Some ErrNotEnoughPoints) ->
     (exists b, balances (committed w) !! userID = Some b /\ (balance b < amount)%Q) /\
     committed (snd (WithdrawalRepository.Create number amount userID w)) = committed w) /\
  (forall b : Balance,
     balances (committed w) !! userID = Some b ->
     answering 5 (script w) ->
     fst (WithdrawalRepository.Create number amount userID w)
       = Ret (0, Some ErrNotEnoughPoints)
     <-> (balance b < amount)%Q).
Proof.
  split.
  - intros id Hret. split.
    + exact (Create_ErrNotEnoughPoints number amount userID w id Hret).
    + pose proof (Create_run number amount userID w) as Hrun.
      destruct (WithdrawalRepository.Create number amount userID w) as [r w'].
      simpl in Hret. subst r. simpl. tauto.
  - intros b Hb Hans. split.
    + intros Hret.
      destruct (Create_ErrNotEnoughPoints number amount userID w 0 Hret) as (b' & Hb' & Hlt).
      congruence.
    + apply Create_insufficient_when_answering; assumption.
Qed.

(** The scenario of the specification: 150 points asked from a balance of
    100. *)
Lemma Create_insufficient_balance_witness :
  fst (WithdrawalRepository.Create "2377225624" 150 7 (world1 []))
    = Ret (0, Some ErrNotEnoughPoints) /\
  committed (snd (WithdrawalRepository.Create "2377225624" 150 7 (world1 []))) = store1.
Proof.
  destruct (Create_insufficient_balance "2377225624" 150 7 (world1 [])) as [Honly Hiff].
  assert (fst (WithdrawalRepository.Create "2377225624" 150 7 (world1 []))
            = Ret (0, Some ErrNotEnoughPoints)) as Hret.
  { apply (Hiff (mkBalance 100 0)).
    - reflexivity.
    - exact I.
    - reflexivity. }
  split.
  - exact Hret.
  - apply (Honly 0 Hret).
Defined.

(** Every failing call leaves the committed tables as they were: no debit
    is visible without its withdrawal row. *)
Lemma Create_error_keeps_committed
    (number : string) (amount : Q) (userID : N) (w : World) :
  (forall id, fst (WithdrawalRepository.Create number amount userID w) <> Ret (id, None)) ->
  committed (snd (WithdrawalRepository.Create number amount userID w)) = committed w.
Proof.
  intros Herr.
  pose proof (Create_run number amount userID w) as Hrun.
  destruct (WithdrawalRepository.Create number amount userID w) as [[[id [e|]]| |] w'];
    simpl in *; try tauto.
  exfalso. exact (Herr id eq_refl).
Qed.

(** A number already used is refused with [ErrWithdrawalOrderAlreadyExists]
    once the balance check has passed, and the transaction is rolled back. *)
Lemma Create_duplicate_number
    (number : string) (amount : Q) (userID : N) (w : World) (b : Balance) :
  balances (committed w) !! userID = Some b ->
  (amount <= balance b)%Q ->
  numberUsed number (committed w) = true ->
  answering 9 (script w) ->
  fst (WithdrawalRepository.Create number amount userID w)
    = Ret (0, Some ErrWithdrawalOrderAlreadyExists) /\
  tx (snd (WithdrawalRepository.Create number amount userID w)) = None /\
  committed (snd (WithdrawalRepository.Create number amount userID w)) = committed w.
Proof.
  intros Hb Hle Hused Hans. apply Qgtb_false in Hle.
  unfold WithdrawalRepository.Create.
  destruct w as [db t s]. simpl in Hb, Hused, Hans. unfold_store.
  unfold numberUsed in Hused.
  repeat (first [ next_answer; simpl in Hans; try contradiction
                | unfold selectBalance; rewrite Hb; simpl
                | rewrite Hle; simpl
                | unfold insertWithdrawalReturningID, numberUsed; simpl;
                  rewrite Hused; simpl ];
          try (repeat split; reflexivity)).
Qed.

(** After the debit, a failure to prepare the insert statement ends the call
    with the transaction still open, whatever the store and the amounts. *)
Lemma Create_prepare_failure
    (number : string) (amount : Q) (userID : N) (db : DB) (t : option DB)
    (b : Balance) (f : fault) (rest : list (option fault)) :
  balances db !! userID = Some b ->
  (amount <= balance b)%Q ->
  WithdrawalRepository.Create number amount userID
    (mkWorld db t ([None; None; None; None; None; None; Some f] ++ rest))
  = (Ret (0, Some (fault_error f)),
     mkWorld db (Some (debitBalance amount userID db)) rest).
Proof.
  intros Hb Hle. apply Qgtb_false in Hle.
  unfold WithdrawalRepository.Create. unfold_store.
  unfold selectBalance. rewrite Hb. simpl. rewrite Hle. reflexivity.
Qed.

(** C7. The insert statement of [WithdrawalRepository.Create] fails to
    prepare after the balance was debited in the transaction: the call
    returns the error without rolling back.  The committed tables are as
    before, but the transaction stays open with the debit pending. *)
Theorem Create_prepare_failure_leaves_transaction_open :
  let w := world1 [None; None; None; None; None; None; Some (DriverFault "bad connection")] in
  fst (WithdrawalRepository.Create "2377225624" 60 7 w)
    = Ret (0, Some (ErrDriver "bad connection")) /\
  committed (snd (WithdrawalRepository.Create "2377225624" 60 7 w)) = store1 /\
  tx (snd (WithdrawalRepository.Create "2377225624" 60 7 w))
    = Some (debitBalance 60 7 store1) /\
  (balance <$> balances (debitBalance 60 7 store1) !! 7) = Some (100 - 60)%Q.
Proof.
  repeat split; reflexivity.
Qed.

(** ** The ledger *)

Lemma perform_balance (op : operation) (u : N) (w : World) (b0 : Balance) :
  balances (committed w) !! u = Some b0 ->
  credit_nonneg op ->
  (0 <= balance b0)%Q ->
  forall applied w', perform op w = (applied, w') ->
  exists b1,
    balances (committed w') !! u = Some b1 /\
    (balance b1 == balance b0 + credit_of u (op, applied) - withdrawal_of u (op, applied))%Q /\
    (withdrawals_sum b1 == withdrawals_sum b0 + withdrawal_of u (op, applied))%Q /\
    (0 <= balance b1)%Q.
Proof.
  intros Hb Hnn Hpos applied w' Hrun.
  destruct op as [order amount|number amount userID]; unfold perform, bind, ret in Hrun.
  - pose proof (UpdateOrderAndPasteAccrual_run order OrderStatusProcessed amount w) as Hspec.
    destruct (OrderRepository.UpdateOrderAndPasteAccrual order OrderStatusProcessed amount w)
      as [[e|] w1]; injection Hrun as <- <-; simpl.
    + destruct Hspec as [-> _]. exists b0. repeat split; auto; lra.
    + destruct Hspec as (_ & _ & ->). unfold creditCommitted. simpl.
      destruct (N.eqb_spec (UserID order) u) as [->|Hne].
      * rewrite lookup_alter_eq, Hb. simpl. eexists. split; [reflexivity|].
        simpl in *. repeat split; lra.
      * rewrite lookup_alter_ne by assumption. exists b0. repeat split; auto; lra.
  - pose proof (Create_run number amount userID w) as Hspec.
    destruct (WithdrawalRepository.Create number amount userID w)
      as [[[id [e|]]| |] w1]; injection Hrun as <- <-; simpl.
    + destruct Hspec as [_ ->]. exists b0. repeat split; auto; lra.
    + destruct Hspec as ((b & Hlook & Hle) & _ & _ & _ & ->).
      unfold debitCommitted. simpl.
      destruct (N.eqb_spec userID u) as [->|Hne].
      * rewrite lookup_alter_eq, Hb. simpl. eexists. split; [reflexivity|].
        assert (b = b0) as -> by congruence.
        simpl in *. repeat split; lra.
      * rewrite lookup_alter_ne by assumption. exists b0. repeat split; auto; lra.
    + destruct Hspec as [-> _]. exists b0. repeat split; auto; lra.
    + contradiction.
Qed.

Lemma perform_all_balance (ops : list operation) (u : N) :
  Forall credit_nonneg ops ->
  forall (w : World) (b0 : Balance),
  balances (committed w) !! u = Some b0 ->
  (0 <= balance b0)%Q ->
  forall journal w', perform_all ops w = (journal, w') ->
  exists b,
    balances (committed w') !! u = Some b /\
    (balance b == balance b0 + credits u journal - withdrawn u journal)%Q /\
    (withdrawals_sum b == withdrawals_sum b0 + withdrawn u journal)%Q /\
    (0 <= balance b)%Q.
Proof.
  induction 1 as [|op ops Hop Hops IH]; intros w b0 Hb Hpos journal w' Hrun.
  - injection Hrun as <- <-. exists b0. simpl. repeat split; auto; lra.
  - simpl in Hrun. unfold bind at 1 in Hrun.
    destruct (perform op w) as [applied w1] eqn:Hone.
    unfold bind, ret in Hrun.
    destruct (perform_all ops w1) as [rest w2] eqn:Hrest.
    injection Hrun as <- <-.
    destruct (perform_balance op u w b0 Hb Hop Hpos applied w1 Hone)
      as (b1 & Hb1 & Hbal1 & Hsum1 & Hpos1).
    destruct (IH w1 b1 Hb1 Hpos1 rest w2 Hrest) as (b & Hb2 & Hbal & Hsum & Hpos2).
    exists b. split; [assumption|].
    change (credits u ((op, applied) :: rest))
      with (credit_of u (op, applied) + credits u rest)%Q.
    change (withdrawn u ((op, applied) :: rest))
      with (withdrawal_of u (op, applied) + withdrawn u rest)%Q.
    repeat split; try assumption; lra.
Qed.

(** C5. For every user and every sequence of credits (of non-negative
    amounts) and withdrawals run on a balance that starts at zero, with
    whatever failures of the store in between: the balance is the sum of the
    credits applied minus the sum of the withdrawals applied, the withdrawn
    sum is the sum of the withdrawals applied, and the balance is not
    negative.  The sequence is arbitrary, so this holds after each of its
    operations. *)
Theorem balance_is_credits_minus_withdrawals
    (ops : list operation) (u : N) (w : World) (b0 : Balance) :
  Forall credit_nonneg ops ->
  balances (committed w) !! u = Some b0 ->
  (balance b0 == 0)%Q ->
  (withdrawals_sum b0 == 0)%Q ->
  exists b,
    balances (committed (snd (perform_all ops w))) !! u = Some b /\
    (balance b == credits u (fst (perform_all ops w))
                  - withdrawn u (fst (perform_all ops w)))%Q /\
    (withdrawals_sum b == withdrawn u (fst (perform_all ops w)))%Q /\
    (0 <= balance b)%Q.
Proof.
  intros Hops Hb Hzero Hsum.
  destruct (perform_all ops w) as [journal w'] eqn:Hrun. simpl.
  assert (0 <= balance b0)%Q as Hpos by lra.
  destruct (perform_all_balance ops u Hops w b0 Hb Hpos journal w' Hrun)
    as (b & Hlook & Hbal & Hwd & Hnn).
  exists b. repeat split; try assumption; lra.
Qed.

Lemma balance_is_credits_minus_withdrawals_witness :
  exists b,
    balances (committed (snd (perform_all ledger_example (mkWorld store0 None [])))) !! 7
      = Some b /\
    (balance b == credits 7 (fst (perform_all ledger_example (mkWorld store0 None [])))
                  - withdrawn 7 (fst (perform_all ledger_example (mkWorld store0 None []))))%Q /\
    (withdrawals_sum b
       == withdrawn 7 (fst (perform_all ledger_example (mkWorld store0 None []))))%Q /\
    (0 <= balance b)%Q.
Proof.
  apply (balance_is_credits_minus_withdrawals ledger_example 7
           (mkWorld store0 None []) (mkBalance 0 0)).
  - repeat constructor. simpl. lra.
  - reflexivity.
  - reflexivity.
  - reflexivity.
Defined.

Example ledger_example_balance :
  (balance <$> balances (committed (snd (perform_all ledger_example
                                           (mkWorld store0 None [])))) !! 7)
    = Some (0 + 500 - 60)%Q /\
  map snd (fst (perform_all ledger_example (mkWorld store0 None []))) = [true; true; false].
Proof. split; reflexivity. Qed.

(** ** Reconciliation of one order *)

Lemma updateStatusQuery_lookup (status : string) (id : N) (db : DB) (o : Order) :
  orders db !! id = Some o ->
  orders (updateStatusQuery status id db) !! id = Some (withStatus status o).
Proof. intros Ho. simpl. rewrite lookup_alter_eq, Ho. reflexivity. Qed.

Lemma creditCommitted_lookup (order : Order) (amount : Q) (db : DB) (o : Order) :
  orders db !! ID order = Some o ->
  orders (creditCommitted order amount db) !! ID order
    = Some (withStatus OrderStatusProcessed o).
Proof. intros Ho. simpl. rewrite lookup_alter_eq, Ho. reflexivity. Qed.

(** Run the next call of the order repository and split on its result. *)
Ltac call_repository :=
  match goal with
  | |- context [OrderRepository.UpdateOrderStatus ?i ?s ?w] =>
      let H := fresh "Hcall" in
      pose proof (UpdateOrderStatus_run i s w) as H;
      destruct (OrderRepository.UpdateOrderStatus i s w) as [[?|] ?]; simpl
  | |- context [OrderRepository.UpdateOrderAndPasteAccrual ?o ?s ?a ?w] =>
      let H := fresh "Hcall" in
      pose proof (UpdateOrderAndPasteAccrual_run o s a w) as H;
      destruct (OrderRepository.UpdateOrderAndPasteAccrual o s a w) as [[?|] ?]; simpl
  end.

(** Close a goal about the order row from what the calls committed. *)
Ltac order_row Ho :=
  repeat match goal with
         | H : _ /\ _ |- _ => destruct H
         end;
  repeat match goal with
         | H : committed ?w = _ |- _ => rewrite H; clear H
         end;
  first
    [ right; reflexivity
    | try left;
      eexists; split;
      [ first [ apply updateStatusQuery_lookup | apply creditCommitted_lookup ]; exact Ho
      | unfold resolved; simpl; tauto ] ].

(** The routine hands on what its one write returns. *)
Lemma bind_ret_option (m : M (option error)) (w : World) :
  (err <- m;;
   match err with
   | Some e => ret (Some e)
   | None => ret None
   end) w = m w.
Proof. unfold bind, ret. destruct (m w) as [[e|] w']; reflexivity. Qed.

Lemma fault_last (pre pre' : list (option fault)) (f : fault) (s s' s'' : list (option fault))
    (e : error) :
  s = (pre ++ s')%list ->
  s' = (pre' ++ Some f :: s'')%list /\ e = fault_error f ->
  exists pre f, s = (pre ++ Some f :: s'')%list /\ e = fault_error f.
Proof.
  intros -> [-> ->]. exists (pre ++ pre')%list, f. rewrite <- app_assoc. split; reflexivity.
Qed.

(** C1, as the code has it.  For an order held by the store and every
    outcome of the Authority Client other than a successful answer with
    status REGISTERED.  When the routine returns [nil], the order is
    PROCESSED, INVALID or NEW, and it returns [nil] whenever the store
    answers its calls.  When it returns an error, either the order was put
    back to NEW, or the last call it made to the store failed, the error
    returned is that failure and the committed tables are exactly as they
    were (an order that was PROCESSING still is).  The write of NEW that
    follows a failed write is made: when one call of the first write of a
    PROCESSED or INVALID answer fails and the store answers the three calls
    after it, the routine returns that failure and the order is NEW. *)
Theorem UpdateOrderStatus_resolves
    (getOrder : string -> ExternalOrder * option error) (order o : Order) (w : World) :
  orders (committed w) !! ID order = Some o ->
  (forall ext, getOrder (Number order) = (ext, None) ->
               ExtStatus ext <> ExternalOrderStatusRegistered) ->
  match OrderService.UpdateOrderStatus getOrder order w with
  | (None, w') =>
      exists o', orders (committed w') !! ID order = Some o' /\ resolved (Status o')
  | (Some e, w') =>
      orders (committed w') !! ID order = Some (withStatus OrderStatusNew o) \/
      (committed w' = committed w /\
       exists pre f, script w = (pre ++ Some f :: script w')%list /\ e = fault_error f)
  end /\
  (answering 8 (script w) -> fst (OrderService.UpdateOrderStatus getOrder order w) = None) /\
  (forall n k f rest,
     first_write_calls (getOrder (Number order)) = Some n ->
     (k < n)%nat ->
     script w = (replicate k None ++ Some f :: rest)%list ->
     answering 3 rest ->
     fst (OrderService.UpdateOrderStatus getOrder order w) = Some (fault_error f) /\
     orders (committed (snd (OrderService.UpdateOrderStatus getOrder order w))) !! ID order
       = Some (withStatus OrderStatusNew o)).
Proof.
  intros Ho Hreg.
  assert (forall s w0, s = OrderStatusNew \/ s = OrderStatusInvalid ->
            committed w0 = committed w ->
            (exists pre, script w = (pre ++ script w0)%list) ->
            match OrderRepository.UpdateOrderStatus (ID order) s w0 with
            | (None, w') =>
                exists o', orders (committed w') !! ID order = Some o' /\ resolved (Status o')
            | (Some e, w') =>
                committed w' = committed w /\
                exists pre f, script w = (pre ++ Some f :: script w')%list /\ e = fault_error f
            end) as Hsingle.
  { intros s w0 Hs Hc [pre Hpre].
    pose proof (UpdateOrderStatus_run (ID order) s w0) as Hrun.
    pose proof (UpdateOrderStatus_trace (ID order) s w0) as Htrace.
    destruct (OrderRepository.UpdateOrderStatus (ID order) s w0) as [[e|] w'].
    - destruct Hrun as [Hc' _]. split; [congruence|].
      destruct Htrace as (pre' & f & Hf); [tauto|].
      exact (fault_last pre pre' f _ _ _ e Hpre Hf).
    - destruct Hrun as (_ & Hc' & _). rewrite Hc', Hc.
      exists (withStatus s o). split; [apply updateStatusQuery_lookup; exact Ho|].
      unfold resolved. simpl. destruct Hs as [->| ->]; tauto. }
  assert (forall e1 w1,
            committed w1 = committed w ->
            (exists pre, script w = (pre ++ script w1)%list) ->
            match (innerErr <- OrderRepository.UpdateOrderStatus (ID order) OrderStatusNew;;
                   match innerErr with
                   | Some e' => ret (Some e')
                   | None => ret (Some e1)
                   end) w1 with
            | (None, w') => False
            | (Some e, w') =>
                orders (committed w') !! ID order = Some (withStatus OrderStatusNew o) \/
                (committed w' = committed w /\
                 exists pre f, script w = (pre ++ Some f :: script w')%list /\ e = fault_error f)
            end) as Hback.
  { intros e1 w1 Hc Hpre. unfold bind, ret.
    pose proof (Hsingle OrderStatusNew w1 (or_introl eq_refl) Hc Hpre) as H1.
    pose proof (UpdateOrderStatus_run (ID order) OrderStatusNew w1) as Hrun.
    destruct (OrderRepository.UpdateOrderStatus (ID order) OrderStatusNew w1) as [[e|] w'].
    - right. exact H1.
    - left. destruct Hrun as (_ & Hc' & _). rewrite Hc', Hc.
      apply updateStatusQuery_lookup. exact Ho. }
  assert (exists pre, script w = (pre ++ script w)%list) as Hnil by (exists []; reflexivity).
  split; [|split].
  - unfold OrderService.UpdateOrderStatus.
    destruct (getOrder (Number order)) as [ext [err|]].
    + case_bool_decide; rewrite bind_ret_option.
      * pose proof (Hsingle OrderStatusInvalid w (or_intror eq_refl) eq_refl Hnil) as Hres.
        destruct (OrderRepository.UpdateOrderStatus _ _ w) as [[e|] w']; tauto.
      * pose proof (Hsingle OrderStatusNew w (or_introl eq_refl) eq_refl Hnil) as Hres.
        destruct (OrderRepository.UpdateOrderStatus _ _ w) as [[e|] w']; tauto.
    + specialize (Hreg ext eq_refl).
      destruct (String.eqb_spec (ExtStatus ext) ExternalOrderStatusRegistered);
        [contradiction|].
      destruct (String.eqb (ExtStatus ext) ExternalOrderStatusProcessing).
      { rewrite bind_ret_option.
        pose proof (Hsingle OrderStatusNew w (or_introl eq_refl) eq_refl Hnil) as Hres.
        destruct (OrderRepository.UpdateOrderStatus _ _ w) as [[e|] w']; tauto. }
      destruct (String.eqb (ExtStatus ext) ExternalOrderStatusProcessed).
      { unfold bind at 1.
        pose proof (UpdateOrderAndPasteAccrual_run order OrderStatusProcessed
                      (ExtAccrual ext) w) as Hrun.
        pose proof (UpdateOrderAndPasteAccrual_trace order OrderStatusProcessed
                      (ExtAccrual ext) w) as Htrace.
        destruct (OrderRepository.UpdateOrderAndPasteAccrual _ _ _ w) as [[e1|] w1];
          simpl in Htrace.
        - destruct Hrun as [Hc _].
          pose proof (Hback e1 w1 Hc Htrace) as Hres.
          destruct ((innerErr <- OrderRepository.UpdateOrderStatus (ID order) OrderStatusNew;;
                     match innerErr with
                     | Some e' => ret (Some e')
                     | None => ret (Some e1)
                     end) w1) as [[e|] w']; [exact Hres|contradiction].
        - destruct Hrun as (_ & _ & Hc). unfold ret. rewrite Hc.
          exists (withStatus OrderStatusProcessed o).
          split; [apply creditCommitted_lookup; exact Ho|].
          unfold resolved. simpl. tauto. }
      destruct (String.eqb (ExtStatus ext) ExternalOrderStatusInvalid).
      { unfold bind at 1.
        pose proof (Hsingle OrderStatusInvalid w (or_intror eq_refl) eq_refl Hnil) as H1.
        pose proof (UpdateOrderStatus_trace (ID order) OrderStatusInvalid w) as Htrace.
        destruct (OrderRepository.UpdateOrderStatus (ID order) OrderStatusInvalid w)
          as [[e1|] w1].
        - destruct H1 as [Hc _].
          destruct Htrace as (pre & f & Hpre & _); [tauto|].
          assert (exists pre, script w = (pre ++ script w1)%list) as Hpre1.
          { exists (pre ++ [Some f])%list. rewrite <- app_assoc. exact Hpre. }
          pose proof (Hback e1 w1 Hc Hpre1) as Hres.
          destruct ((innerErr <- OrderRepository.UpdateOrderStatus (ID order) OrderStatusNew;;
                     match innerErr with
                     | Some e' => ret (Some e')
                     | None => ret (Some e1)
                     end) w1) as [[e|] w']; [exact Hres|contradiction].
        - exact H1. }
      rewrite bind_ret_option.
      pose proof (Hsingle OrderStatusNew w (or_introl eq_refl) eq_refl Hnil) as Hres.
      destruct (OrderRepository.UpdateOrderStatus _ _ w) as [[e|] w']; tauto.
  - clear Hsingle Hback Hnil. intros Hans.
    assert (answering 2 (script w)) as Hans2 by (apply (answering_le 8); [lia|assumption]).
    unfold OrderService.UpdateOrderStatus.
    destruct (getOrder (Number order)) as [ext [err|]].
    + case_bool_decide; rewrite bind_ret_option, UpdateOrderStatus_answering by tauto;
        reflexivity.
    + destruct (String.eqb (ExtStatus ext) ExternalOrderStatusRegistered); [reflexivity|].
      destruct (String.eqb (ExtStatus ext) ExternalOrderStatusProcessing).
      { rewrite bind_ret_option, UpdateOrderStatus_answering by tauto. reflexivity. }
      destruct (String.eqb (ExtStatus ext) ExternalOrderStatusProcessed).
      { unfold bind. rewrite UpdateOrderAndPasteAccrual_answering by assumption.
        reflexivity. }
      destruct (String.eqb (ExtStatus ext) ExternalOrderStatusInvalid).
      { unfold bind. rewrite UpdateOrderStatus_answering by tauto. reflexivity. }
      rewrite bind_ret_option, UpdateOrderStatus_answering by tauto. reflexivity.
  - clear Hsingle Hback Hnil. intros n k f rest Hn Hk Hscript Hans.
    assert (answering 2 rest) as Hans2 by (apply (answering_le 3); [lia|assumption]).
    unfold OrderService.UpdateOrderStatus.
    unfold first_write_calls in Hn.
    destruct (getOrder (Number order)) as [ext [err|]]; [discriminate|].
    specialize (Hreg ext eq_refl).
    destruct (String.eqb_spec (ExtStatus ext) ExternalOrderStatusRegistered);
      [contradiction|].
    destruct w as [db t s]. simpl in Hscript, Ho. subst s.
    destruct (String.eqb_spec (ExtStatus ext) ExternalOrderStatusProcessed) as [Hst|Hst].
    + rewrite Hst. simpl. injection Hn as <-.
      destruct (UpdateOrderAndPasteAccrual_one_fault order (ExtAccrual ext) db t k f rest
                  Hk Hans) as (t' & rest' & Hrun & Hans').
      unfold bind. rewrite Hrun.
      rewrite UpdateOrderStatus_answering by (simpl; tauto).
      simpl. split; [reflexivity|]. rewrite lookup_alter_eq, Ho. reflexivity.
    + destruct (String.eqb_spec (ExtStatus ext) ExternalOrderStatusInvalid) as [Hst'|Hst'];
        [|discriminate].
      injection Hn as <-.
      assert (String.eqb (ExtStatus ext) ExternalOrderStatusProcessing = false) as ->
        by (rewrite Hst'; reflexivity).
      unfold bind.
      rewrite UpdateOrderStatus_one_fault by (tauto || assumption).
      rewrite UpdateOrderStatus_answering by (simpl; tauto).
      simpl. split; [reflexivity|]. rewrite lookup_alter_eq, Ho. reflexivity.
Qed.

Lemma UpdateOrderStatus_resolves_witness :
  match OrderService.UpdateOrderStatus authority_processed order1 (world1 []) with
  | (None, w') =>
      exists o', orders (committed w') !! 1 = Some o' /\ resolved (Status o')
  | (Some e, w') =>
      orders (committed w') !! 1 = Some (withStatus OrderStatusNew order1) \/
      (committed w' = store1 /\
       exists pre f, [] = (pre ++ Some f :: script w')%list /\ e = fault_error f)
  end.
Proof.
  apply (UpdateOrderStatus_resolves authority_processed order1 order1 (world1 [])).
  - reflexivity.
  - intros ext [= <-]. discriminate.
Defined.

(** The credit fails at the prepare of its second statement and the store
    answers afterwards: the routine returns that failure and the order is
    NEW again. *)
Example UpdateOrderStatus_failed_credit_back_to_NEW :
  let w := world1 [None; None; None; Some (DriverFault "bad connection")] in
  fst (OrderService.UpdateOrderStatus authority_processed order1 w)
    = Some (ErrDriver "bad connection") /\
  orders (committed (snd (OrderService.UpdateOrderStatus authority_processed order1 w))) !! 1
    = Some (withStatus OrderStatusNew order1).
Proof. split; reflexivity. Qed.

(** The scenario of the specification: the authority answers PROCESSED with
    500 points, the order becomes PROCESSED and the balance grows by 500. *)
Example UpdateOrderStatus_processed_scenario :
  let '(err, w') := OrderService.UpdateOrderStatus authority_processed order1 (world1 []) in
  err = None /\
  (Status <$> orders (committed w') !! 1) = Some OrderStatusProcessed /\
  (balance <$> balances (committed w') !! 7) = Some (100 + 500)%Q.
Proof. repeat split; reflexivity. Qed.

(** The authority is unavailable and the store refuses the write that
    would put the order back to NEW: the routine returns that error and the
    order is still PROCESSING. *)
Lemma UpdateOrderStatus_still_PROCESSING :
  let getOrder := fun _ : string =>
    (emptyExternalOrder, Some ErrExternalAccrualServiceNotAvailable) in
  let w := world1 [Some (DriverFault "bad connection")] in
  (Status <$> orders (committed w) !! 1) = Some OrderStatusProcessing /\
  fst (OrderService.UpdateOrderStatus getOrder order1 w) = Some (ErrDriver "bad connection") /\
  exists o',
    orders (committed (snd (OrderService.UpdateOrderStatus getOrder order1 w))) !! 1
      = Some o' /\
    Status o' = OrderStatusProcessing /\
    ~ resolved (Status o').
Proof.
  repeat split; try reflexivity.
  exists order1. repeat split; try reflexivity.
  unfold resolved. simpl. intros [H|[H|H]]; discriminate H.
Qed.

(** An answer REGISTERED ends the routine at once: nothing is written. *)
Lemma UpdateOrderStatus_REGISTERED_noop
    (getOrder : string -> ExternalOrder * option error) (order : Order)
    (ext : ExternalOrder) (w : World) :
  getOrder (Number order) = (ext, None) ->
  ExtStatus ext = ExternalOrderStatusRegistered ->
  OrderService.UpdateOrderStatus getOrder order w = (None, w).
Proof.
  intros Hget Hst. unfold OrderService.UpdateOrderStatus.
  rewrite Hget, Hst. reflexivity.
Qed.

(** An answer PROCESSING puts the order back to NEW when the store takes
    the write. *)
Lemma UpdateOrderStatus_PROCESSING_to_NEW
    (getOrder : string -> ExternalOrder * option error) (order o : Order)
    (ext : ExternalOrder) (w : World) :
  getOrder (Number order) = (ext, None) ->
  ExtStatus ext = ExternalOrderStatusProcessing ->
  orders (committed w) !! ID order = Some o ->
  answering 2 (script w) ->
  fst (OrderService.UpdateOrderStatus getOrder order w) = None /\
  orders (committed (snd (OrderService.UpdateOrderStatus getOrder order w))) !! ID order
    = Some (withStatus OrderStatusNew o).
Proof.
  intros Hget Hst Ho Hans. unfold OrderService.UpdateOrderStatus.
  rewrite Hget, Hst. simpl.
  unfold OrderRepository.UpdateOrderStatus. simpl.
  destruct w as [db t s]. simpl in Ho, Hans. unfold_store.
  repeat (next_answer; simpl in Hans; try contradiction).
  all: split; [reflexivity|]; rewrite lookup_alter_eq, Ho; reflexivity.
Qed.

(** C2. The authority answers REGISTERED for order 1, which is in flight:
    the routine returns [nil] without a call to the store, and the order is
    still PROCESSING, not NEW. *)
Theorem UpdateOrderStatus_REGISTERED_stays_PROCESSING :
  let getOrder := fun number : string =>
    (mkExternalOrder number ExternalOrderStatusRegistered 0, None) in
  OrderService.UpdateOrderStatus getOrder order1 (world1 []) = (None, world1 []) /\
  (Status <$> orders (committed (snd (OrderService.UpdateOrderStatus getOrder order1
                                        (world1 [])))) !! 1)
    = Some OrderStatusProcessing /\
  OrderStatusProcessing <> OrderStatusNew.
Proof.
  repeat split; try reflexivity. discriminate.
Qed.

(** ** The Authority Client *)

(** A repository as [NewAccrualRepository] builds it never waits. *)
Lemma GetOrder_new_never_waits
    (address number : string) (now : Z) (answer : reply) (rtt : Z) :
  sent (GetOrder (NewAccrualRepository address) number now answer rtt) = now.
Proof.
  destruct answer as [err| |code header result]; simpl; try reflexivity.
  repeat match goal with
         | |- context [(?x =? ?y)%Z] => destruct (x =? y)%Z
         | |- context [header !! ?k] => destruct (header !! k) as [[|? ?]|]
         | |- context [Atoi ?v] => destruct (Atoi v)
         end; reflexivity.
Qed.

(** The struct the service holds is the one [NewAccrualRepository] built,
    whatever was answered before: every call leaves at once. *)
Lemma polls_never_wait (address : string) (calls : list (string * Z * reply * Z)) :
  map sent (polls (NewAccrualRepository address) calls)
    = map (fun '(_, now, _, _) => now) calls.
Proof.
  induction calls as [|[[[number now] answer] rtt] calls IH]; simpl.
  - reflexivity.
  - f_equal; [apply GetOrder_new_never_waits | exact IH].
Qed.

(** The deadline written to the callee's copy is the header value taken as
    nanoseconds. *)
Lemma GetOrder_deadline
    (a : AccrualRepository) (number : string) (now : Z) (header : gmap string (list string))
    (result : ExternalOrder) (rtt : Z) (value : string) (rest : list string) (n : Z) :
  header !! "Retry-After" = Some (value :: rest) ->
  Atoi value = inl n ->
  let run := GetOrder a number now (Response StatusTooManyRequests header result) rtt in
  returned run = Ret (emptyExternalOrder, Some ErrTooManyRequests) /\
  retryAfter (receiver run) = (sent run + rtt + n)%Z.
Proof.
  intros Hh Hn. simpl. rewrite Hh, Hn. split; reflexivity.
Qed.

(** C3. A first call observes a 429 with [Retry-After: 5]; a second call
    is made one second after that observation.  The first call returns
    [ErrTooManyRequests], the struct the calls are made on still has no
    deadline, and the second request leaves at the instant of the call,
    four seconds before the cooldown is over. *)
Theorem GetOrder_cooldown_not_kept :
  let a := NewAccrualRepository "http://accrual/" in
  let observed := (1000 * Second)%Z in
  let runs :=
    polls a [("79927398713", observed,
              Response StatusTooManyRequests retry_after_5 emptyExternalOrder, 0%Z);
             ("2377225624", (observed + 1 * Second)%Z,
              Response StatusOK ∅ (mkExternalOrder "2377225624" "PROCESSED" 10), 0%Z)] in
  map returned runs
    = [Ret (emptyExternalOrder, Some ErrTooManyRequests);
       Ret (mkExternalOrder "2377225624" "PROCESSED" 10, None)] /\
  retryAfter a = 0%Z /\
  map sent runs = [observed; (observed + 1 * Second)%Z] /\
  (observed + 1 * Second < observed + 5 * Second)%Z.
Proof.
  repeat split; reflexivity.
Qed.

(** Were the callee's copy kept, the deadline would still be 5 nanoseconds
    after the observation: a call one second later does not wait. *)
Example GetOrder_deadline_in_nanoseconds :
  let observed := (1000 * Second)%Z in
  let first :=
    GetOrder (NewAccrualRepository "http://accrual/") "79927398713" observed
      (Response StatusTooManyRequests retry_after_5 emptyExternalOrder) 0 in
  retryAfter (receiver first) = (observed + 5)%Z /\
  CanDoRequest (receiver first) (observed + 1 * Second) = true.
Proof. split; reflexivity. Qed.

(** C9. [GetOrder] panics exactly when the answer is a 429 whose header
    has no value under [Retry-After] (the key is missing or its list is
    empty), without returning an error value; it returns whenever every 429
    it is given carries at least one [Retry-After] value. *)
Theorem GetOrder_panics_iff
    (a : AccrualRepository) (number : string) (now : Z) (answer : reply) (rtt : Z) :
  (returned (GetOrder a number now answer rtt) = Panic <->
   exists header result,
     answer = Response StatusTooManyRequests header result /\
     (header !! "Retry-After" = None \/ header !! "Retry-After" = Some [])) /\
  ((forall header result,
      answer = Response StatusTooManyRequests header result ->
      exists value rest, header !! "Retry-After" = Some (value :: rest)) ->
   exists r, returned (GetOrder a number now answer rtt) = Ret r).
Proof.
  assert (returned (GetOrder a number now answer rtt) = Panic <->
          exists header result,
            answer = Response StatusTooManyRequests header result /\
            (header !! "Retry-After" = None \/ header !! "Retry-After" = Some []))
    as Hiff.
  { split.
    - destruct answer as [err| |code header result]; simpl; try discriminate.
      destruct (Z.eqb_spec code StatusTooManyRequests) as [->|Hne].
      + destruct (header !! "Retry-After") as [[|value rest]|] eqn:Hh; simpl.
        * intros _. exists header, result. auto.
        * destruct (Atoi value); simpl; discriminate.
        * intros _. exists header, result. auto.
      + repeat match goal with
               | |- context [(?x =? ?y)%Z] => destruct (x =? y)%Z
               end; simpl; discriminate.
    - intros (header & result & -> & Hh). simpl.
      destruct Hh as [-> | ->]; reflexivity. }
  split; [exact Hiff|].
  intros Hpre.
  destruct (returned (GetOrder a number now answer rtt)) as [r| |] eqn:Hr.
  - eauto.
  - exfalso. revert Hr.
    destruct answer as [err| |code header result]; simpl; try discriminate.
    repeat match goal with
           | |- context [(?x =? ?y)%Z] => destruct (x =? y)%Z
           | |- context [header !! ?k] => destruct (header !! k) as [[|? ?]|]
           | |- context [Atoi ?v] => destruct (Atoi v)
           end; simpl; discriminate.
  - exfalso. destruct Hiff as [Hiff _].
    destruct (Hiff eq_refl) as (header & result & -> & Hh).
    destruct (Hpre header result eq_refl) as (value & rest & Hv).
    destruct Hh as [Hh|Hh]; congruence.
Qed.

Lemma GetOrder_panics_iff_witness :
  exists r,
    returned (GetOrder (NewAccrualRepository "http://accrual/") "79927398713" 0
                (Response StatusTooManyRequests retry_after_5 emptyExternalOrder) 0) = Ret r.
Proof.
  apply (GetOrder_panics_iff (NewAccrualRepository "http://accrual/") "79927398713" 0
           (Response StatusTooManyRequests retry_after_5 emptyExternalOrder) 0).
  intros header result [= <- _]. exists "5", []. reflexivity.
Defined.

(** A 429 without the header. *)
Example GetOrder_panics_without_header :
  returned (GetOrder (NewAccrualRepository "http://accrual/") "79927398713" 0
              (Response StatusTooManyRequests ∅ emptyExternalOrder) 0) = Panic.
Proof. reflexivity. Qed.

(** ** The withdrawal handler *)

(** The service hands the answer of the repository on as it is. *)
Lemma WithdrawalService_Create_eq (number : string) (amount : Q) (userID : N) (w : World) :
  WithdrawalService.Create number amount userID w
    = WithdrawalRepository.Create number amount userID w.
Proof.
  unfold WithdrawalService.Create, bind, ret.
  pose proof (Create_run number amount userID w) as Hrun.
  destruct (WithdrawalRepository.Create number amount userID w) as [[[id [e|]]| |] w'];
    try reflexivity.
  destruct Hrun as [-> _]. reflexivity.
Qed.

(** C10. A request with a JSON body, an order number that passes the Luhn
    check, a user id in its context and an amount equal to 0: the handler
    writes the 422 answer and goes on.  It calls the withdrawal service with
    that amount; when the service returns, a second status code is written
    after the 422, and when it returns no error that code is 200 and the
    store holds a withdrawal row of amount 0 for the request. *)
Theorem zero_amount_withdrawal_goes_through
    (luhn_Valid : Z -> bool) (request : CreateWithdrawalHandler.Request)
    (requestData : models.CreateWithdrawalRequest) (n : Z) (userID : N) (w : World) :
  strings_Contains (CreateWithdrawalHandler.ContentType request) "application/json" = true ->
  CreateWithdrawalHandler.Body request = Some requestData ->
  Atoi (models.Order requestData) = inl n ->
  luhn_Valid n = true ->
  (models.Amount requestData == 0)%Q ->
  CreateWithdrawalHandler.ContextUserID request = Some userID ->
  match WithdrawalService.Create
          (models.Order requestData) (models.Amount requestData) userID w with
  | (Ret (id, err), w') =>
      exists code rest,
        CreateWithdrawalHandler.ServeHTTP luhn_Valid request w
          = ((amount_rejected ++ WriteHeader code :: rest)%list, Ret tt, w') /\
        (err = None ->
         code = StatusOK /\ rest = [] /\
         In (mkWithdrawal id (models.Amount requestData) userID (models.Order requestData))
            (withdrawals (committed w')))
  | (Exit, w') => CreateWithdrawalHandler.ServeHTTP luhn_Valid request w = (amount_rejected, Exit, w')
  | (Panic, w') => CreateWithdrawalHandler.ServeHTTP luhn_Valid request w = (amount_rejected, Panic, w')
  end.
Proof.
  intros Hct Hbody Hatoi Hluhn Hzero Huser.
  unfold CreateWithdrawalHandler.ServeHTTP.
  rewrite Hct, Hbody, Hatoi, Hluhn. simpl.
  apply Qeq_bool_iff in Hzero. rewrite Hzero, Huser.
  unfold bind, ret.
  pose proof (Create_run (models.Order requestData) (models.Amount requestData) userID w)
    as Hrun.
  rewrite <- WithdrawalService_Create_eq in Hrun.
  destruct (WithdrawalService.Create (models.Order requestData)
              (models.Amount requestData) userID w) as [[[id [e|]]| |] w'].
  - repeat case_bool_decide; eexists _, _; (split; [reflexivity|discriminate]).
  - eexists _, _. split; [reflexivity|]. intros _.
    destruct Hrun as (_ & _ & -> & _ & ->). repeat split.
    unfold debitCommitted, insertWithdrawal. simpl.
    apply in_or_app. right. left. reflexivity.
  - reflexivity.
  - reflexivity.
Qed.

Lemma zero_amount_withdrawal_goes_through_witness :
  match WithdrawalService.Create "79927398713" 0 7 (world1 []) with
  | (Ret (id, err), w') =>
      exists code rest,
        CreateWithdrawalHandler.ServeHTTP luhn.Valid zero_request (world1 [])
          = ((amount_rejected ++ WriteHeader code :: rest)%list, Ret tt, w') /\
        (err = None ->
         code = StatusOK /\ rest = [] /\
         In (mkWithdrawal id 0 7 "79927398713") (withdrawals (committed w')))
  | (Exit, w') => CreateWithdrawalHandler.ServeHTTP luhn.Valid zero_request (world1 []) = (amount_rejected, Exit, w')
  | (Panic, w') => CreateWithdrawalHandler.ServeHTTP luhn.Valid zero_request (world1 []) = (amount_rejected, Panic, w')
  end.
Proof.
  apply (zero_amount_withdrawal_goes_through luhn.Valid zero_request
           (models.mkCreateWithdrawalRequest "79927398713" 0) 79927398713 7 (world1 []));
    reflexivity.
Defined.

(** The same request, run: two status codes are written and the row is
    there. *)
Example zero_amount_withdrawal_created :
  let '(writes, ending, w') := CreateWithdrawalHandler.ServeHTTP luhn.Valid zero_request (world1 []) in
  writes = (amount_rejected ++ [WriteHeader StatusOK])%list /\
  ending = Ret tt /\
  withdrawals (committed w') = [mkWithdrawal 1 0 7 "79927398713"].
Proof. repeat split; reflexivity. Qed.

(** * Further properties *)

(** ** The Authority Client, once more *)


(** *** Rounding to [float64] *)

Lemma pow2_pos (e : Z) : (0 < 2 ^ e)%Q.
Proof. apply Qpower_0_lt. reflexivity. Qed.

Lemma pow2_succ (e : Z) : (2 ^ (e + 1) == 2 * 2 ^ e)%Q.
Proof. rewrite Qpower_plus by discriminate. simpl. ring. Qed.

Lemma pow2_inject (n : Z) : (0 <= n)%Z -> (inject_Z (2 ^ n) == 2 ^ n)%Q.
Proof. intros Hn. rewrite Zpower_Qpower by assumption. reflexivity. Qed.

Lemma log2_bounds (n : Z) :
  (0 < n)%Z -> (2 ^ Z.log2 n <= inject_Z n < 2 * 2 ^ Z.log2 n)%Q.
Proof.
  intros Hn. destruct (Z.log2_spec n Hn) as [Hlo Hhi].
  pose proof (Z.log2_nonneg n) as Hnn.
  rewrite <- pow2_succ, <- !pow2_inject by lia.
  rewrite <- Zle_Qle, <- Zlt_Qlt. replace (Z.log2 n + 1)%Z with (Z.succ (Z.log2 n)) by lia.
  split; assumption.
Qed.

Lemma pow2_sub (a b : Z) : (2 ^ (a - b) * 2 ^ b == 2 ^ a)%Q.
Proof.
  rewrite <- Qpower_plus by discriminate. replace (a - b + b)%Z with a by lia. reflexivity.
Qed.

Lemma binade_spec (q : Q) :
  (0 < q)%Q -> (2 ^ binade q <= q < 2 ^ (binade q + 1))%Q.
Proof.
  intros Hq. unfold binade.
  destruct q as [n d]. assert (0 < n)%Z as Hn by (unfold Qlt in Hq; simpl in Hq; lia).
  simpl Qnum. simpl Qden.
  set (a := Z.log2 n). set (b := Z.log2 (Z.pos d)).
  pose proof (log2_bounds n Hn) as [Ha1 Ha2]. fold a in Ha1, Ha2.
  pose proof (log2_bounds (Z.pos d) ltac:(lia)) as [Hb1 Hb2]. fold b in Hb1, Hb2.
  pose proof (pow2_pos a) as Hpa. pose proof (pow2_pos b) as Hpb.
  assert (n # d == inject_Z n / inject_Z (Z.pos d))%Q as Hnd by apply Qmake_Qdiv.
  assert (0 < inject_Z (Z.pos d))%Q as Hd by (unfold Qlt; simpl; lia).
  destruct (Qle_bool (2 ^ (a - b)) (n # d)) eqn:Hle.
  - apply Qle_bool_iff in Hle. split; [exact Hle|].
    rewrite pow2_succ, Hnd. apply Qlt_shift_div_r; [exact Hd|].
    pose proof (pow2_sub a b) as Hs. pose proof (pow2_pos (a - b)) as Hpab.
    nra.
  - assert (n # d < 2 ^ (a - b))%Q as Hlt.
    { apply Qnot_le_lt. intros H. apply Qle_bool_iff in H. congruence. }
    replace (a - b - 1 + 1)%Z with (a - b)%Z by lia. split; [|exact Hlt].
    rewrite Hnd. apply Qle_shift_div_l; [exact Hd|].
    pose proof (pow2_succ (a - b - 1)) as Hs1.
    replace (a - b - 1 + 1)%Z with (a - b)%Z in Hs1 by lia.
    pose proof (pow2_sub a b) as Hs. pose proof (pow2_pos (a - b - 1)) as Hpab.
    nra.
Qed.

Lemma binade_unique (q : Q) (e : Z) :
  (2 ^ e <= q < 2 ^ (e + 1))%Q -> binade q = e.
Proof.
  intros [Hlo Hhi].
  assert (0 < q)%Q as Hq by (pose proof (pow2_pos e); lra).
  destruct (binade_spec q Hq) as [Hlo' Hhi'].
  assert (2 ^ e < 2 ^ (binade q + 1))%Q as H1 by lra.
  assert (2 ^ binade q < 2 ^ (e + 1))%Q as H2 by lra.
  apply Qpower_lt_compat_l_inv in H1; [|reflexivity].
  apply Qpower_lt_compat_l_inv in H2; [|reflexivity].
  lia.
Qed.

Lemma binade_comp (q q' : Q) : (0 < q)%Q -> (q == q')%Q -> binade q = binade q'.
Proof.
  intros Hq Heq. symmetry. apply binade_unique. rewrite <- Heq. apply binade_spec. exact Hq.
Qed.

Lemma binade_le (x y : Q) : (0 < x)%Q -> (x <= y)%Q -> (binade x <= binade y)%Z.
Proof.
  intros Hx Hxy.
  destruct (binade_spec x Hx) as [Hlo _].
  destruct (binade_spec y ltac:(lra)) as [_ Hhi].
  assert (2 ^ binade x < 2 ^ (binade y + 1))%Q as H by lra.
  apply Qpower_lt_compat_l_inv in H; [|reflexivity]. lia.
Qed.

Lemma nearest_even_bounds (q : Q) :
  (Qfloor q <= nearest_even q <= Qfloor q + 1)%Z.
Proof.
  unfold nearest_even.
  destruct (q - inject_Z (Qfloor q) ?= 1 # 2)%Q; [destruct (Z.even (Qfloor q))| |]; lia.
Qed.

Lemma nearest_even_Z (q : Q) (z : Z) : (q == inject_Z z)%Q -> nearest_even q = z.
Proof.
  intros Hq. unfold nearest_even.
  rewrite (Qfloor_comp _ _ Hq), Qfloor_Z.
  destruct (Qcompare_spec (q - inject_Z z) (1 # 2)) as [H|H|H]; [lra|reflexivity|lra].
Qed.

Lemma nearest_even_mono (x y : Q) : (x <= y)%Q -> (nearest_even x <= nearest_even y)%Z.
Proof.
  intros Hxy.
  pose proof (Qfloor_resp_le _ _ Hxy) as Hf.
  pose proof (nearest_even_bounds x) as Hx. pose proof (nearest_even_bounds y) as Hy.
  destruct (Z.eq_dec (Qfloor x) (Qfloor y)) as [Heq|Hne]; [|lia].
  unfold nearest_even in *. rewrite <- Heq.
  destruct (Qcompare_spec (x - inject_Z (Qfloor x)) (1 # 2)) as [H1|H1|H1];
    destruct (Qcompare_spec (y - inject_Z (Qfloor x)) (1 # 2)) as [H2|H2|H2];
    try destruct (Z.even (Qfloor x)); try lia; lra.
Qed.

Lemma nearest_even_ge (q : Q) (z : Z) : (inject_Z z <= q)%Q -> (z <= nearest_even q)%Z.
Proof.
  intros H. rewrite <- (nearest_even_Z (inject_Z z) z) at 1 by reflexivity.
  apply nearest_even_mono. exact H.
Qed.

Lemma nearest_even_le (q : Q) (z : Z) : (q <= inject_Z z)%Q -> (nearest_even q <= z)%Z.
Proof.
  intros H. rewrite <- (nearest_even_Z (inject_Z z) z) at 1 by reflexivity.
  apply nearest_even_mono. exact H.
Qed.

(** On a positive rational. *)
Lemma float64_pos (q : Q) :
  (0 < q)%Q ->
  float64 q = (inject_Z (nearest_even (q / 2 ^ (binade q - 52))) * 2 ^ (binade q - 52))%Q.
Proof.
  intros Hq. unfold float64.
  destruct (Qeq_bool q 0) eqn:Hz.
  - apply Qeq_bool_eq in Hz. lra.
  - rewrite (binade_comp (Qabs q) q); [reflexivity| |apply Qabs_pos; lra].
    rewrite Qabs_pos; lra.
Qed.

Lemma float64_zero (q : Q) : (q == 0)%Q -> float64 q = 0%Q.
Proof. intros Hq. unfold float64. rewrite (Qeq_eq_bool _ _ Hq). reflexivity. Qed.

Lemma float64_nonneg (q : Q) : (0 <= q)%Q -> (0 <= float64 q)%Q.
Proof.
  intros Hq. destruct (Qeq_dec q 0) as [Hz|Hnz].
  - rewrite float64_zero by assumption. lra.
  - assert (0 < q)%Q as Hpos by (destruct (Qlt_le_dec 0 q); [assumption|lra]).
    rewrite float64_pos by assumption.
    pose proof (pow2_pos (binade q - 52)) as Hu.
    apply Qmult_le_0_compat; [|lra].
    change 0%Q with (inject_Z 0). rewrite <- Zle_Qle. apply nearest_even_ge.
    apply Qle_shift_div_l; [exact Hu|]. change (inject_Z 0) with 0%Q. lra.
Qed.

Lemma pow2_add (a b : Z) : (2 ^ (a + b) == 2 ^ a * 2 ^ b)%Q.
Proof. apply Qpower_plus. discriminate. Qed.


Lemma float64_mono (x y : Q) : (0 <= x)%Q -> (x <= y)%Q -> (float64 x <= float64 y)%Q.
Proof.
  intros Hx Hxy. destruct (Qeq_dec x 0) as [Hz|Hnz].
  - rewrite (float64_zero x Hz). apply float64_nonneg. lra.
  - assert (0 < x)%Q as Hxpos by (destruct (Qlt_le_dec 0 x); [assumption|lra]).
    assert (0 < y)%Q as Hypos by lra.
    rewrite !float64_pos by assumption.
    pose proof (binade_le x y Hxpos Hxy) as Hb.
    destruct (binade_spec x Hxpos) as [Hxlo Hxhi].
    destruct (binade_spec y Hypos) as [Hylo Hyhi].
    set (ex := binade x) in *. set (ey := binade y) in *.
    pose proof (pow2_pos (ex - 52)) as Hux. pose proof (pow2_pos (ey - 52)) as Huy.
    destruct (Z.eq_dec ex ey) as [Heq|Hne].
    + rewrite <- Heq. apply Qmult_le_compat_r; [|lra].
      rewrite <- Zle_Qle. apply nearest_even_mono.
      apply Qmult_le_compat_r; [exact Hxy|]. apply Qlt_le_weak, Qinv_lt_0_compat. exact Hux.
    + apply Qle_trans with (2 ^ (ex + 1))%Q; [|apply Qle_trans with (2 ^ ey)%Q].
      * assert (2 ^ (ex + 1) == inject_Z (2 ^ 53) * 2 ^ (ex - 52))%Q as ->.
        { rewrite pow2_inject by lia. rewrite <- pow2_add. f_equiv. lia. }
        apply Qmult_le_compat_r; [|lra].
        rewrite <- Zle_Qle. apply nearest_even_le.
        apply Qle_shift_div_r; [exact Hux|].
        rewrite pow2_inject by lia. rewrite <- pow2_add.
        replace (53 + (ex - 52))%Z with (ex + 1)%Z by lia. lra.
      * apply Qpower_le_compat_l; [lia|]. unfold Qle. simpl. lia.
      * assert (2 ^ ey == inject_Z (2 ^ 52) * 2 ^ (ey - 52))%Q as ->.
        { rewrite pow2_inject by lia. rewrite <- pow2_add. f_equiv. lia. }
        apply Qmult_le_compat_r; [|lra].
        rewrite <- Zle_Qle. apply nearest_even_ge.
        apply Qle_shift_div_l; [exact Huy|].
        rewrite pow2_inject by lia. rewrite <- pow2_add.
        replace (52 + (ey - 52))%Z with ey by lia. lra.
Qed.

Lemma float64_comp (x y : Q) : (0 <= x)%Q -> (x == y)%Q -> (float64 x == float64 y)%Q.
Proof.
  intros Hx Hxy. apply Qle_antisym; apply float64_mono; lra.
Qed.




(** The rounding agrees with the one the Standard Library specifies for
    binary64, on a quotient, a sum with a tie, and a conversion that does
    not fit 53 bits. *)
Example float64_as_specified :
  (float64 (999999885 / 1000000000)
   == SF_to_Q (SFdiv 53 1024 (SF_of_Z 999999885) (SF_of_Z 1000000000)))%Q /\
  (float64 (9007199254740992 + 1)
   == SF_to_Q (SFadd 53 1024 (SF_of_Z 9007199254740992) (SF_of_Z 1)))%Q /\
  (float64 (9007199254740994 + 1)
   == SF_to_Q (SFadd 53 1024 (SF_of_Z 9007199254740994) (SF_of_Z 1)))%Q /\
  (float64 6307199998999999885 == SF_to_Q (SF_of_Z 6307199998999999885))%Q.
Proof. repeat split; vm_compute; reflexivity. Qed.

(** Past 2^24 seconds the sum can round up to the next second. *)
Example Seconds_rounds_up :
  truncate (Seconds 6307199998999999885) = 6307199999%Z.
Proof. vm_compute. reflexivity. Qed.



(** With two seconds left the call sleeps two nanoseconds. *)
Example GetOrder_sleeps_nanoseconds :
  sent (GetOrder cooling_down "79927398713" (1000 * Second)
          (Response StatusOK ∅ emptyExternalOrder) 0) = (1000 * Second + 2)%Z.
Proof. vm_compute. reflexivity. Qed.

(** ** One order, from the answer of the authority to the store *)

Lemma Atoi_error (value : string) (e : error) :
  Atoi value = inr e -> e <> ErrOrderNotRegistered.
Proof.
  unfold Atoi.
  destruct value as [|c value']; [intros [= <-]; discriminate|].
  repeat match goal with
         | |- context [match ?x with _ => _ end] => destruct x
         end; intros [= <-]; discriminate.
Qed.

(** The routine reaches its call of the plain update and the store takes it. *)
Ltac store_takes_update :=
  unfold bind, ret; rewrite UpdateOrderStatus_answering by auto; reflexivity.

(** X2. Every answer of the authority that is neither a usable status nor
    "not registered" puts the order back to NEW: a transport failure, a nil
    response, a 429 (whether or not its header parses), a 500, any other
    status code, and a 200 whose status is PROCESSING or unknown.  The store
    takes the two calls of the update. *)
Theorem reconcile_retriable_to_NEW
    (a : AccrualRepository) (order o : Order) (now : Z) (answer : reply) (rtt : Z)
    (r : ExternalOrder * option error) (w : World) :
  returned (GetOrder a (Number order) now answer rtt) = Ret r ->
  retriable answer = true ->
  orders (committed w) !! ID order = Some o ->
  answering 2 (script w) ->
  fst (OrderService.UpdateOrderStatus (fun _ => r) order w) = None /\
  orders (committed (snd (OrderService.UpdateOrderStatus (fun _ => r) order w))) !! ID order
    = Some (withStatus OrderStatusNew o).
Proof.
  intros Hret Hretry Ho Hans.
  assert (OrderService.UpdateOrderStatus (fun _ => r) order w
          = (None, mkWorld (updateStatusQuery OrderStatusNew (ID order) (committed w))
                     (tx w) (drop 2 (script w)))) as ->.
  { unfold OrderService.UpdateOrderStatus.
    destruct answer as [err| |code header result]; simpl in Hret, Hretry.
    - injection Hret as <-. apply negb_true_iff, bool_decide_eq_false in Hretry.
      rewrite bool_decide_eq_false_2 by assumption. store_takes_update.
    - injection Hret as <-. simpl. store_takes_update.
    - destruct (Z.eqb_spec code StatusTooManyRequests) as [->|H429].
      + simpl in Hret.
        destruct (header !! "Retry-After") as [[|value rest]|]; try discriminate Hret.
        destruct (Atoi value) as [n|e] eqn:Hatoi; injection Hret as <-.
        * simpl. store_takes_update.
        * apply Atoi_error in Hatoi.
          rewrite bool_decide_eq_false_2 by assumption. store_takes_update.
      + destruct (Z.eqb_spec code StatusNoContent) as [->|H204].
        { simpl in Hretry. discriminate Hretry. }
        destruct (Z.eqb_spec code StatusInternalServerError) as [->|H500].
        { injection Hret as <-. simpl. store_takes_update. }
        destruct (Z.eqb_spec code StatusOK) as [->|H200].
        * injection Hret as <-. simpl in Hretry.
          apply negb_true_iff in Hretry.
          apply orb_false_iff in Hretry as [Hretry Hinv].
          apply orb_false_iff in Hretry as [Hreg Hproc].
          rewrite Hreg, Hproc, Hinv.
          destruct (String.eqb (ExtStatus result) ExternalOrderStatusProcessing);
            store_takes_update.
        * injection Hret as <-. simpl. store_takes_update. }
  simpl. split; [reflexivity|].
  rewrite lookup_alter_eq, Ho. reflexivity.
Qed.

Lemma reconcile_retriable_to_NEW_witness :
  fst (OrderService.UpdateOrderStatus
         (fun _ => (emptyExternalOrder, Some ErrExternalAccrualServiceNotAvailable))
         order1 (world1 [])) = None /\
  orders (committed (snd (OrderService.UpdateOrderStatus
         (fun _ => (emptyExternalOrder, Some ErrExternalAccrualServiceNotAvailable))
         order1 (world1 [])))) !! ID order1
    = Some (withStatus OrderStatusNew order1).
Proof.
  apply (reconcile_retriable_to_NEW (NewAccrualRepository "http://accrual/") order1 order1
           0 (Response StatusInternalServerError ∅ emptyExternalOrder) 0
           (emptyExternalOrder, Some ErrExternalAccrualServiceNotAvailable) (world1 []));
    reflexivity || exact I.
Defined.

(** X3. A 204 of the authority, and a 200 whose status is INVALID, make the
    order INVALID when the store takes the two calls of the update. *)
Theorem reconcile_to_INVALID
    (a : AccrualRepository) (order o : Order) (now : Z) (answer : reply) (rtt : Z)
    (r : ExternalOrder * option error) (w : World) :
  returned (GetOrder a (Number order) now answer rtt) = Ret r ->
  invalidating answer = true ->
  orders (committed w) !! ID order = Some o ->
  answering 2 (script w) ->
  fst (OrderService.UpdateOrderStatus (fun _ => r) order w) = None /\
  orders (committed (snd (OrderService.UpdateOrderStatus (fun _ => r) order w))) !! ID order
    = Some (withStatus OrderStatusInvalid o).
Proof.
  intros Hret Hinv Ho Hans.
  assert (OrderService.UpdateOrderStatus (fun _ => r) order w
          = (None, mkWorld (updateStatusQuery OrderStatusInvalid (ID order) (committed w))
                     (tx w) (drop 2 (script w)))) as ->.
  { unfold OrderService.UpdateOrderStatus.
    destruct answer as [err| |code header result]; simpl in Hret, Hinv;
      try discriminate Hinv.
    - injection Hret as <-. rewrite Hinv. store_takes_update.
    - destruct (Z.eqb_spec code StatusNoContent) as [->|H204]; simpl in Hinv, Hret.
      + injection Hret as <-. simpl. store_takes_update.
      + apply andb_true_iff in Hinv as [H200 Hst].
        apply Z.eqb_eq in H200. subst code. simpl in Hret. injection Hret as <-.
        apply String.eqb_eq in Hst. rewrite Hst. simpl. store_takes_update. }
  simpl. split; [reflexivity|].
  rewrite lookup_alter_eq, Ho. reflexivity.
Qed.

Lemma reconcile_to_INVALID_witness :
  fst (OrderService.UpdateOrderStatus
         (fun _ => (emptyExternalOrder, Some ErrOrderNotRegistered)) order1 (world1 [])) = None /\
  orders (committed (snd (OrderService.UpdateOrderStatus
         (fun _ => (emptyExternalOrder, Some ErrOrderNotRegistered)) order1 (world1 []))))
    !! ID order1
    = Some (withStatus OrderStatusInvalid order1).
Proof.
  apply (reconcile_to_INVALID (NewAccrualRepository "http://accrual/") order1 order1
           0 (Response StatusNoContent ∅ emptyExternalOrder) 0
           (emptyExternalOrder, Some ErrOrderNotRegistered) (world1 []));
    reflexivity || exact I.
Defined.

(** X4. A 200 of the authority with status PROCESSED and an accrual: when
    the store takes the eight calls of the combined update, the order is
    PROCESSED, the accrual is recorded against it and the balance of its
    owner has grown by the accrual. *)
Theorem reconcile_to_PROCESSED
    (a : AccrualRepository) (order o : Order) (b : Balance) (now : Z)
    (header : gmap string (list string)) (result : ExternalOrder) (rtt : Z) (w : World) :
  ExtStatus result = ExternalOrderStatusProcessed ->
  orders (committed w) !! ID order = Some o ->
  balances (committed w) !! UserID order = Some b ->
  answering 8 (script w) ->
  exists r,
    returned (GetOrder a (Number order) now (Response StatusOK header result) rtt) = Ret r /\
    fst (OrderService.UpdateOrderStatus (fun _ => r) order w) = None /\
    let w' := snd (OrderService.UpdateOrderStatus (fun _ => r) order w) in
    orders (committed w') !! ID order = Some (withStatus OrderStatusProcessed o) /\
    accruals (committed w')
      = (accruals (committed w) ++ [mkAccrual (ExtAccrual result) (UserID order) (ID order)])%list /\
    balances (committed w') !! UserID order
      = Some (mkBalance (balance b + ExtAccrual result)%Q (withdrawals_sum b)).
Proof.
  intros Hst Ho Hb Hans. exists (result, None). split; [reflexivity|].
  assert (OrderService.UpdateOrderStatus (fun _ => (result, None)) order w
          = (None, mkWorld (creditCommitted order (ExtAccrual result) (committed w)) None
                     (drop 8 (script w)))) as ->.
  { unfold OrderService.UpdateOrderStatus. rewrite Hst. simpl.
    unfold bind, ret. rewrite UpdateOrderAndPasteAccrual_answering by assumption.
    reflexivity. }
  simpl. rewrite !lookup_alter_eq, Ho, Hb. repeat split; reflexivity.
Qed.

Lemma reconcile_to_PROCESSED_witness :
  exists r,
    returned (GetOrder (NewAccrualRepository "http://accrual/") (Number order1) 0
                (Response StatusOK ∅ (mkExternalOrder "79927398713" "PROCESSED" 500)) 0)
      = Ret r /\
    fst (OrderService.UpdateOrderStatus (fun _ => r) order1 (world1 [])) = None /\
    let w' := snd (OrderService.UpdateOrderStatus (fun _ => r) order1 (world1 [])) in
    orders (committed w') !! ID order1 = Some (withStatus OrderStatusProcessed order1) /\
    accruals (committed w')
      = (accruals (committed (world1 [])) ++ [mkAccrual 500 (UserID order1) (ID order1)])%list /\
    balances (committed w') !! UserID order1 = Some (mkBalance (100 + 500)%Q 0).
Proof.
  apply (reconcile_to_PROCESSED (NewAccrualRepository "http://accrual/") order1 order1
           (mkBalance 100 0) 0 ∅ (mkExternalOrder "79927398713" "PROCESSED" 500) 0
           (world1 []));
    reflexivity || exact I.
Defined.

(** ** Withdrawals, once more *)

(** A withdrawal that is covered, for an unused number, when the driver
    answers its ten calls. *)
Lemma Create_answering
    (number : string) (amount : Q) (userID : N) (w : World) (b : Balance) :
  balances (committed w) !! userID = Some b ->
  (amount <= balance b)%Q ->
  numberUsed number (committed w) = false ->
  answering 10 (script w) ->
  WithdrawalRepository.Create number amount userID w
    = (Ret (nextWithdrawalID (committed w), None),
       mkWorld (debitCommitted number amount userID (committed w)) None
         (drop 10 (script w))).
Proof.
  intros Hb Hle Hused Hans. apply Qgtb_false in Hle.
  unfold WithdrawalRepository.Create.
  destruct w as [db t s]. simpl in Hb, Hused, Hans. unfold_store.
  unfold numberUsed in Hused.
  repeat (first [ next_answer; simpl in Hans; try contradiction
                | unfold selectBalance; rewrite Hb; simpl
                | rewrite Hle; simpl
                | unfold insertWithdrawalReturningID, numberUsed; simpl;
                  rewrite Hused; simpl ];
          try reflexivity).
Qed.

(** X5. The balance check of [WithdrawalRepository.Create] lets a negative
    amount through: for a balance that is not negative the withdrawal is
    committed, the row carries the negative amount, and the balance of the
    user grows by its absolute value. *)
Theorem Create_negative_amount_credits
    (number : string) (amount : Q) (userID : N) (w : World) (b : Balance) :
  balances (committed w) !! userID = Some b ->
  (0 <= balance b)%Q ->
  (amount < 0)%Q ->
  numberUsed number (committed w) = false ->
  answering 10 (script w) ->
  exists id b',
    fst (WithdrawalRepository.Create number amount userID w) = Ret (id, None) /\
    let db' := committed (snd (WithdrawalRepository.Create number amount userID w)) in
    balances db' !! userID = Some b' /\
    balance b' = (balance b - amount)%Q /\
    (balance b < balance b')%Q /\
    withdrawals db' = (withdrawals (committed w) ++ [mkWithdrawal id amount userID number])%list.
Proof.
  intros Hb Hpos Hneg Hused Hans.
  assert (amount <= balance b)%Q as Hle by lra.
  rewrite (Create_answering number amount userID w b Hb Hle Hused Hans). simpl.
  eexists _, _. split; [reflexivity|].
  rewrite lookup_alter_eq, Hb. simpl.
  split; [reflexivity|]. split; [reflexivity|]. split; [|reflexivity].
  simpl. lra.
Qed.

Lemma Create_negative_amount_credits_witness :
  exists id b',
    fst (WithdrawalRepository.Create "2377225624" (-50) 7 (world1 [])) = Ret (id, None) /\
    let db' := committed (snd (WithdrawalRepository.Create "2377225624" (-50) 7 (world1 []))) in
    balances db' !! 7 = Some b' /\
    balance b' = (100 - -50)%Q /\
    (100 < balance b')%Q /\
    withdrawals db' = ([] ++ [mkWithdrawal id (-50) 7 "2377225624"])%list.
Proof.
  apply (Create_negative_amount_credits "2377225624" (-50) 7 (world1 []) (mkBalance 100 0)).
  - reflexivity.
  - discriminate.
  - reflexivity.
  - reflexivity.
  - exact I.
Defined.

(** X6. When the insert of the withdrawal row fails with an error that is
    not an integrity violation and the rollback that follows succeeds, the
    branch on [row.Err()] does not return: [Scan] gives the same error, the
    second rollback meets a finished transaction, and the caller is answered
    [sql.ErrTxDone] instead of the error of the insert. *)
Theorem Create_insert_failure_reported_as_ErrTxDone
    (number : string) (amount : Q) (userID : N) (db : DB) (t : option DB)
    (b : Balance) (f : fault) (rest : list (option fault)) :
  balances db !! userID = Some b ->
  (amount <= balance b)%Q ->
  isIntegrityViolation (fault_error f) = false ->
  WithdrawalRepository.Create number amount userID
    (mkWorld db t ([None; None; None; None; None; None; None; Some f; None] ++ rest))
  = (Ret (0, Some ErrTxDone), mkWorld db None rest).
Proof.
  intros Hb Hle Hint. apply Qgtb_false in Hle.
  unfold WithdrawalRepository.Create. unfold_store.
  unfold selectBalance. rewrite Hb. simpl. rewrite Hle. simpl.
  rewrite Hint. reflexivity.
Qed.

Lemma Create_insert_failure_reported_as_ErrTxDone_witness :
  WithdrawalRepository.Create "2377225624" 60 7
    (mkWorld store1 None
       ([None; None; None; None; None; None; None; Some (DriverFault "bad connection"); None]
        ++ []))
  = (Ret (0, Some ErrTxDone), mkWorld store1 None []).
Proof.
  apply (Create_insert_failure_reported_as_ErrTxDone "2377225624" 60 7 store1 None
           (mkBalance 100 0) (DriverFault "bad connection") []).
  - reflexivity.
  - discriminate.
  - reflexivity.
Defined.

(** X7. Every integrity violation met by the insert of the withdrawal row
    (a SQLSTATE of class 23, a foreign key or a check as well as the unique
    number) is answered with [ErrWithdrawalOrderAlreadyExists], also for a
    number no withdrawal has used; the transaction is rolled back. *)
Theorem Create_integrity_violation_reported_as_duplicate
    (number : string) (amount : Q) (userID : N) (db : DB) (t : option DB)
    (b : Balance) (code : string) (rest : list (option fault)) :
  balances db !! userID = Some b ->
  (amount <= balance b)%Q ->
  IsIntegrityConstraintViolation code = true ->
  WithdrawalRepository.Create number amount userID
    (mkWorld db t ([None; None; None; None; None; None; None; Some (PgFault code); None]
                   ++ rest))
  = (Ret (0, Some ErrWithdrawalOrderAlreadyExists), mkWorld db None rest).
Proof.
  intros Hb Hle Hint. apply Qgtb_false in Hle.
  unfold WithdrawalRepository.Create. unfold_store.
  unfold selectBalance. rewrite Hb. simpl. rewrite Hle. simpl.
  rewrite Hint. reflexivity.
Qed.

Lemma Create_integrity_violation_reported_as_duplicate_witness :
  numberUsed "2377225624" store1 = false /\
  WithdrawalRepository.Create "2377225624" 60 7
    (mkWorld store1 None
       ([None; None; None; None; None; None; None; Some (PgFault "23503"); None] ++ []))
  = (Ret (0, Some ErrWithdrawalOrderAlreadyExists), mkWorld store1 None []).
Proof.
  split; [reflexivity|].
  apply (Create_integrity_violation_reported_as_duplicate "2377225624" 60 7 store1 None
           (mkBalance 100 0) "23503" []).
  - reflexivity.
  - discriminate.
  - reflexivity.
Defined.

(** ** The order store, once more *)

(** X8. [UpdateOrderAndPasteAccrual] has no guard against an order that was
    credited before: run twice for the same order it commits twice, leaving
    two accrual rows for the order and the balance grown by twice the
    amount. *)
Theorem UpdateOrderAndPasteAccrual_twice_credits_twice
    (order o : Order) (b : Balance) (amount : Q) (w : World) :
  orders (committed w) !! ID order = Some o ->
  balances (committed w) !! UserID order = Some b ->
  answering 16 (script w) ->
  let first := OrderRepository.UpdateOrderAndPasteAccrual order OrderStatusProcessed amount w in
  let second :=
    OrderRepository.UpdateOrderAndPasteAccrual order OrderStatusProcessed amount (snd first) in
  fst first = None /\ fst second = None /\
  accruals (committed (snd second))
    = (accruals (committed w)
       ++ [mkAccrual amount (UserID order) (ID order);
           mkAccrual amount (UserID order) (ID order)])%list /\
  balances (committed (snd second)) !! UserID order
    = Some (mkBalance (balance b + amount + amount)%Q (withdrawals_sum b)).
Proof.
  intros Ho Hb Hans. simpl.
  rewrite (UpdateOrderAndPasteAccrual_answering order amount w)
    by (apply (answering_le 16); [lia|assumption]).
  simpl.
  rewrite UpdateOrderAndPasteAccrual_answering
    by (simpl; apply (answering_drop 8 8); assumption).
  simpl. rewrite !lookup_alter_eq, Hb. simpl.
  rewrite <- app_assoc. repeat split; reflexivity.
Qed.

Lemma UpdateOrderAndPasteAccrual_twice_credits_twice_witness :
  let first :=
    OrderRepository.UpdateOrderAndPasteAccrual order1 OrderStatusProcessed 500 (world1 []) in
  let second :=
    OrderRepository.UpdateOrderAndPasteAccrual order1 OrderStatusProcessed 500 (snd first) in
  fst first = None /\ fst second = None /\
  accruals (committed (snd second))
    = (accruals (committed (world1 [])) ++ [mkAccrual 500 7 1; mkAccrual 500 7 1])%list /\
  balances (committed (snd second)) !! 7 = Some (mkBalance (100 + 500 + 500)%Q 0).
Proof.
  apply (UpdateOrderAndPasteAccrual_twice_credits_twice order1 order1 (mkBalance 100 0) 500
           (world1 [])); reflexivity || exact I.
Defined.

Lemma updateStatusQuery_unknown (status : string) (orderID : N) (db : DB) :
  orders db !! orderID = None -> updateStatusQuery status orderID db = db.
Proof.
  intros Hnone. destruct db as [os acs bs ws]. unfold updateStatusQuery. simpl in *.
  f_equal. apply map_eq. intros j.
  destruct (decide (j = orderID)) as [->|Hne].
  - rewrite lookup_alter_eq, Hnone. reflexivity.
  - rewrite lookup_alter_ne by congruence. reflexivity.
Qed.

(** X9. The plain status update does not look at the number of rows it
    changed: for an id of the column's range (below 2^63, what a [bigint]
    holds and [database/sql] accepts as an argument) that no order has, it
    returns [nil] when the store answers, and the committed tables are as
    before. *)
Theorem UpdateOrderStatus_unknown_order_succeeds
    (orderID : N) (status : string) (w : World) :
  (orderID < 2 ^ 63)%N ->
  orders (committed w) !! orderID = None ->
  status = OrderStatusNew \/ status = OrderStatusProcessing \/ status = OrderStatusInvalid ->
  answering 2 (script w) ->
  fst (OrderRepository.UpdateOrderStatus orderID status w) = None /\
  committed (snd (OrderRepository.UpdateOrderStatus orderID status w)) = committed w.
Proof.
  intros _ Hnone Hst Hans.
  rewrite UpdateOrderStatus_answering by assumption. simpl.
  split; [reflexivity|]. apply updateStatusQuery_unknown. exact Hnone.
Qed.

Lemma UpdateOrderStatus_unknown_order_succeeds_witness :
  fst (OrderRepository.UpdateOrderStatus 42 OrderStatusInvalid (world1 [])) = None /\
  committed (snd (OrderRepository.UpdateOrderStatus 42 OrderStatusInvalid (world1 [])))
    = committed (world1 []).
Proof.
  apply (UpdateOrderStatus_unknown_order_succeeds 42 OrderStatusInvalid (world1 [])).
  - reflexivity.
  - reflexivity.
  - right. right. reflexivity.
  - exact I.
Defined.

(** ** The withdrawal handler, once more *)

(** X10. For every request whose amount is not 0, with whatever body,
    header and failures of the store: when [CreateWithdrawalHandler] returns,
    it has written exactly one status code. *)
Theorem CreateWithdrawalHandler_one_status_code
    (luhn_Valid : Z -> bool) (request : CreateWithdrawalHandler.Request)
    (w w' : World) (writes : list write) :
  (forall requestData, CreateWithdrawalHandler.Body request = Some requestData ->
                       ~ (models.Amount requestData == 0)%Q) ->
  CreateWithdrawalHandler.ServeHTTP luhn_Valid request w = (writes, Ret tt, w') ->
  exists code, status_codes writes = [code].
Proof.
  intros Hamount. unfold CreateWithdrawalHandler.ServeHTTP.
  destruct (strings_Contains (CreateWithdrawalHandler.ContentType request)
              "application/json"); simpl.
  2: { intros [= <- <-]. eexists. reflexivity. }
  destruct (CreateWithdrawalHandler.Body request) as [requestData|].
  2: { intros [= <- <-]. eexists. reflexivity. }
  specialize (Hamount requestData eq_refl).
  destruct (Atoi (models.Order requestData)) as [n|e].
  2: { intros [= <- <-]. eexists. reflexivity. }
  destruct (luhn_Valid n); simpl.
  2: { intros [= <- <-]. eexists. reflexivity. }
  destruct (Qeq_bool (models.Amount requestData) 0) eqn:Hzero.
  { apply Qeq_bool_iff in Hzero. contradiction. }
  destruct (CreateWithdrawalHandler.ContextUserID request) as [userID|].
  2: { discriminate. }
  unfold bind, ret.
  destruct (WithdrawalService.Create (models.Order requestData)
              (models.Amount requestData) userID w) as [[[id [e|]]| |] w1].
  - repeat case_bool_decide; intros [= <- <-]; eexists; reflexivity.
  - intros [= <- <-]. eexists. reflexivity.
  - discriminate.
  - discriminate.
Qed.

Lemma CreateWithdrawalHandler_one_status_code_witness :
  exists code,
    status_codes (fst (fst (CreateWithdrawalHandler.ServeHTTP luhn.Valid request_150
                              (world1 [])))) = [code].
Proof.
  apply (CreateWithdrawalHandler_one_status_code luhn.Valid request_150 (world1 [])
           (snd (CreateWithdrawalHandler.ServeHTTP luhn.Valid request_150 (world1 [])))).
  - intros requestData [= <-]. discriminate.
  - reflexivity.
Defined.

(** 150 points asked from a balance of 100: the one code is 402. *)
Example CreateWithdrawalHandler_payment_required :
  status_codes (fst (fst (CreateWithdrawalHandler.ServeHTTP luhn.Valid request_150
                            (world1 [])))) = [StatusPaymentRequired].
Proof. reflexivity. Qed.

(** ** Registering and reading orders *)

Lemma elem_of_orderRows (db : DB) (o : Order) :
  o ∈ orderRows db <-> exists k, orders db !! k = Some o.
Proof.
  unfold orderRows. rewrite list_elem_of_fmap. split.
  - intros ([k x] & -> & Hin). apply elem_of_map_to_list in Hin. eauto.
  - intros (k & Hk). exists (k, o). split; [reflexivity|].
    apply elem_of_map_to_list. exact Hk.
Qed.

Lemma head_filter_only {A : Type} (P : A -> Prop) `{forall x, Decision (P x)}
    (l : list A) (a : A) :
  a ∈ l -> P a -> (forall x, x ∈ l -> P x -> x = a) ->
  head (filter P l) = Some a.
Proof.
  intros Hin Ha Honly.
  destruct (filter P l) as [|x rest] eqn:Hf.
  - exfalso. eapply filter_nil_not_elem_of; eauto.
  - simpl. f_equal. apply Honly.
    + assert (x ∈ filter P l) as Hx by (rewrite Hf; left).
      apply list_elem_of_filter in Hx. tauto.
    + assert (x ∈ filter P l) as Hx by (rewrite Hf; left).
      apply list_elem_of_filter in Hx. tauto.
Qed.

Lemma selectOrderByNumber_None (number : string) (db : DB) (k : N) (o : Order) :
  selectOrderByNumber number db = None ->
  orders db !! k = Some o -> Number o <> number.
Proof.
  unfold selectOrderByNumber. intros Hnone Hk Hnum.
  destruct (filter (fun o => Number o = number) (orderRows db)) as [|x rest] eqn:Hf;
    [|discriminate].
  eapply filter_nil_not_elem_of; [exact Hf|exact Hnum|].
  apply elem_of_orderRows. eauto.
Qed.

Lemma nextOrderID_fresh (db : DB) : orders db !! nextOrderID db = None.
Proof.
  unfold nextOrderID. apply not_elem_of_dom. apply is_fresh.
Qed.

(** The row an accepted registration writes. *)
Lemma insertOrderReturning_found
    (created_at : DB -> Z) (number : string) (user_id : N) (db db' : DB) (o : Order) :
  insertOrderReturning created_at number user_id db = inl (db', Some o) ->
  selectOrderByNumber number db' = Some o.
Proof.
  unfold insertOrderReturning.
  destruct (selectOrderByNumber number db) as [x|] eqn:Hsel; [discriminate|].
  intros [= <- <-]. unfold selectOrderByNumber.
  apply head_filter_only.
  - apply elem_of_orderRows. exists (nextOrderID db). simpl. apply lookup_insert_eq.
  - reflexivity.
  - intros x Hx Hnum. apply elem_of_orderRows in Hx as (k & Hk). simpl in Hk.
    destruct (decide (k = nextOrderID db)) as [->|Hne].
    + rewrite lookup_insert_eq in Hk. congruence.
    + rewrite lookup_insert_ne in Hk by congruence.
      exfalso. exact (selectOrderByNumber_None number db k x Hsel Hk Hnum).
Qed.

Lemma OrderRepository_Create_answering
    (created_at : DB -> Z) (number : string) (userID : N) (w : World) :
  selectOrderByNumber number (committed w) = None ->
  answering 3 (script w) ->
  let o := mkOrder (nextOrderID (committed w)) userID number OrderStatusNew
             (created_at (committed w)) in
  OrderRepository.Create created_at number userID w
    = ((o, None),
       mkWorld (mkDB (<[nextOrderID (committed w) := o]> (orders (committed w)))
                  (accruals (committed w)) (balances (committed w))
                  (withdrawals (committed w)))
         (tx w) (drop 3 (script w))).
Proof.
  intros Hsel Hans. unfold OrderRepository.Create.
  destruct w as [db t s]. simpl in *.
  cbv [bind ret driver PoolPrepare PoolQueryRow Scan]. simpl.
  unfold insertOrderReturning.
  repeat (first [ next_answer; simpl in Hans; try contradiction
                | rewrite Hsel; simpl ];
          try reflexivity).
Qed.

Lemma OrderRepository_Create_taken
    (created_at : DB -> Z) (number : string) (userID : N) (w : World) (o : Order) :
  selectOrderByNumber number (committed w) = Some o ->
  answering 2 (script w) ->
  OrderRepository.Create created_at number userID w
    = ((zeroOrder, Some ErrOrderAlreadyExists),
       mkWorld (committed w) (tx w) (drop 2 (script w))).
Proof.
  intros Hsel Hans. unfold OrderRepository.Create.
  destruct w as [db t s]. simpl in *.
  cbv [bind ret driver PoolPrepare PoolQueryRow Scan]. simpl.
  unfold insertOrderReturning.
  repeat (first [ next_answer; simpl in Hans; try contradiction
                | rewrite Hsel; simpl ];
          try reflexivity).
Qed.

Lemma OrderRepository_Read_found (number : string) (w : World) (o : Order) :
  selectOrderByNumber number (committed w) = Some o ->
  answering 3 (script w) ->
  OrderRepository.Read number w
    = ((mkOrder (ID o) (UserID o) number (Status o) (CreatedAt o), None),
       mkWorld (committed w) (tx w) (drop 3 (script w))).
Proof.
  intros Hsel Hans. unfold OrderRepository.Read.
  destruct w as [db t s]. simpl in *.
  cbv [bind ret driver PoolPrepare PoolQueryRow Scan]. simpl.
  repeat (first [ next_answer; simpl in Hans; try contradiction
                | rewrite Hsel; simpl ];
          try reflexivity).
Qed.

(** X11. A registration the store accepts (the number is not taken, the
    driver answers) returns an id no order had, adds one NEW order of the
    caller under that id and leaves every other order as it was; a [Read] of
    the number then returns that order. *)
Theorem Create_then_Read
    (created_at : DB -> Z) (number : string) (userID : N) (w : World) :
  selectOrderByNumber number (committed w) = None ->
  answering 6 (script w) ->
  let created := OrderService.Create created_at number userID w in
  let id := fst (fst created) in
  let o := mkOrder id userID number OrderStatusNew (created_at (committed w)) in
  snd (fst created) = None /\
  orders (committed w) !! id = None /\
  orders (committed (snd created)) !! id = Some o /\
  (forall k, k <> id -> orders (committed (snd created)) !! k = orders (committed w) !! k) /\
  fst (OrderRepository.Read number (snd created)) = (o, None).
Proof.
  intros Hsel Hans. simpl.
  unfold OrderService.Create, bind, ret.
  rewrite OrderRepository_Create_answering
    by first [assumption | apply (answering_le 6); [lia|assumption]].
  simpl. split; [reflexivity|]. split; [apply nextOrderID_fresh|].
  split; [apply lookup_insert_eq|].
  split; [intros k Hne; apply lookup_insert_ne; congruence|].
  rewrite (OrderRepository_Read_found number _
             (mkOrder (nextOrderID (committed w)) userID number OrderStatusNew
                (created_at (committed w)))).
  - reflexivity.
  - simpl. eapply insertOrderReturning_found. unfold insertOrderReturning.
    rewrite Hsel. reflexivity.
  - simpl. apply (answering_drop 3 3). exact Hans.
Qed.

Lemma Create_then_Read_witness :
  let created := OrderService.Create created_at_99 "34" 8 (world2 []) in
  let id := fst (fst created) in
  let o := mkOrder id 8 "34" OrderStatusNew (created_at_99 (committed (world2 []))) in
  snd (fst created) = None /\
  orders (committed (world2 [])) !! id = None /\
  orders (committed (snd created)) !! id = Some o /\
  (forall k, k <> id ->
             orders (committed (snd created)) !! k = orders (committed (world2 [])) !! k) /\
  fst (OrderRepository.Read "34" (snd created)) = (o, None).
Proof.
  apply (Create_then_Read created_at_99 "34" 8 (world2 [])).
  - reflexivity.
  - exact I.
Defined.

(** X12. A registration of a number that an order already has, when the
    driver answers: the caller who owns that order is answered
    [ErrOrderAlreadyRegisteredByCurrentUser], any other caller
    [ErrOrderAlreadyExists]; the id returned is 0 and the committed tables
    are as before, so no second order is created. *)
Theorem Create_number_taken
    (created_at : DB -> Z) (number : string) (userID : N) (w : World) (o : Order) :
  selectOrderByNumber number (committed w) = Some o ->
  answering 5 (script w) ->
  fst (OrderService.Create created_at number userID w)
    = (0, Some (if (UserID o =? userID)%N then ErrOrderAlreadyRegisteredByCurrentUser
                else ErrOrderAlreadyExists)) /\
  committed (snd (OrderService.Create created_at number userID w)) = committed w.
Proof.
  intros Hsel Hans.
  unfold OrderService.Create, bind, ret.
  rewrite (OrderRepository_Create_taken created_at number userID w o)
    by first [assumption | apply (answering_le 5); [lia|assumption]].
  simpl.
  rewrite (OrderRepository_Read_found number _ o)
    by first [simpl; assumption | simpl; apply (answering_drop 2 3); assumption].
  simpl. destruct (UserID o =? userID)%N; simpl; split; reflexivity.
Qed.

Lemma Create_number_taken_witness :
  fst (OrderService.Create created_at_99 "18" 7 (world2 []))
    = (0, Some (if (UserID order2 =? 7)%N then ErrOrderAlreadyRegisteredByCurrentUser
                else ErrOrderAlreadyExists)) /\
  committed (snd (OrderService.Create created_at_99 "18" 7 (world2 []))) = committed (world2 []).
Proof.
  apply (Create_number_taken created_at_99 "18" 7 (world2 []) order2).
  - reflexivity.
  - exact I.
Defined.

(** X13. [OrderRepository.Read] returns the zero order with a nil error
    when its query fails (it returns the error of the prepare, which is nil
    there).  So a user who submits his own order again while that query
    fails is answered [ErrOrderAlreadyExists], the answer meant for an order
    of somebody else. *)
Theorem Create_own_order_reported_as_conflict
    (created_at : DB -> Z) (number : string) (userID : N) (db : DB) (t : option DB)
    (o : Order) (f : fault) (rest : list (option fault)) :
  selectOrderByNumber number db = Some o ->
  UserID o = userID ->
  userID <> 0 ->
  OrderRepository.Read number (mkWorld db t ([None; Some f] ++ rest))
    = ((zeroOrder, None), mkWorld db t rest) /\
  OrderService.Create created_at number userID
    (mkWorld db t ([None; None; None; Some f] ++ rest))
    = ((0, Some ErrOrderAlreadyExists), mkWorld db t rest).
Proof.
  intros Hsel Hown Hnz. split; [reflexivity|].
  unfold OrderService.Create, bind, ret.
  rewrite (OrderRepository_Create_taken created_at number userID _ o) by (assumption || exact I).
  simpl. destruct userID as [|p]; [congruence|]. reflexivity.
Qed.

Lemma Create_own_order_reported_as_conflict_witness :
  OrderRepository.Read "18"
    (mkWorld store2 None ([None; Some (DriverFault "bad connection")] ++ []))
    = ((zeroOrder, None), mkWorld store2 None []) /\
  OrderService.Create created_at_99 "18" 7
    (mkWorld store2 None ([None; None; None; Some (DriverFault "bad connection")] ++ []))
    = ((0, Some ErrOrderAlreadyExists), mkWorld store2 None []).
Proof.
  apply (Create_own_order_reported_as_conflict created_at_99 "18" 7 store2 None order2
           (DriverFault "bad connection") []).
  - reflexivity.
  - reflexivity.
  - discriminate.
Defined.

(** ** The orders picked for processing *)

#[local] Instance created_before_total : Total created_before.
Proof. intros o1 o2. unfold created_before. lia. Qed.

#[local] Instance created_after_total : Total created_after.
Proof. intros o1 o2. unfold created_after. lia. Qed.

Lemma Sorted_take {A : Type} (R : relation A) (l : list A) (k : nat) :
  Sorted R l -> Sorted R (take k l).
Proof.
  intros Hs. revert k. induction Hs as [|x l Hs IH Hhd]; intros k.
  - rewrite take_nil. constructor.
  - destruct k as [|k]; simpl; [constructor|].
    constructor; [apply IH|].
    destruct Hhd as [|y l' Hxy]; [rewrite take_nil; constructor|].
    destruct k; simpl; constructor. exact Hxy.
Qed.

(** The loop reads the rows in order and stops early or not at all; it
    does not write. *)
Lemma forNextScan_run {A : Type} (pending acc : list A) (w : World) :
  committed (snd (forNextScan pending acc w)) = committed w /\
  tx (snd (forNextScan pending acc w)) = tx w /\
  forall l, fst (forNextScan pending acc w) = inl l ->
            exists k, l = (acc ++ take k pending)%list.
Proof.
  revert acc w. induction pending as [|x pending IH]; intros acc w.
  - simpl. unfold ret. simpl. repeat split.
    intros l [= <-]. exists O. rewrite app_nil_r. reflexivity.
  - destruct w as [db t s]. simpl. cbv [bind ret driver]. simpl.
    destruct s as [|[f|] s]; simpl.
    + destruct (IH (acc ++ [x])%list (mkWorld db t [])) as (Hc & Ht & Hl).
      simpl in *. repeat split; try assumption.
      intros l Hfst. destruct (Hl l Hfst) as (k & ->).
      exists (S k). rewrite <- app_assoc. reflexivity.
    + repeat split. intros l [= <-]. exists O. rewrite app_nil_r. reflexivity.
    + destruct s as [|[f|] s]; simpl.
      * destruct (IH (acc ++ [x])%list (mkWorld db t [])) as (Hc & Ht & Hl).
        simpl in *. repeat split; try assumption.
        intros l Hfst. destruct (Hl l Hfst) as (k & ->).
        exists (S k). rewrite <- app_assoc. reflexivity.
      * repeat split. intros l Hl. discriminate Hl.
      * destruct (IH (acc ++ [x])%list (mkWorld db t s)) as (Hc & Ht & Hl).
        simpl in *. repeat split; try assumption.
        intros l Hfst. destruct (Hl l Hfst) as (k & ->).
        exists (S k). rewrite <- app_assoc. reflexivity.
Qed.

Lemma forNextScan_exhausted {A : Type} (pending acc : list A) (db : DB) (t : option DB) :
  forNextScan pending acc (mkWorld db t []) = (inl (acc ++ pending)%list, mkWorld db t []).
Proof.
  revert acc. induction pending as [|x pending IH]; intros acc; simpl.
  - rewrite app_nil_r. reflexivity.
  - cbv [bind ret driver]. simpl. rewrite IH, <- app_assoc. reflexivity.
Qed.

Lemma forNextScan_truncated {A : Type} (pending acc : list A) (db : DB) (t : option DB)
    (k : nat) (f : fault) (rest : list (option fault)) :
  (k < length pending)%nat ->
  forNextScan pending acc (mkWorld db t (replicate (2 * k) None ++ Some f :: rest))
    = (inl (acc ++ take k pending)%list, mkWorld db t rest).
Proof.
  revert pending acc. induction k as [|k IH]; intros pending acc Hlt.
  - destruct pending as [|x pending]; [simpl in Hlt; lia|].
    simpl. cbv [bind ret driver]. simpl. rewrite app_nil_r. reflexivity.
  - destruct pending as [|x pending]; [simpl in Hlt; lia|].
    replace (2 * S k)%nat with (S (S (2 * k))) by lia.
    simpl. cbv [bind ret driver]. simpl.
    rewrite IH by (simpl in Hlt; lia). rewrite <- app_assoc. reflexivity.
Qed.

(** The loop over the rows of a query, inside a listing function. *)
Ltac loop_rows rows db t s' :=
  let Hc := fresh "Hc" in
  let Ht := fresh "Ht" in
  let Hl := fresh "Hl" in
  let k := fresh "k" in
  destruct (forNextScan_run rows [] (mkWorld db t s')) as (Hc & Ht & Hl);
  destruct (forNextScan rows [] (mkWorld db t s')) as [[?l|?e] ?w']; simpl in *;
  [ repeat split; try assumption; destruct (Hl _ eq_refl) as (k & ->); eauto
  | repeat split; try assumption; exists O; reflexivity ].

Lemma ReadByStatus_run (status : string) (w : World) :
  committed (snd (OrderRepository.ReadByStatus status w)) = committed w /\
  tx (snd (OrderRepository.ReadByStatus status w)) = tx w /\
  exists k, fst (fst (OrderRepository.ReadByStatus status w))
            = take k (selectOrdersByStatus status (committed w)).
Proof.
  unfold OrderRepository.ReadByStatus.
  destruct w as [db t s]. cbv [bind ret driver PoolPrepare PoolQuery]. simpl.
  destruct s as [|[f|] s]; simpl.
  - loop_rows (selectOrdersByStatus status db) db t (@nil (option fault)).
  - repeat split. exists O. reflexivity.
  - destruct s as [|[f|] s]; simpl.
    + loop_rows (selectOrdersByStatus status db) db t (@nil (option fault)).
    + repeat split. exists O. reflexivity.
    + loop_rows (selectOrdersByStatus status db) db t s.
Qed.

Lemma elem_of_selectOrdersByStatus (status : string) (db : DB) (o : Order) :
  o ∈ selectOrdersByStatus status db <->
  Status o = status /\ exists k, orders db !! k = Some o.
Proof.
  unfold selectOrdersByStatus.
  rewrite merge_sort_Permutation, list_elem_of_filter, elem_of_orderRows. reflexivity.
Qed.

Lemma GetOrdersForProcessing_eq (w : World) :
  OrderService.GetOrdersForProcessing w = OrderRepository.ReadByStatus "NEW" w.
Proof.
  unfold OrderService.GetOrdersForProcessing, bind, ret.
  pose proof (ReadByStatus_run "NEW" w) as Hrun.
  unfold OrderRepository.ReadByStatus in *.
  destruct w as [db t s]. revert Hrun.
  cbv [bind ret driver PoolPrepare PoolQuery]. simpl.
  destruct s as [|[f|] s]; simpl; try reflexivity.
  - destruct (forNextScan (selectOrdersByStatus "NEW" db) [] (mkWorld db t []))
      as [[l|e] w']; reflexivity.
  - destruct s as [|[f|] s]; simpl; try reflexivity.
    + destruct (forNextScan (selectOrdersByStatus "NEW" db) [] (mkWorld db t []))
        as [[l|e] w']; reflexivity.
    + destruct (forNextScan (selectOrdersByStatus "NEW" db) [] (mkWorld db t s))
        as [[l|e] w']; reflexivity.
Qed.

(** X14. Whatever the driver does, the orders [GetOrdersForProcessing]
    returns are NEW orders of the store, oldest first, and the call writes
    nothing.  When the driver answers every call, it returns no error and
    every NEW order of the store is among them. *)
Theorem GetOrdersForProcessing_sound_and_complete (w : World) :
  let r := OrderService.GetOrdersForProcessing w in
  committed (snd r) = committed w /\
  Sorted created_before (fst (fst r)) /\
  (forall o, o ∈ fst (fst r) ->
             Status o = OrderStatusNew /\ exists k, orders (committed w) !! k = Some o) /\
  (script w = [] ->
   snd (fst r) = None /\
   forall k o, orders (committed w) !! k = Some o -> Status o = OrderStatusNew ->
               o ∈ fst (fst r)).
Proof.
  simpl. rewrite GetOrdersForProcessing_eq.
  destruct (ReadByStatus_run "NEW" w) as (Hc & _ & k & Hk).
  split; [exact Hc|]. split; [|split].
  - rewrite Hk. apply Sorted_take. unfold selectOrdersByStatus.
    apply Sorted_merge_sort. apply _.
  - intros o Ho. rewrite Hk in Ho. apply subseteq_take in Ho.
    apply elem_of_selectOrdersByStatus in Ho. exact Ho.
  - intros Hs. destruct w as [db t s]. simpl in Hs. subst s. clear Hk Hc.
    unfold OrderRepository.ReadByStatus.
    cbv [bind ret driver PoolPrepare PoolQuery]. simpl.
    rewrite forNextScan_exhausted. simpl. split; [reflexivity|].
    intros j o Hj Hst. apply elem_of_selectOrdersByStatus. eauto.
Qed.

Lemma GetOrdersForProcessing_sound_and_complete_witness :
  snd (fst (OrderService.GetOrdersForProcessing (world2 []))) = None /\
  forall k o, orders (committed (world2 [])) !! k = Some o -> Status o = OrderStatusNew ->
              o ∈ fst (fst (OrderService.GetOrdersForProcessing (world2 []))).
Proof.
  apply (GetOrdersForProcessing_sound_and_complete (world2 [])). reflexivity.
Defined.

(** The two NEW orders of the example store, the older one first; order 1
    is in flight and is left out. *)
Example GetOrdersForProcessing_example :
  fst (OrderService.GetOrdersForProcessing (world2 [])) = ([order2; order3], None).
Proof. reflexivity. Qed.

(** X15. When [rows.Next] fails after [k] orders were read, the loop just
    ends: [GetOrdersForProcessing] returns the first [k] orders and a nil
    error, so the failure goes unnoticed and the other NEW orders are left
    out of the cycle. *)
Theorem GetOrdersForProcessing_truncated
    (db : DB) (t : option DB) (k : nat) (f : fault) (rest : list (option fault)) :
  (k < length (selectOrdersByStatus OrderStatusNew db))%nat ->
  OrderService.GetOrdersForProcessing
    (mkWorld db t ([None; None] ++ replicate (2 * k) None ++ Some f :: rest))
  = ((take k (selectOrdersByStatus OrderStatusNew db), None), mkWorld db t rest).
Proof.
  intros Hk. rewrite GetOrdersForProcessing_eq.
  pose proof (forNextScan_truncated (selectOrdersByStatus OrderStatusNew db) [] db t k f rest Hk)
    as Hloop.
  remember (replicate (2 * k) None ++ Some f :: rest)%list as s' eqn:Hs'.
  unfold OrderRepository.ReadByStatus.
  cbv [bind ret driver PoolPrepare PoolQuery]. simpl.
  change (selectOrdersByStatus "NEW" db) with (selectOrdersByStatus OrderStatusNew db).
  rewrite Hloop. reflexivity.
Qed.

Lemma GetOrdersForProcessing_truncated_witness :
  OrderService.GetOrdersForProcessing
    (mkWorld store2 None
       ([None; None] ++ replicate (2 * 1) None ++ Some (DriverFault "bad connection") :: []))
  = ((take 1 (selectOrdersByStatus OrderStatusNew store2), None), mkWorld store2 None []).
Proof.
  apply (GetOrdersForProcessing_truncated store2 None 1 (DriverFault "bad connection") []).
  vm_compute. lia.
Defined.

(** ** One turn of the poller *)

Lemma marked_lookup (ids : list N) (db : DB) (k : N) :
  orders (marked ids db) !! k
    = if decide (k ∈ ids) then withStatus OrderStatusProcessing <$> orders db !! k
      else orders db !! k.
Proof.
  revert db. induction ids as [|i ids IH]; intros db.
  - simpl. destruct (decide (k ∈ [])) as [Hin|_]; [inversion Hin|reflexivity].
  - simpl. change (foldl _ ?d ids) with (marked ids d). rewrite IH. simpl.
    destruct (decide (k = i)) as [->|Hne].
    + rewrite lookup_alter_eq.
      destruct (decide (i ∈ ids)), (decide (i ∈ i :: ids)) as [|Hn];
        try (exfalso; apply Hn; left);
        destruct (orders db !! i); reflexivity.
    + rewrite lookup_alter_ne by congruence.
      destruct (decide (k ∈ ids)) as [Hin|Hnin], (decide (k ∈ i :: ids)) as [Hin'|Hnin'];
        try reflexivity.
      * exfalso. apply Hnin'. right. exact Hin.
      * exfalso. apply elem_of_cons in Hin' as [?|?]; contradiction.
Qed.

Lemma dispatch_run (todo sent : list Order) (w : World) :
  exists done rest,
    todo = (done ++ rest)%list /\
    snd (fst (OrderService.dispatch todo sent w)) = (sent ++ done)%list /\
    committed (snd (OrderService.dispatch todo sent w))
      = marked (ID <$> done) (committed w) /\
    (script w = [] ->
     rest = [] /\ fst (fst (OrderService.dispatch todo sent w)) = None /\
     script (snd (OrderService.dispatch todo sent w)) = []).
Proof.
  revert sent w. induction todo as [|order todo IH]; intros sent w.
  - exists [], []. simpl. rewrite app_nil_r. unfold ret. simpl. repeat split; auto.
  - simpl. unfold bind.
    pose proof (UpdateOrderStatus_run (ID order) OrderStatusProcessing w) as Hrun.
    destruct (OrderRepository.UpdateOrderStatus (ID order) OrderStatusProcessing w)
      as [[e|] w1] eqn:Hcall.
    + exists [], (order :: todo). simpl. rewrite app_nil_r.
      destruct Hrun as [Hc _]. unfold ret. simpl.
      split; [reflexivity|]. split; [reflexivity|]. split; [exact Hc|].
      intros Hs. exfalso.
      rewrite UpdateOrderStatus_answering in Hcall; [discriminate| |rewrite Hs; exact I].
      right; left; reflexivity.
    + destruct Hrun as (_ & Hc & _).
      destruct (IH (sent ++ [order])%list w1) as (done & rest & -> & Hsent & Hdb & Hall).
      exists (order :: done), rest. simpl. rewrite Hsent, <- app_assoc, Hdb, Hc.
      split; [reflexivity|]. split; [reflexivity|]. split; [reflexivity|].
      intros Hs. apply Hall.
      rewrite UpdateOrderStatus_answering in Hcall;
        [|right; left; reflexivity|rewrite Hs; exact I].
      injection Hcall as <-. simpl. rewrite Hs. reflexivity.
Qed.

(** One turn of the poller, whatever the driver does: the orders sent are
    a first part of the NEW orders, oldest first, and the store is the
    one where exactly they were marked. *)
Lemma pollCycle_run (w : World) :
  exists k,
    snd (fst (OrderService.pollCycle w))
      = take k (selectOrdersByStatus OrderStatusNew (committed w)) /\
    committed (snd (OrderService.pollCycle w))
      = marked (ID <$> snd (fst (OrderService.pollCycle w))) (committed w) /\
    (script w = [] ->
     fst (fst (OrderService.pollCycle w)) = None /\
     snd (fst (OrderService.pollCycle w))
       = selectOrdersByStatus OrderStatusNew (committed w) /\
     script (snd (OrderService.pollCycle w)) = []).
Proof.
  unfold OrderService.pollCycle, bind. rewrite GetOrdersForProcessing_eq.
  destruct (ReadByStatus_run "NEW" w) as (Hc & _ & k & Hk).
  assert (script w = [] ->
          OrderRepository.ReadByStatus "NEW" w
          = ((selectOrdersByStatus "NEW" (committed w), None), w)) as Hall.
  { intros Hs. destruct w as [db t s]. simpl in Hs. subst s.
    unfold OrderRepository.ReadByStatus.
    cbv [bind ret driver PoolPrepare PoolQuery]. simpl.
    rewrite forNextScan_exhausted. reflexivity. }
  destruct (OrderRepository.ReadByStatus "NEW" w) as [[found [e|]] w1]; simpl in *.
  - exists O. unfold ret. simpl.
    split; [reflexivity|]. split; [exact Hc|].
    intros Hs. specialize (Hall Hs). discriminate Hall.
  - destruct (dispatch_run found [] w1) as (done & rest & Hsplit & Hsent & Hdb & Hdone).
    simpl in Hsent. rewrite Hsent, Hdb, Hc.
    exists (length done). split; [|split; [reflexivity|]].
    + change (selectOrdersByStatus OrderStatusNew (committed w))
        with (selectOrdersByStatus "NEW" (committed w)).
      assert (length done <= k)%nat as Hlen.
      { assert (length found <= k)%nat as Hf by (rewrite Hk, length_take; lia).
        rewrite Hsplit, length_app in Hf. lia. }
      rewrite <- (take_app_length done rest) at 1.
      rewrite <- Hsplit, Hk, take_take. f_equal. lia.
    + intros Hs. specialize (Hall Hs). injection Hall as -> ->.
      destruct (Hdone Hs) as (-> & Hnone & Hscript).
      rewrite app_nil_r in Hsplit. subst done. auto.
Qed.

Lemma wellFormed_marked (ids : list N) (db : DB) :
  wellFormed db -> wellFormed (marked ids db).
Proof.
  intros Hwf k o. rewrite marked_lookup.
  destruct (decide (k ∈ ids)); [|apply Hwf].
  destruct (orders db !! k) as [x|] eqn:Hx; simpl; [|discriminate].
  intros [= <-]. simpl. apply (Hwf k x Hx).
Qed.

(** X16. One turn of the poller on a store that keeps every order under its
    id, whatever the driver does: every order handed to the workers was a
    NEW order of the store, and afterwards the store holds exactly the
    handed orders as PROCESSING and every other order as it was.  When the
    driver answers every call, the turn ends without error and every NEW
    order was handed over. *)
Theorem pollCycle_marks_what_it_sends (w : World) :
  wellFormed (committed w) ->
  let r := OrderService.pollCycle w in
  (forall o, o ∈ snd (fst r) ->
             Status o = OrderStatusNew /\ orders (committed w) !! ID o = Some o) /\
  (forall k, orders (committed (snd r)) !! k
             = if decide (k ∈ ID <$> snd (fst r))
               then withStatus OrderStatusProcessing <$> orders (committed w) !! k
               else orders (committed w) !! k) /\
  (script w = [] ->
   fst (fst r) = None /\
   forall k o, orders (committed w) !! k = Some o -> Status o = OrderStatusNew ->
               o ∈ snd (fst r)).
Proof.
  intros Hwf. simpl.
  destruct (pollCycle_run w) as (k & Hsent & Hdb & Hall).
  split; [|split].
  - intros o Ho. rewrite Hsent in Ho. apply subseteq_take in Ho.
    apply elem_of_selectOrdersByStatus in Ho as (Hst & j & Hj).
    split; [exact Hst|]. rewrite (Hwf j o Hj). exact Hj.
  - intros j. rewrite Hdb. apply marked_lookup.
  - intros Hs. destruct (Hall Hs) as (Hnone & Hfull & _).
    split; [exact Hnone|]. intros j o Hj Hst. rewrite Hfull.
    apply elem_of_selectOrdersByStatus. eauto.
Qed.

Lemma store2_wellFormed : wellFormed store2.
Proof.
  change (map_Forall (fun k o => ID o = k) (orders store2)).
  apply (bool_decide_unpack _). vm_compute. exact I.
Qed.

Lemma pollCycle_marks_what_it_sends_witness :
  let r := OrderService.pollCycle (world2 []) in
  (forall o, o ∈ snd (fst r) ->
             Status o = OrderStatusNew /\ orders (committed (world2 [])) !! ID o = Some o) /\
  (forall k, orders (committed (snd r)) !! k
             = if decide (k ∈ ID <$> snd (fst r))
               then withStatus OrderStatusProcessing <$> orders (committed (world2 [])) !! k
               else orders (committed (world2 [])) !! k) /\
  (script (world2 []) = [] ->
   fst (fst r) = None /\
   forall k o, orders (committed (world2 [])) !! k = Some o -> Status o = OrderStatusNew ->
               o ∈ snd (fst r)).
Proof.
  apply (pollCycle_marks_what_it_sends (world2 [])).
  change (map_Forall (fun k o => ID o = k) (orders store2)).
  apply (bool_decide_unpack _). vm_compute. exact I.
Defined.

(** The turn on the example store: orders 2 and 3 are handed over, oldest
    first, with the status they were read with. *)
Example pollCycle_example :
  fst (OrderService.pollCycle (world2 [])) = (None, [order2; order3]) /\
  (Status <$> orders (committed (snd (OrderService.pollCycle (world2 [])))) !! 2)
    = Some OrderStatusProcessing.
Proof. split; reflexivity. Qed.

(** X17. An order the poller has handed over and for which the authority
    answers REGISTERED is not picked up again: with a store that answers
    every call, the routine of the worker returns nil, the next turn of the
    poller does not send the order, and the order is still PROCESSING after
    it. *)
Theorem REGISTERED_order_is_not_sent_again (w : World) (o : Order) :
  wellFormed (committed w) ->
  script w = [] ->
  orders (committed w) !! ID o = Some o ->
  Status o = OrderStatusNew ->
  let first := OrderService.pollCycle w in
  let after := OrderService.UpdateOrderStatus authority_registered o (snd first) in
  let second := OrderService.pollCycle (snd after) in
  o ∈ snd (fst first) /\
  fst after = None /\
  (forall o', o' ∈ snd (fst second) -> ID o' <> ID o) /\
  (Status <$> orders (committed (snd second)) !! ID o) = Some OrderStatusProcessing.
Proof.
  intros Hwf Hs Ho Hst. cbv zeta.
  rewrite (UpdateOrderStatus_REGISTERED_noop authority_registered o
             (mkExternalOrder (Number o) ExternalOrderStatusRegistered 0))
    by reflexivity.
  cbn [fst snd].
  destruct (pollCycle_run w) as (k & _ & Hdb & Hall).
  destruct (Hall Hs) as (_ & Hsent & _). clear Hall.
  set (w1 := snd (OrderService.pollCycle w)) in *.
  assert (o ∈ snd (fst (OrderService.pollCycle w))) as Hin.
  { rewrite Hsent. apply elem_of_selectOrdersByStatus. eauto. }
  assert (orders (committed w1) !! ID o = Some (withStatus OrderStatusProcessing o)) as Ho1.
  { rewrite Hdb, marked_lookup.
    destruct (decide (ID o ∈ ID <$> snd (fst (OrderService.pollCycle w)))) as [_|Hn].
    - rewrite Ho. reflexivity.
    - exfalso. apply Hn. apply list_elem_of_fmap_2. exact Hin. }
  assert (wellFormed (committed w1)) as Hwf1.
  { rewrite Hdb. apply wellFormed_marked. exact Hwf. }
  destruct (pollCycle_run w1) as (k' & Hsent' & Hdb' & _).
  assert (forall o', o' ∈ snd (fst (OrderService.pollCycle w1)) -> ID o' <> ID o) as Hnot.
  { intros o' Ho' Heq. rewrite Hsent' in Ho'. apply subseteq_take in Ho'.
    apply elem_of_selectOrdersByStatus in Ho' as (Hst' & j & Hj).
    pose proof (Hwf1 j o' Hj) as Hid. rewrite <- Hid, Heq in Hj.
    rewrite Ho1 in Hj. injection Hj as <-. discriminate Hst'. }
  split; [exact Hin|]. split; [reflexivity|]. split; [exact Hnot|].
  rewrite Hdb', marked_lookup.
  destruct (decide (ID o ∈ ID <$> snd (fst (OrderService.pollCycle w1)))) as [Hin'|_].
  - exfalso. apply list_elem_of_fmap in Hin' as (o' & Heq & Ho').
    exact (Hnot o' Ho' (eq_sym Heq)).
  - rewrite Ho1. reflexivity.
Qed.

Lemma REGISTERED_order_is_not_sent_again_witness :
  let first := OrderService.pollCycle (world2 []) in
  let after := OrderService.UpdateOrderStatus authority_registered order2 (snd first) in
  let second := OrderService.pollCycle (snd after) in
  order2 ∈ snd (fst first) /\
  fst after = None /\
  (forall o', o' ∈ snd (fst second) -> ID o' <> ID order2) /\
  (Status <$> orders (committed (snd second)) !! ID order2) = Some OrderStatusProcessing.
Proof.
  apply (REGISTERED_order_is_not_sent_again (world2 []) order2).
  - change (map_Forall (fun k o => ID o = k) (orders store2)).
    apply (bool_decide_unpack _). vm_compute. exact I.
  - reflexivity.
  - reflexivity.
  - reflexivity.
Defined.

(** *** The listings *)

Lemma WithdrawalRepository_ReadAllByUserID_quiet (userID : N) (w : World) :
  script w = [] ->
  WithdrawalRepository.ReadAllByUserID userID w
    = (Ret (selectWithdrawals userID (committed w), None), w).
Proof.
  destruct w as [db t s]. simpl. intros ->.
  unfold WithdrawalRepository.ReadAllByUserID.
  cbv [bind ret driver PoolPrepare PoolQuery]. simpl.
  rewrite forNextScan_exhausted. reflexivity.
Qed.

Lemma OrderRepository_ReadAllByUserID_quiet (userID : N) (w : World) :
  script w = [] ->
  OrderRepository.ReadAllByUserID userID w
    = (selectOrdersWithAccrual userID (committed w), None, w).
Proof.
  destruct w as [db t s]. simpl. intros ->.
  unfold OrderRepository.ReadAllByUserID.
  cbv [bind ret driver PoolPrepare PoolQuery]. simpl.
  rewrite forNextScan_exhausted. reflexivity.
Qed.

Lemma selectWithdrawals_debitCommitted (number : string) (amount : Q) (userID u : N) (db : DB) :
  selectWithdrawals u (debitCommitted number amount userID db)
    = (selectWithdrawals u db
       ++ (if bool_decide (userID = u)
           then [mkWithdrawal (nextWithdrawalID db) amount userID number]
           else []))%list.
Proof.
  unfold selectWithdrawals, debitCommitted, insertWithdrawal, debitBalance. simpl.
  rewrite filter_app. f_equal.
  rewrite filter_cons, filter_nil. simpl.
  destruct (decide (userID = u)) as [He|Hne].
  - rewrite bool_decide_true by assumption. reflexivity.
  - rewrite bool_decide_false by assumption. reflexivity.
Qed.

(** X18. A withdrawal that [WithdrawalRepository.Create] committed is in
    what [WithdrawalRepository.ReadAllByUserID] then lists for its user: the
    listing holds that withdrawal once more and otherwise the entries it
    held before, and the listing of every other user holds what it held
    before.  The query has no ORDER BY, so nothing is said of the order of
    the entries.  For a user who has a balance row that covers the amount,
    an order number no withdrawal carries, and a store that answers every
    call. *)
Theorem withdrawal_then_listed
    (number : string) (amount : Q) (userID : N) (w : World) (b : Balance) :
  balances (committed w) !! userID = Some b ->
  (amount <= balance b)%Q ->
  numberUsed number (committed w) = false ->
  script w = [] ->
  let w' := snd (WithdrawalRepository.Create number amount userID w) in
  forall other, exists before after,
    fst (WithdrawalRepository.ReadAllByUserID other w) = Ret (before, None) /\
    fst (WithdrawalRepository.ReadAllByUserID other w') = Ret (after, None) /\
    after ≡ₚ
      (if bool_decide (other = userID)
       then mkWithdrawal (nextWithdrawalID (committed w)) amount userID number :: before
       else before).
Proof.
  intros Hb Hle Hused Hs w' other. subst w'.
  rewrite (Create_answering number amount userID w b Hb Hle Hused)
    by (rewrite Hs; exact I).
  simpl.
  rewrite !WithdrawalRepository_ReadAllByUserID_quiet
    by first [assumption | simpl; rewrite Hs; reflexivity].
  simpl. eexists _, _. split; [reflexivity|]. split; [reflexivity|].
  rewrite selectWithdrawals_debitCommitted.
  destruct (decide (userID = other)) as [->|Hne].
  - rewrite !bool_decide_true by reflexivity.
    rewrite Permutation_app_comm. reflexivity.
  - rewrite !bool_decide_false by congruence. rewrite app_nil_r. reflexivity.
Qed.

Lemma withdrawal_then_listed_witness :
  exists before after,
    fst (WithdrawalRepository.ReadAllByUserID 7 (world1 [])) = Ret (before, None) /\
    fst (WithdrawalRepository.ReadAllByUserID 7
           (snd (WithdrawalRepository.Create "2377225624" 60 7 (world1 []))))
      = Ret (after, None) /\
    after ≡ₚ
      (if bool_decide (7%N = 7%N)
       then mkWithdrawal (nextWithdrawalID (committed (world1 []))) 60 7 "2377225624" :: before
       else before).
Proof.
  apply (withdrawal_then_listed "2377225624" 60 7 (world1 []) (mkBalance 100 0)).
  - reflexivity.
  - simpl. lra.
  - reflexivity.
  - reflexivity.
Defined.

(** X19. [ReadAllWithdrawalsHandler.ServeHTTP] over a store that answers
    every call: it writes 204 and nothing else exactly when the user of the
    request has no withdrawal row, and otherwise 200, the JSON content type
    and the rows of that user and of no other, in the order of the table. *)
Theorem ReadAllWithdrawalsHandler_answers (userID : N) (w : World) :
  script w = [] ->
  let answer := fst (fst (ReadAllWithdrawalsHandler.ServeHTTP (Some userID) w)) in
  snd (fst (ReadAllWithdrawalsHandler.ServeHTTP (Some userID) w)) = Ret tt /\
  (ReadAllWithdrawalsHandler.writes answer = [WriteHeader StatusNoContent] <->
   forall r, r ∈ withdrawals (committed w) -> withdrawal_user_id r <> userID) /\
  (ReadAllWithdrawalsHandler.writes answer <> [WriteHeader StatusNoContent] ->
   ReadAllWithdrawalsHandler.writes answer = [WriteHeader StatusOK] /\
   ReadAllWithdrawalsHandler.contentType answer = Some "application/json" /\
   exists rows,
     ReadAllWithdrawalsHandler.encoded answer = Some rows /\
     rows `sublist_of` withdrawals (committed w) /\
     forall r, r ∈ rows <-> r ∈ withdrawals (committed w) /\ withdrawal_user_id r = userID).
Proof.
  intros Hs answer. subst answer.
  unfold ReadAllWithdrawalsHandler.ServeHTTP, WithdrawalService.ReadAllByUserID, bind, ret.
  rewrite WithdrawalRepository_ReadAllByUserID_quiet by assumption.
  destruct (selectWithdrawals userID (committed w)) as [|r0 rows] eqn:Hrows; simpl.
  - split; [reflexivity|]. split.
    + split; [|reflexivity]. intros _ r Hin Hu.
      assert (r ∈ selectWithdrawals userID (committed w)) as Hr
        by (unfold selectWithdrawals; apply list_elem_of_filter; split; assumption).
      rewrite Hrows in Hr. inversion Hr.
    + intros Hne. contradiction Hne. reflexivity.
  - split; [reflexivity|]. split.
    + split; [discriminate|]. intros Hnone. exfalso.
      assert (r0 ∈ selectWithdrawals userID (committed w)) as Hr
        by (rewrite Hrows; left).
      unfold selectWithdrawals in Hr. apply list_elem_of_filter in Hr.
      destruct Hr as [Hu Hin]. exact (Hnone r0 Hin Hu).
    + intros _. split; [reflexivity|]. split; [reflexivity|].
      exists (r0 :: rows). split; [reflexivity|]. rewrite <- Hrows. split.
      * unfold selectWithdrawals. apply sublist_filter.
      * intros r. unfold selectWithdrawals. rewrite list_elem_of_filter. tauto.
Qed.

Lemma ReadAllWithdrawalsHandler_answers_witness :
  snd (fst (ReadAllWithdrawalsHandler.ServeHTTP (Some 7) world1_withdrawn)) = Ret tt /\
  ReadAllWithdrawalsHandler.writes
    (fst (fst (ReadAllWithdrawalsHandler.ServeHTTP (Some 7) world1_withdrawn)))
    = [WriteHeader StatusOK].
Proof.
  destruct (ReadAllWithdrawalsHandler_answers 7 world1_withdrawn eq_refl)
    as (Hret & _ & Hrows).
  split; [exact Hret|].
  apply Hrows. vm_compute. discriminate.
Defined.

Lemma elem_of_selectOrdersWithAccrual (userID : N) (db : DB) (o : Order) (a : Accrual) :
  (exists k, orders db !! k = Some o) ->
  UserID o = userID ->
  a ∈ accruals db ->
  accrual_order_id a = ID o ->
  mkOrderWithAccrual o (Some (accrual_amount a)) ∈ selectOrdersWithAccrual userID db.
Proof.
  intros Ho Hu Ha Hid. unfold selectOrdersWithAccrual.
  apply list_elem_of_In, in_flat_map. exists o. split.
  - apply list_elem_of_In. rewrite merge_sort_Permutation, list_elem_of_filter, elem_of_orderRows.
    split; assumption.
  - assert (a ∈ filter (fun a => accrual_order_id a = ID o) (accruals db)) as Hin
      by (apply list_elem_of_filter; split; assumption).
    destruct (filter (fun a => accrual_order_id a = ID o) (accruals db)) as [|a0 joined] eqn:Hj.
    + inversion Hin.
    + apply list_elem_of_In.
      change (mkOrderWithAccrual o (Some (accrual_amount a))
              ∈ (fun a => mkOrderWithAccrual o (Some (accrual_amount a))) <$> (a0 :: joined)).
      apply list_elem_of_fmap. exists a. split; [reflexivity|assumption].
Qed.

(** X20. An order that [UpdateOrderAndPasteAccrual] credited is in what
    [ReadAllOrdersHandler.ServeHTTP] answers to its owner: the handler
    writes 200 and the encoded list has an entry with the order's number
    and upload time, the status PROCESSED and the credited amount; for an
    order the store holds under its id and a store that answers every
    call. *)
Theorem credited_order_is_listed (order o : Order) (amount : Q) (w : World) :
  wellFormed (committed w) ->
  orders (committed w) !! ID order = Some o ->
  script w = [] ->
  let w' := snd (OrderRepository.UpdateOrderAndPasteAccrual
                   order OrderStatusProcessed amount w) in
  let answer := fst (fst (ReadAllOrdersHandler.ServeHTTP (Some (UserID o)) w')) in
  ReadAllOrdersHandler.writes answer = [WriteHeader StatusOK] /\
  exists rows,
    ReadAllOrdersHandler.encoded answer = Some rows /\
    OrdersResponse.mk (Number o) OrderStatusProcessed amount (CreatedAt o) ∈ rows.
Proof.
  intros Hwf Ho Hs w' answer. subst answer w'.
  rewrite UpdateOrderAndPasteAccrual_answering by (rewrite Hs; exact I).
  unfold ReadAllOrdersHandler.ServeHTTP, OrderService.ReadAllByUserID, bind, ret.
  rewrite OrderRepository_ReadAllByUserID_quiet by (simpl; rewrite Hs; reflexivity).
  cbn [fst snd committed].
  set (o' := mkOrder (ID o) (UserID o) (Number o) OrderStatusProcessed (CreatedAt o)).
  set (a := mkAccrual amount (UserID order) (ID order)).
  assert (mkOrderWithAccrual o' (Some (accrual_amount a))
          ∈ selectOrdersWithAccrual (UserID o) (creditCommitted order amount (committed w)))
    as Hin.
  { apply elem_of_selectOrdersWithAccrual.
    - exists (ID order). unfold creditCommitted, creditBalance, insertAccrual, updateStatusQuery.
      simpl. rewrite lookup_alter, Ho, decide_True by reflexivity. reflexivity.
    - reflexivity.
    - unfold creditCommitted, creditBalance, insertAccrual. simpl.
      apply elem_of_app. right. left.
    - simpl. symmetry. apply (Hwf _ _ Ho). }
  destruct (selectOrdersWithAccrual (UserID o) (creditCommitted order amount (committed w)))
    as [|r rows] eqn:Hrows.
  - inversion Hin.
  - simpl. split; [reflexivity|].
    eexists. split; [reflexivity|].
    change (ReadAllOrdersHandler.responseData (mkOrderWithAccrual o' (Some (accrual_amount a)))
            ∈ ReadAllOrdersHandler.responseData <$> (r :: rows)).
    apply list_elem_of_fmap. eexists. split; [reflexivity|exact Hin].
Qed.

Lemma credited_order_is_listed_witness :
  ReadAllOrdersHandler.writes
    (fst (fst (ReadAllOrdersHandler.ServeHTTP (Some 7)
                 (snd (OrderRepository.UpdateOrderAndPasteAccrual
                         order1 OrderStatusProcessed 500 (world2 []))))))
    = [WriteHeader StatusOK].
Proof.
  exact (proj1 (credited_order_is_listed order1 order1 500 (world2 [])
                  store2_wellFormed eq_refl eq_refl)).
Defined.



(** X22. [RegisterOrderHandler.ServeHTTP] on a number that parses and that
    [luhn.Valid] accepts, over a store that answers: exactly one status code
    is written and nothing else, 202 when no order carries the number, 200
    when the caller's own order does, 409 when the order of another user
    does; in the last two cases the committed tables are as before. *)
Theorem RegisterOrderHandler_status
    (luhn_Valid : Z -> bool) (created_at : DB -> Z)
    (request : RegisterOrderHandler.Request) (payload : string) (n : Z)
    (userID : N) (w : World) :
  strings_Contains (RegisterOrderHandler.ContentType request) "text/plain" = true ->
  RegisterOrderHandler.Payload request = Some payload ->
  Atoi payload = inl n ->
  luhn_Valid n = true ->
  RegisterOrderHandler.ContextUserID request = Some userID ->
  answering 5 (script w) ->
  let served := RegisterOrderHandler.ServeHTTP luhn_Valid created_at request w in
  fst served
    = ([WriteHeader (registration_status userID (selectOrderByNumber payload (committed w)))],
       Ret tt) /\
  (selectOrderByNumber payload (committed w) <> None ->
   committed (snd served) = committed w).
Proof.
  intros Hct Hpayload Hatoi Hluhn Huser Hans served. subst served.
  unfold RegisterOrderHandler.ServeHTTP, AtoiValue.
  rewrite Hct, Hpayload, Hatoi, Hluhn, Huser. simpl.
  destruct payload as [|c payload']; [discriminate Hatoi|]. simpl.
  unfold OrderService.Create, bind, ret.
  destruct (selectOrderByNumber (String c payload') (committed w)) as [o|] eqn:Hsel.
  - rewrite (OrderRepository_Create_taken created_at _ userID w o)
      by first [assumption | apply (answering_le 5); [lia|assumption]].
    simpl.
    rewrite (OrderRepository_Read_found _ _ o)
      by first [simpl; assumption | simpl; apply (answering_drop 2 3); assumption].
    simpl. destruct (UserID o =? userID)%N; simpl; split; reflexivity.
  - rewrite OrderRepository_Create_answering
      by first [assumption | apply (answering_le 5); [lia|assumption]].
    simpl. split; [reflexivity|]. intros Hne. contradiction Hne. reflexivity.
Qed.

Lemma RegisterOrderHandler_status_witness :
  fst (RegisterOrderHandler.ServeHTTP luhn.Valid created_at_99 request_18 (world2 []))
    = ([WriteHeader StatusConflict], Ret tt).
Proof.
  exact (proj1 (RegisterOrderHandler_status luhn.Valid created_at_99 request_18 "18" 18 8
                  (world2 []) eq_refl eq_refl eq_refl eq_refl eq_refl I)).
Defined.
